(** * ADB-Gripper: the command wrapper [AdbManager] and the batch uninstall
      worker of the desktop application, embedded and verified.

    Sources: [adb_manager.py] (class [AdbManager]) and [main_app.py]
    (method [_perform_uninstall_threaded]).

    Python [str] values are modelled as Rocq strings whose characters are
    the code points U+0000..U+00FF; the text operations below follow
    CPython's behaviour on that range. *)

From Stdlib Require Import ZArith NArith Ascii String DecimalString.
From stdpp Require Import gmap strings list.

(** ** Python text operations used by the program *)

Module PyStr.

(** [str.isspace] on one character. *)
Definition isspace (c : ascii) : bool :=
  let n := N_of_ascii c in
  (((9 <=? n) && (n <=? 13)) || ((28 <=? n) && (n <=? 32))
   || (n =? 133) || (n =? 160))%N.

(** The line boundaries of [str.splitlines]. *)
Definition is_linebreak (c : ascii) : bool :=
  let n := N_of_ascii c in
  (((10 <=? n) && (n <=? 13)) || ((28 <=? n) && (n <=? 30)) || (n =? 133))%N.

Definition lower_char (c : ascii) : ascii :=
  let n := N_of_ascii c in
  if (((65 <=? n) && (n <=? 90))
      || ((192 <=? n) && (n <=? 222) && negb (n =? 215)))%N
  then ascii_of_N (n + 32) else c.

(** [s.lower()] *)
Fixpoint lower (s : string) : string :=
  match s with
  | EmptyString => EmptyString
  | String c s' => String (lower_char c) (lower s')
  end.

(** [s.startswith(p)] *)
Fixpoint startswith (p s : string) : bool :=
  match p, s with
  | EmptyString, _ => true
  | String a p', String b s' => Ascii.eqb a b && startswith p' s'
  | String _ _, EmptyString => false
  end.

(** [needle in hay] *)
Fixpoint contains (needle hay : string) : bool :=
  startswith needle hay ||
  match hay with
  | EmptyString => false
  | String _ hay' => contains needle hay'
  end.

Definition is_empty (s : string) : bool :=
  match s with EmptyString => true | String _ _ => false end.

(** Python truth value of a [str]. *)
Definition truthy (s : string) : bool := negb (is_empty s).

Fixpoint lstrip_by (f : ascii -> bool) (s : string) : string :=
  match s with
  | EmptyString => EmptyString
  | String c s' => if f c then lstrip_by f s' else s
  end.

Fixpoint rstrip_by (f : ascii -> bool) (s : string) : string :=
  match s with
  | EmptyString => EmptyString
  | String c s' =>
      let r := rstrip_by f s' in
      if f c && is_empty r then EmptyString else String c r
  end.

Definition strip_by (f : ascii -> bool) (s : string) : string :=
  rstrip_by f (lstrip_by f s).

(** [s.strip()] *)
Definition strip : string -> string := strip_by isspace.

Fixpoint mem_char (c : ascii) (chars : string) : bool :=
  match chars with
  | EmptyString => false
  | String d chars' => Ascii.eqb c d || mem_char c chars'
  end.

(** [s.strip(chars)] *)
Definition strip_chars (chars : string) : string -> string :=
  strip_by (fun c => mem_char c chars).

(** [s.split(sep)] for a one-character separator. *)
Fixpoint split_char (sep : ascii) (s : string) : list string :=
  match s with
  | EmptyString => [EmptyString]
  | String c s' =>
      if Ascii.eqb c sep then EmptyString :: split_char sep s'
      else match split_char sep s' with
           | h :: t => String c h :: t
           | [] => [String c EmptyString]
           end
  end.

(** [s.split(sep, 1)] for a one-character separator. *)
Fixpoint split_once (sep : ascii) (s : string) : list string :=
  match s with
  | EmptyString => [EmptyString]
  | String c s' =>
      if Ascii.eqb c sep then [EmptyString; s']
      else match split_once sep s' with
           | h :: t => String c h :: t
           | [] => [String c EmptyString]
           end
  end.

(** [s.splitlines()] *)
Fixpoint splitlines (s : string) : list string :=
  match s with
  | EmptyString => []
  | String c s' =>
      if is_linebreak c then
        EmptyString ::
          (if Ascii.eqb c "013" then
             match s' with
             | String "010" s'' => splitlines s''
             | _ => splitlines s'
             end
           else splitlines s')
      else match splitlines s' with
           | h :: t => String c h :: t
           | [] => [String c EmptyString]
           end
  end.

(** The maximal prefix without white space, and what follows it. *)
Fixpoint take_token (s : string) : string * string :=
  match s with
  | EmptyString => (EmptyString, EmptyString)
  | String c s' =>
      if isspace c then (EmptyString, s)
      else let '(tok, rest) := take_token s' in (String c tok, rest)
  end.

(** [s.split(maxsplit=n)]: fields separated by runs of white space, the
    remainder after [n] splits kept whole. *)
Fixpoint split_ws (maxsplit : nat) (s : string) : list string :=
  match lstrip_by isspace s with
  | EmptyString => []
  | String c s1 =>
      match maxsplit with
      | O => [String c s1]
      | S k => let '(tok, rest) := take_token (String c s1) in
               tok :: split_ws k rest
      end
  end.

(** [sep.join(l)] *)
Definition join (sep : string) (l : list string) : string :=
  String.concat sep l.

(** [str(n)] for an [int]. *)
Definition of_int (n : Z) : string := NilZero.string_of_int (Z.to_int n).

End PyStr.

(** ** The environment of the program *)

(** Severity passed to the status callback (["info"], ["warning"],
    ["error"]). *)
Inductive level := Info | Warning | Error.

(** What [subprocess.run(..., check=False)] can do: complete with the
    captured streams and the exit code, or raise. *)
Inductive run_result :=
| Completed (stdout stderr : string) (returncode : Z)
| FileNotFoundError
| TimeoutExpired
| OtherException (msg : string).

(** Python exceptions that escape a method. *)
Inductive exn := AttributeError (attr : string).

(** Deferred GUI work scheduled with [self.after(0, ...)]. *)
Inductive gui_action :=
| GuiEnableWidgets (on : bool)
| GuiRefreshButtonDisabled
| GuiUninstallButtonDisabled
| GuiUpdateStatus (message : string) (lvl : level)
| GuiHandleUninstallResult (package_name result_status : string)
| GuiListApps.

(** Methods of the manager the application calls. *)
Inductive adb_method := UninstallPackage | DisablePackage.

(** Observable actions, in the order they happen. *)
Inductive event :=
| EvStatus (message : string) (lvl : level)   (* status_callback(message, level) *)
| EvRun (command : list string) (timeout : Z) (* subprocess.run *)
| EvPopen (command : list string)             (* subprocess.Popen *)
| EvTerminate                                 (* logcat_process.terminate() *)
| EvWait (timeout : Z)                        (* logcat_process.wait(timeout) *)
| EvKill                                      (* logcat_process.kill() *)
| EvThreadStart                               (* logcat_thread.start() *)
| EvLogLine (line : string)                   (* callback(line) of the log stream *)
| EvAfter (action : gui_action)               (* self.after(0, action) *)
| EvCall (m : adb_method) (serial package_name : string) (returned : bool).

Definition is_spawn (e : event) : bool :=
  match e with EvRun _ _ | EvPopen _ => true | _ => false end.

(** The manager ([adb_available], the handle of the log stream's child,
    the stop flag of the log stream), the world outside it, and what
    happened so far. *)
Record State (World : Type) := mkState {
  adb_available : bool;
  logcat_process : option nat;
  stop_logcat_event : bool;
  world : World;
  trace : list event
}.

Arguments mkState {World} _ _ _ _ _.
Arguments adb_available {World} _.
Arguments logcat_process {World} _.
Arguments stop_logcat_event {World} _.
Arguments world {World} _.
Arguments trace {World} _.

(** A scripted world, for running the program on concrete inputs: the
    results of the commands to come, served in order; a command past the
    end of the script times out. *)
Definition Script : Type := list run_result.

Definition script_run (command : list string) (timeout : Z) (w : Script)
  : run_result * Script :=
  match w with
  | r :: w' => (r, w')
  | [] => (TimeoutExpired, [])
  end.

Definition script_exists (path : string) (w : Script) : bool := true.

Definition script_popen (command : list string) (w : Script)
  : (nat + string) * Script := (inl 1%nat, w).

Definition script_wait (p : nat) (timeout : Z) (w : Script) : bool * Script :=
  (true, w).

(** A manager with the tool available and no log stream, in the scripted
    world [w]. *)
Definition idle (w : Script) : State Script := mkState true None false w [].

(** [os.path.basename] on a POSIX host: what follows the last slash. *)
Fixpoint posix_basename (path : string) : string :=
  match path with
  | EmptyString => EmptyString
  | String c path' =>
      if PyStr.contains "/" path then posix_basename path' else path
  end.

(** The text of a list of strings without quotes or backslashes, as
    [str] prints it. *)
Definition plain_repr (l : list string) : string :=
  "[" +:+ PyStr.join ", " (map (fun s => "'" +:+ s +:+ "'") l) +:+ "]".

(** The line feed and the tab, for writing inputs. *)
Definition LF : string := String "010" "".
Definition TAB : string := String "009" "".

(** *** Inputs used in the examples *)

(** A listing with its header and one device. *)
Definition listing_example : string :=
  "List of devices attached" +:+ LF +:+
  "emulator-5554" +:+ TAB +:+ "device" +:+ TAB +:+
  "product:sdk model:sdk device:generic" +:+ LF.

(** A device whose model reads "SM-G960F", whose version read fails, whose
    battery dump has two level lines, and whose first marketing-name
    property reads [marketname]; every later read times out. *)
Definition phone_script (marketname : string) : Script :=
  [Completed ("SM-G960F" +:+ LF) "" 0;
   Completed "" "error: closed" 1;
   Completed ("Current Battery Service state:" +:+ LF +:+ "  level: 87" +:+ LF
              +:+ "  scale: 100" +:+ LF +:+ "level: 3" +:+ LF) "" 0;
   Completed (marketname +:+ LF) "" 0].

(** A batch on three targets: the first is uninstalled, the second is
    refused and then disabled, the third fails both ways. *)
Definition batch_script : Script :=
  [Completed "Success" "" 0;
   Completed "Failure [DELETE_FAILED_INTERNAL_ERROR]" "" 0;
   Completed "Package B new state: disabled-user" "" 0;
   Completed "" "error: device offline" 1;
   Completed "" "error: device offline" 1].

(** ** [class AdbManager] *)

Section Manager.

#[local] Set Default Proof Using "Type".

(** The outside world: the state of the host and of the attached
    devices, and how a command acts on it. *)
Context {World : Type}.
Abbreviation State := (State World).
Variable subprocess_run : list string -> Z -> World -> run_result * World.
(** [os.path.exists] and [os.path.basename]. *)
Variable path_exists : string -> World -> bool.
Variable basename : string -> string.
(** [str] of a list of strings, as an f-string prints it. *)
Variable repr_command : list string -> string.
(** [subprocess.Popen]: the handle of the child, or the message of the
    exception raised. *)
Variable popen : list string -> World -> (nat + string) * World.
(** [Popen.wait(timeout)]: [true] when the child exited in time. *)
Variable wait_exits : nat -> Z -> World -> bool * World.

Definition M (A : Type) : Type := State -> A * State.

Definition ret {A} (a : A) : M A := fun st => (a, st).
Definition bind {A B} (m : M A) (k : A -> M B) : M B :=
  fun st => let '(a, st') := m st in k a st'.

Notation "x <- m ;; k" := (bind m (fun x => k))
  (at level 100, m at next level, right associativity).
Notation "m ;;; k" := (bind m (fun _ => k))
  (at level 100, right associativity).

Definition get : M State := fun st => (st, st).

Definition emit (e : event) : M unit := fun st =>
  (tt, mkState (adb_available st) (logcat_process st) (stop_logcat_event st)
         (world st) (trace st ++ [e])).

Definition on_world {A} (f : World -> A * World) : M A := fun st =>
  let '(a, w) := f (world st) in
  (a, mkState (adb_available st) (logcat_process st) (stop_logcat_event st)
        w (trace st)).

Definition set_logcat_process (p : option nat) : M unit := fun st =>
  (tt, mkState (adb_available st) p (stop_logcat_event st)
         (world st) (trace st)).

Definition set_stop_logcat_event (b : bool) : M unit := fun st =>
  (tt, mkState (adb_available st) (logcat_process st) b
         (world st) (trace st)).

(** A [for] loop threading the loop-carried variables [s]. *)
Fixpoint for_each {A S} (l : list A) (body : A -> S -> M S) (s : S) : M S :=
  match l with
  | [] => ret s
  | x :: l' => s' <- body x s ;; for_each l' body s'
  end.

(** [_update_status]: the message reaches the callback (or the console
    when no callback was given); a failing callback is swallowed. *)
Definition _update_status (message : string) (lvl : level) : M unit :=
  emit (EvStatus message lvl).

(** [_run_adb_command]: returns [(stdout, stderr, returncode)], with
    [stdout = None] on the paths that never obtained a result. The
    [creationflags] argument only hides a console window. *)
Definition _run_adb_command (command : list string) (timeout : Z)
  : M (option string * string * Z) :=
  st <- get ;;
  if negb (adb_available st) then
    _update_status "ADB is not available. Cannot run command." Error ;;;
    ret (None, "ADB not available", 1%Z)
  else if match command with
          | [] => true
          | c0 :: _ => negb (String.eqb (PyStr.lower c0) "adb")
          end then
    _update_status ("Internal Error: Command does not start with 'adb': "
                    +:+ repr_command command) Error ;;;
    ret (None, "Invalid command format", 1%Z)
  else
    emit (EvRun command timeout) ;;;
    r <- on_world (subprocess_run command timeout) ;;
    match r with
    | Completed stdout stderr returncode =>
        if negb (returncode =? 0)%Z then
          let error_message :=
            if PyStr.truthy (PyStr.strip stderr) then PyStr.strip stderr
            else "ADB command failed with return code "
                 +:+ PyStr.of_int returncode +:+ "." in
          _update_status ("ADB Command Error: " +:+ error_message) Error ;;;
          ret (Some stdout, stderr, returncode)
        else if PyStr.truthy (PyStr.strip stderr) then
          _update_status ("ADB Command Warning: " +:+ PyStr.strip stderr)
                         Warning ;;;
          ret (Some stdout, stderr, returncode)
        else ret (Some stdout, stderr, returncode)
    | FileNotFoundError =>
        _update_status
          "Error: ADB command not found during execution. Check PATH." Error ;;;
        ret (None, "ADB command not found", 1%Z)
    | TimeoutExpired =>
        _update_status ("Error: ADB command timed out after "
                        +:+ PyStr.of_int timeout +:+ " seconds.") Error ;;;
        ret (None, "Command timed out", 1%Z)
    | OtherException msg =>
        _update_status
          ("An unexpected error occurred while running ADB command: " +:+ msg)
          Error ;;;
        ret (None, msg, 1%Z)
    end.

(** [returncode == 0 and stdout]: the text when the condition holds. *)
Definition ok_stdout (r : option string * string * Z) : option string :=
  let '(stdout, _, returncode) := r in
  if (returncode =? 0)%Z then
    match stdout with
    | Some s => if PyStr.truthy s then Some s else None
    | None => None
    end
  else None.

(** The characters removed around a property value: the single quote,
    the double quote and the carriage return. *)
Definition quote_chars : string := String "039" (String "034" (String "013" "")).

(** The value of a successful property read, stripped of white space and
    then of [quote_chars]; [None] when the read failed or the stripped
    value is empty. *)
Definition prop_value (r : option string * string * Z) : option string :=
  match ok_stdout r with
  | Some s =>
      let value := PyStr.strip_chars quote_chars (PyStr.strip s) in
      if PyStr.truthy value then Some value else None
  | None => None
  end.

(** *** [list_devices] *)

Record device := mkDevice {
  dev_serial : string;
  dev_state : string;
  dev_description : string
}.

(** The body of the loop over the listing's lines. *)
Definition list_devices_line (line : string) (devices : list device)
  : M (list device) :=
  let line := PyStr.strip line in
  if negb (PyStr.truthy line) then ret devices
  else
    match PyStr.split_ws 2 line with
    | serial :: state :: rest =>
        let description :=
          match rest with d :: _ => d | [] => "" end in
        ret (devices ++ [mkDevice serial state description])
    | _ =>
        _update_status ("Warning: Could not fully parse device line: '"
                        +:+ line +:+ "'") Warning ;;;
        ret devices
    end.

Definition drop_header (lines : list string) : list string :=
  match lines with
  | l0 :: rest =>
      if PyStr.contains "List of devices attached" l0 then rest else lines
  | [] => lines
  end.

Definition list_devices : M (list device) :=
  st <- get ;;
  if negb (adb_available st) then ret []
  else
    _update_status "Searching for devices..." Info ;;;
    r <- _run_adb_command ["adb"; "devices"; "-l"] 20 ;;
    match ok_stdout r with
    | Some stdout =>
        let lines := PyStr.split_char "010" (PyStr.strip stdout) in
        let lines := drop_header lines in
        devices <- for_each lines list_devices_line [] ;;
        match devices with
        | _ :: _ => ret devices
        | [] =>
            if negb (PyStr.truthy (PyStr.strip stdout)) then
              _update_status "No devices found." Info ;;; ret devices
            else ret devices
        end
    | None => ret []
    end.

(** *** [connect_device] *)

Definition connect_device (address : string) : M bool :=
  st <- get ;;
  if negb (adb_available st) then ret false
  else if negb (PyStr.truthy address) then
    _update_status "Error: IP address is empty for connection." Error ;;;
    ret false
  else
    _update_status ("Attempting to connect to " +:+ address +:+ "...") Info ;;;
    r <- _run_adb_command ["adb"; "connect"; address] 15 ;;
    let '(stdout, stderr, returncode) := r in
    if (returncode =? 0)%Z then
      let stdout := default "" stdout in
      let stdout_lower := PyStr.lower stdout in
      if PyStr.contains "connected to" stdout_lower
         || PyStr.contains "already connected" stdout_lower then ret true
      else if PyStr.contains " connection refused" stdout_lower then
        _update_status ("Connection failed for " +:+ address +:+
          ": Connection refused. Is ADB over TCP enabled on the device?")
          Error ;;;
        ret false
      else if PyStr.contains " unable to connect" stdout_lower
              || PyStr.contains "failed to connect" stdout_lower then
        _update_status ("Connection failed for " +:+ address +:+ ": "
                        +:+ PyStr.strip stdout) Error ;;;
        ret false
      else
        _update_status ("Connect command successful for " +:+ address +:+
          ", but output was unexpected: " +:+ PyStr.strip stdout) Warning ;;;
        ret true
    else ret false.

(** *** [reboot_device] *)

Definition valid_modes : list string :=
  [""; "recovery"; "bootloader"; "sideload"; "sideload-auto-reboot"].

Definition reboot_device (serial mode : string) : M bool :=
  st <- get ;;
  if negb (adb_available st) then ret false
  else if negb (PyStr.truthy serial) then
    _update_status "Error: No device selected to reboot." Error ;;;
    ret false
  else if negb (bool_decide (mode ∈ valid_modes)) then
    _update_status ("Error: Invalid reboot mode '" +:+ mode +:+
      "'. Valid modes are: " +:+ PyStr.join ", " valid_modes +:+ ".") Error ;;;
    ret false
  else
    (if PyStr.truthy mode then
       _update_status ("Sending command: Rebooting device " +:+ serial +:+
                       " to " +:+ mode +:+ "...") Info
     else
       _update_status ("Sending command: Rebooting device " +:+ serial +:+
                       " normally...") Info) ;;;
    let command := ["adb"; "-s"; serial; "reboot"]
                   ++ (if PyStr.truthy mode then [mode] else []) in
    r <- _run_adb_command command 10 ;;
    let '(stdout, stderr, returncode) := r in
    if (returncode =? 0)%Z && negb (PyStr.truthy (PyStr.strip stderr)) then
      _update_status ("Reboot command sent successfully to " +:+ serial +:+ ".")
                     Info ;;;
      ret true
    else ret false.

(** *** [install_apk] *)

Definition install_apk (serial apk_path : string) : M bool :=
  st <- get ;;
  if negb (adb_available st) then ret false
  else if negb (PyStr.truthy serial) || negb (PyStr.truthy apk_path) then
    _update_status
      "Error: Device and APK path must be specified for installation." Error ;;;
    ret false
  else if negb (path_exists apk_path (world st)) then
    _update_status ("Error: APK file not found at " +:+ apk_path) Error ;;;
    ret false
  else
    _update_status ("Sending command: Installing " +:+ basename apk_path +:+
                    " on " +:+ serial +:+ "...") Info ;;;
    r <- _run_adb_command ["adb"; "-s"; serial; "install"; "-r"; apk_path] 300 ;;
    let '(stdout, stderr, returncode) := r in
    let stdout := default "" stdout in
    if (returncode =? 0)%Z && PyStr.contains "success" (PyStr.lower stdout) then
      _update_status ("Successfully installed " +:+ basename apk_path +:+ ".")
                     Info ;;;
      ret true
    else
      (if (returncode =? 0)%Z && PyStr.contains "failure" (PyStr.lower stdout)
       then _update_status ("Installation reported failure: "
                            +:+ PyStr.strip stdout) Error
       else ret tt) ;;;
      ret false.

(** *** [uninstall_package] and [disable_package] *)

Definition uninstall_package (serial package_name user_id : string) : M bool :=
  st <- get ;;
  if negb (adb_available st) then ret false
  else if negb (PyStr.truthy serial) || negb (PyStr.truthy package_name) then
    _update_status
      "Error: Device and package must be specified for uninstall." Error ;;;
    ret false
  else
    _update_status ("Sending command: Uninstalling " +:+ package_name +:+
      " from " +:+ serial +:+ " (User " +:+ user_id +:+ ")...") Info ;;;
    r <- _run_adb_command
           ["adb"; "-s"; serial; "uninstall"; "--user"; user_id; package_name]
           60 ;;
    let '(stdout, stderr, returncode) := r in
    let stdout := default "" stdout in
    if (returncode =? 0)%Z && PyStr.contains "success" (PyStr.lower stdout) then
      _update_status ("Successfully uninstalled " +:+ package_name +:+ ".")
                     Info ;;;
      ret true
    else
      (if (returncode =? 0)%Z && PyStr.contains "failure" (PyStr.lower stdout)
       then _update_status ("Uninstall command reported failure for "
              +:+ package_name +:+ ": " +:+ PyStr.strip stdout) Error
       else ret tt) ;;;
      ret false.

Definition disable_package (serial package_name user_id : string) : M bool :=
  st <- get ;;
  if negb (adb_available st) then ret false
  else if negb (PyStr.truthy serial) || negb (PyStr.truthy package_name) then
    _update_status
      "Error: Device and package must be specified for disabling." Error ;;;
    ret false
  else
    _update_status ("Sending command: Disabling " +:+ package_name +:+
      " for " +:+ serial +:+ " (User " +:+ user_id +:+ ")...") Info ;;;
    r <- _run_adb_command
           ["adb"; "-s"; serial; "shell"; "pm"; "disable-user"; "--user";
            user_id; package_name] 30 ;;
    let '(stdout, stderr, returncode) := r in
    let stdout := default "" stdout in
    if (returncode =? 0)%Z then
      if PyStr.contains ("package " +:+ package_name +:+ " new state: disabled")
           (PyStr.lower stdout) then
        _update_status ("Successfully disabled " +:+ package_name +:+ ".")
                       Info ;;;
        ret true
      else if PyStr.truthy (PyStr.strip stdout) then
        _update_status ("Disable command sent for " +:+ package_name +:+
          ", but output was unexpected: " +:+ PyStr.strip stdout) Warning ;;;
        ret true
      else
        _update_status ("Disable command sent for " +:+ package_name +:+
          " but received no output.") Error ;;;
        ret false
    else ret false.

(** *** [get_package_details] *)

Record package_details := mkDetails {
  package_name_of : string;
  version_name : string;
  version_code : string;
  installer : string;
  first_install_time : string;
  last_update_time : string;
  uid : string;
  permissions : list string
}.

(** The dictionary [details] as it is initialised. *)
Definition default_details (package_name : string) : package_details :=
  mkDetails package_name "Unknown" "Unknown" "Unknown" "Unknown" "Unknown"
            "Unknown" [].

(** [line.split('=', 1)[1]]; every use is on a line that starts with a
    prefix ending in ['='], so the index exists. *)
Definition after_eq (line : string) : string :=
  default "" (PyStr.split_once "=" line !! 1%nat).

(** [s.split(' ', 1)[0]] *)
Definition before_space (s : string) : string :=
  default "" (head (PyStr.split_once " " s)).

(** One iteration of the scan; the loop carries [details] and
    [reading_perms]. *)
Definition details_line (line : string) (acc : package_details * bool)
  : package_details * bool :=
  let '(d, reading_perms) := acc in
  let line := PyStr.strip line in
  if PyStr.startswith "versionName=" line then
    (mkDetails (package_name_of d) (after_eq line) (version_code d)
       (installer d) (first_install_time d) (last_update_time d) (uid d)
       (permissions d), reading_perms)
  else if PyStr.startswith "versionCode=" line then
    (mkDetails (package_name_of d) (version_name d)
       (before_space (after_eq line))
       (installer d) (first_install_time d) (last_update_time d) (uid d)
       (permissions d), reading_perms)
  else if PyStr.startswith "installerPackageName=" line then
    (mkDetails (package_name_of d) (version_name d) (version_code d)
       (after_eq line) (first_install_time d) (last_update_time d) (uid d)
       (permissions d), reading_perms)
  else if PyStr.startswith "firstInstallTime=" line then
    (mkDetails (package_name_of d) (version_name d) (version_code d)
       (installer d) (after_eq line) (last_update_time d) (uid d)
       (permissions d), reading_perms)
  else if PyStr.startswith "lastUpdateTime=" line then
    (mkDetails (package_name_of d) (version_name d) (version_code d)
       (installer d) (first_install_time d) (after_eq line) (uid d)
       (permissions d), reading_perms)
  else if PyStr.startswith "userId=" line then
    (mkDetails (package_name_of d) (version_name d) (version_code d)
       (installer d) (first_install_time d) (last_update_time d)
       (after_eq line) (permissions d), reading_perms)
  else if PyStr.startswith "requested permissions:" line then (d, true)
  else if reading_perms then
    if PyStr.startswith "install permissions:" line
       || PyStr.startswith "runtime permissions:" line
       || PyStr.is_empty line
    then (d, false)
    else
      (mkDetails (package_name_of d) (version_name d) (version_code d)
         (installer d) (first_install_time d) (last_update_time d) (uid d)
         (permissions d ++ [line]), reading_perms)
  else (d, reading_perms).

(** The scan of a dump that was obtained. *)
Definition parse_details (package_name stdout : string) : package_details :=
  fst (fold_left (fun acc line => details_line line acc)
         (PyStr.splitlines stdout) (default_details package_name, false)).

Definition get_package_details (serial package_name : string)
  : M (option package_details) :=
  st <- get ;;
  if negb (adb_available st) then ret None
  else if negb (PyStr.truthy serial) || negb (PyStr.truthy package_name) then
    ret None
  else
    _update_status ("Fetching details for " +:+ package_name +:+ "...") Info ;;;
    r <- _run_adb_command
           ["adb"; "-s"; serial; "shell"; "dumpsys"; "package"; package_name]
           10 ;;
    match ok_stdout r with
    | Some stdout => ret (Some (parse_details package_name stdout))
    | None => ret (Some (default_details package_name))
    end.

(** *** [get_device_info] *)

Record device_info := mkInfo {
  info_serial : string;
  info_model : string;
  info_version : string;
  info_display_name : string;
  info_battery_level : string
}.

Definition prop_names_to_try : list string :=
  ["ro.product.marketname";
   "ro.product.vendor.marketname";
   "ro.product.odm.marketname";
   "ro.product.system_dlkm.marketname";
   "ro.product.bootimage.marketname";
   "ro.product.display";
   "ro.product.name";
   "ro.product.device";
   "ro.product.model";
   "ro.vendor.product.model";
   "ro.system.product.model";
   "ro.system_ext.product.model";
   "ro.odm.product.model"].

Definition getprop_command (serial prop_name : string) : list string :=
  ["adb"; "-s"; serial; "shell"; "getprop"; prop_name].

(** The scan of the battery dump: the loop carries [battery_level] and
    the flag [essential_info_fetched['battery']]; [break] ends it, and
    an [IndexError] is caught, reported, and the scan goes on. *)
Fixpoint battery_scan (lines : list string) (acc : string * bool)
  : M (string * bool) :=
  match lines with
  | [] => ret acc
  | line :: rest =>
      let line := PyStr.strip line in
      if PyStr.startswith "level:" line then
        match PyStr.split_char ":" line !! 1%nat with
        | Some part => ret (PyStr.strip part +:+ "%", true)
        | None =>
            _update_status ("Warning: Could not parse battery level line: '"
                            +:+ line +:+ "'") Warning ;;;
            battery_scan rest acc
        end
      else battery_scan rest acc
  end.

(** One iteration of the loop over [prop_names_to_try]; the loop carries
    [fetched_values] and [best_display_name_found]. *)
Definition candidate_step (serial prop_name : string)
    (acc : gmap string string * option string)
  : M (gmap string string * option string) :=
  let '(fetched_values, best_display_name_found) := acc in
  if bool_decide (prop_name ∈ ["ro.product.model"; "ro.build.version.release"])
  then ret acc
  else
    r <- _run_adb_command (getprop_command serial prop_name) 5 ;;
    match prop_value r with
    | Some value =>
        let fetched_values := <[prop_name := value]> fetched_values in
        match best_display_name_found with
        | None =>
            if match fetched_values !! "ro.product.model" with
               | Some m => String.eqb value m
               | None => false
               end
            then
              if PyStr.contains "marketname" (PyStr.lower prop_name)
              then ret (fetched_values, Some value)
              else ret (fetched_values, None)
            else ret (fetched_values, Some value)
        | Some _ => ret (fetched_values, best_display_name_found)
        end
    | None => ret acc
    end.

(** The three-way choice that ends the aggregation. *)
Definition finalize_display_name (best : option string) (model serial : string)
  : string :=
  match best with
  | Some b =>
      if PyStr.truthy b && negb (bool_decide (b ∈ ["N/A"; "Error"; ""]))
      then b
      else if negb (bool_decide (model ∈ ["N/A"; "Error"])) then model
      else serial
  | None =>
      if negb (bool_decide (model ∈ ["N/A"; "Error"])) then model
      else serial
  end.

(** The dedicated probes, in the order the method issues them. *)
Definition probe_model (serial : string) : M (option string) :=
  r <- _run_adb_command (getprop_command serial "ro.product.model") 5 ;;
  ret (prop_value r).

Definition probe_version (serial : string) : M (option string) :=
  r <- _run_adb_command (getprop_command serial "ro.build.version.release") 5 ;;
  ret (prop_value r).

Definition probe_battery (serial : string) : M (string * bool) :=
  r <- _run_adb_command ["adb"; "-s"; serial; "shell"; "dumpsys"; "battery"] 5 ;;
  match ok_stdout r with
  | Some stdout_battery =>
      battery_scan (PyStr.splitlines stdout_battery) ("N/A", false)
  | None => ret ("N/A", false)
  end.

Definition get_device_info (serial : string) : M (option device_info) :=
  st <- get ;;
  if negb (adb_available st) then ret None
  else if negb (PyStr.truthy serial) then
    _update_status "Error: No device selected to get info." Error ;;;
    ret None
  else
    _update_status ("Fetching info for device " +:+ serial +:+ "...") Info ;;;
    model_value <- probe_model serial ;;
    let model := default "N/A" model_value in
    let fetched_values : gmap string string :=
      match model_value with
      | Some v => {[ "ro.product.model" := v ]}
      | None => ∅
      end in
    let model_fetched := bool_decide (is_Some model_value) in
    version_value <- probe_version serial ;;
    let version := default "N/A" version_value in
    let version_fetched := bool_decide (is_Some version_value) in
    battery <- probe_battery serial ;;
    found <- for_each prop_names_to_try (candidate_step serial)
               (fetched_values, None) ;;
    let display_name := finalize_display_name (snd found) model serial in
    if negb model_fetched && negb version_fetched then
      _update_status ("Failed to fetch essential model/version info for device "
                      +:+ serial +:+ ".") Error ;;;
      ret None
    else
      _update_status ("Info fetch complete for " +:+ serial +:+ ".") Info ;;;
      ret (Some (mkInfo serial model version display_name (fst battery))).

(** *** Log streaming *)

(** The names the class body of [AdbManager] binds. The [def stop_logcat]
    of the source is indented under [start_logcat], after its last
    statement: it is a function local to [start_logcat] that nothing
    calls, and the class has no attribute of that name. *)
Definition AdbManager_methods : list string :=
  ["__init__"; "_is_adb_available"; "_run_adb_command"; "_update_status";
   "list_devices"; "connect_device"; "get_device_info"; "reboot_device";
   "power_off_device"; "install_apk"; "list_packages"; "uninstall_package";
   "disable_package"; "get_package_details"; "start_logcat"].

(** The names [__init__] binds on the instance. *)
Definition AdbManager_instance_attributes : list string :=
  ["status_callback"; "adb_available"; "logcat_process"; "logcat_thread";
   "_stop_logcat_event"].

Definition has_attribute (name : string) : bool :=
  bool_decide (name ∈ AdbManager_instance_attributes ++ AdbManager_methods).

(** The body of the function [stop_logcat] nested in [start_logcat]. *)
Definition stop_logcat_local : M unit :=
  set_stop_logcat_event true ;;;
  st <- get ;;
  match logcat_process st with
  | Some p =>
      emit EvTerminate ;;;
      emit (EvWait 1) ;;;
      exited <- on_world (wait_exits p 1) ;;
      (if exited then ret tt else emit EvKill) ;;;
      set_logcat_process None ;;;
      _update_status "Logcat stopped." Info
  | None => ret tt
  end.

(** The attribute access [self.stop_logcat] followed by the call. *)
Definition self_stop_logcat : M (unit + exn) :=
  if has_attribute "stop_logcat"
  then (stop_logcat_local ;;; ret (inl tt))
  else ret (inr (AttributeError "stop_logcat")).

(** [start_logcat], on the calling thread; the worker it starts is
    [_logcat_worker] below. *)
Definition start_logcat (serial : string) : M (unit + exn) :=
  st <- get ;;
  if negb (adb_available st) || negb (PyStr.truthy serial) then
    _update_status "Cannot start Logcat: ADB unavailable or no device." Error ;;;
    ret (inl tt)
  else
    stopped <-
      match logcat_process st with
      | Some _ => self_stop_logcat
      | None => ret (inl tt)
      end ;;
    match stopped with
    | inr e => ret (inr e)
    | inl _ =>
        set_stop_logcat_event false ;;;
        emit EvThreadStart ;;;
        _update_status ("Logcat started for " +:+ serial +:+ ".") Info ;;;
        ret (inl tt)
    end.

(** The reading loop of the worker; [feed] is what the child prints
    before it ends. *)
Fixpoint logcat_read (feed : list string) : M unit :=
  st <- get ;;
  if stop_logcat_event st then ret tt
  else match feed with
       | [] => ret tt
       | line :: feed' =>
           (if PyStr.truthy line
            then emit (EvLogLine (PyStr.rstrip_by PyStr.isspace line))
            else ret tt) ;;;
           logcat_read feed'
       end.

(** [_logcat_worker]: spawn the child, read, and in [finally] call
    [self.stop_logcat()]. *)
Definition _logcat_worker (serial : string) (feed : list string)
  : M (unit + exn) :=
  let command := ["adb"; "-s"; serial; "logcat"; "-v"; "time"] in
  emit (EvPopen command) ;;;
  r <- on_world (popen command) ;;
  match r with
  | inl p => set_logcat_process (Some p) ;;; logcat_read feed
  | inr msg => _update_status ("Logcat error: " +:+ msg) Error
  end ;;;
  self_stop_logcat.

(** ** [main_app.py]: the batch uninstall worker *)

(** A method call on [self.adb_manager], with what it returned. *)
Definition adb_call (m : adb_method) (serial package_name : string) : M bool :=
  b <- match m with
       | UninstallPackage => uninstall_package serial package_name "0"
       | DisablePackage => disable_package serial package_name "0"
       end ;;
  emit (EvCall m serial package_name b) ;;;
  ret b.

Definition after (a : gui_action) : M unit := emit (EvAfter a).

Definition progress_prefix (i total_packages : nat) : string :=
  "[" +:+ PyStr.of_int (Z.of_nat (i + 1)) +:+ "/"
      +:+ PyStr.of_int (Z.of_nat total_packages) +:+ "] ".

(** The body of the loop over [enumerate(packages_to_uninstall)]; the
    loop carries the dictionary [results]. *)
Definition uninstall_step (serial : string) (total_packages : nat)
    (item : nat * string) (results : gmap string string)
  : M (gmap string string) :=
  let '(i, package_name) := item in
  after (GuiUpdateStatus (progress_prefix i total_packages +:+ "Processing "
                          +:+ package_name +:+ "...") Info) ;;;
  uninstall_success <- adb_call UninstallPackage serial package_name ;;
  if uninstall_success then
    after (GuiHandleUninstallResult package_name "success") ;;;
    ret (<[package_name := "success"]> results)
  else
    after (GuiUpdateStatus (progress_prefix i total_packages
             +:+ "Uninstall failed for " +:+ package_name
             +:+ ". Attempting to disable...") Warning) ;;;
    disable_success <- adb_call DisablePackage serial package_name ;;
    if disable_success then
      after (GuiHandleUninstallResult package_name "disabled") ;;;
      ret (<[package_name := "disabled"]> results)
    else
      after (GuiHandleUninstallResult package_name "failed") ;;;
      ret (<[package_name := "failed"]> results).

(** [enumerate(l)] *)
Definition enumerate {A} (l : list A) : list (nat * A) :=
  imap (fun i x => (i, x)) l.

(** [_perform_uninstall_threaded]; the value is the dictionary
    [results] when the method ends. *)
Definition _perform_uninstall_threaded (serial : string)
    (packages_to_uninstall : list string) : M (gmap string string) :=
  after (GuiEnableWidgets false) ;;;
  after GuiRefreshButtonDisabled ;;;
  after GuiUninstallButtonDisabled ;;;
  let total_packages := length packages_to_uninstall in
  results <- for_each (enumerate packages_to_uninstall)
               (uninstall_step serial total_packages) ∅ ;;
  after (GuiUpdateStatus "Uninstallation process complete." Info) ;;;
  after (GuiEnableWidgets true) ;;;
  after GuiListApps ;;;
  ret results.

(** ** What a command leaves behind *)

(** The state after the world moved to [w] and the events [evs] happened. *)
Definition advance (st : State) (w : World) (evs : list event) : State :=
  mkState (adb_available st) (logcat_process st) (stop_logcat_event st)
          w (trace st ++ evs).

Definition starts_with_adb (command : list string) : bool :=
  match command with
  | [] => false
  | c0 :: _ => String.eqb (PyStr.lower c0) "adb"
  end.

(** The triple [_run_adb_command] hands back for each thing
    [subprocess.run] can do. *)
Definition result_triple (r : run_result) : option string * string * Z :=
  match r with
  | Completed stdout stderr returncode => (Some stdout, stderr, returncode)
  | FileNotFoundError => (None, "ADB command not found", 1%Z)
  | TimeoutExpired => (None, "Command timed out", 1%Z)
  | OtherException msg => (None, msg, 1%Z)
  end.

(** The one status message, if any, that goes with it. *)
Definition result_status (timeout : Z) (r : run_result) : list event :=
  match r with
  | Completed stdout stderr returncode =>
      if negb (returncode =? 0)%Z then
        [EvStatus ("ADB Command Error: " +:+
           (if PyStr.truthy (PyStr.strip stderr) then PyStr.strip stderr
            else "ADB command failed with return code "
                 +:+ PyStr.of_int returncode +:+ ".")) Error]
      else if PyStr.truthy (PyStr.strip stderr) then
        [EvStatus ("ADB Command Warning: " +:+ PyStr.strip stderr) Warning]
      else []
  | FileNotFoundError =>
      [EvStatus "Error: ADB command not found during execution. Check PATH."
                Error]
  | TimeoutExpired =>
      [EvStatus ("Error: ADB command timed out after "
                 +:+ PyStr.of_int timeout +:+ " seconds.") Error]
  | OtherException msg =>
      [EvStatus ("An unexpected error occurred while running ADB command: "
                 +:+ msg) Error]
  end.

(** The value a property read delivers, from what its process did. *)
Definition read_value (r : run_result) : option string :=
  prop_value (result_triple r).

(** *** The batch, in words *)

(** What happened to one target. *)
Inductive outcome := Success | DisabledInstead | Failed.

(** The tag recorded for it. *)
Definition outcome_tag (o : outcome) : string :=
  match o with
  | Success => "success"
  | DisabledInstead => "disabled"
  | Failed => "failed"
  end.

(** The calls on the manager an outcome stands for, with what each
    returned: uninstall alone when it succeeded, uninstall then disable
    otherwise. *)
Definition outcome_calls (serial : string) (step : string * outcome)
  : list event :=
  match step.2 with
  | Success => [EvCall UninstallPackage serial step.1 true]
  | DisabledInstead =>
      [EvCall UninstallPackage serial step.1 false;
       EvCall DisablePackage serial step.1 true]
  | Failed =>
      [EvCall UninstallPackage serial step.1 false;
       EvCall DisablePackage serial step.1 false]
  end.

Definition is_call (e : event) : bool :=
  match e with EvCall _ _ _ _ => true | _ => false end.

(** The result handed to the GUI, for the events that are one. *)
Definition gui_result (e : event) : option (string * string) :=
  match e with
  | EvAfter (GuiHandleUninstallResult p r) => Some (p, r)
  | _ => None
  end.

(** The dictionary after the outcomes were recorded in order. *)
Definition record_outcomes (steps : list (string * outcome))
    (results : gmap string string) : gmap string string :=
  fold_left (fun r step => <[step.1 := outcome_tag step.2]> r) steps results.

(** The events the manager itself produces. *)
Definition is_manager_event (e : event) : bool :=
  match e with EvStatus _ _ | EvRun _ _ => true | _ => false end.

(** A computation that only moves the world and produces manager
    events. *)
Definition quiet {A} (m : M A) : Prop :=
  forall st, exists w evs,
    snd (m st) = advance st w evs /\
    Forall (fun e => is_manager_event e = true) evs.

(** *** The device listing, in words *)

(** The text of the header [adb devices] prints. *)
Definition header_text : string := "List of devices attached".

(** The lines of the stripped text, as printed. *)
Definition raw_lines (stdout : string) : list string :=
  PyStr.split_char "010" (PyStr.strip stdout).

(** The listing starts with the header: its first line holds the header
    text. *)
Definition starts_with_header (stdout : string) : bool :=
  match head (raw_lines stdout) with
  | Some first => PyStr.contains header_text first
  | None => false
  end.

(** The lines of the listing once the header, if it is the first line, is
    discarded: one line is taken off the top of a listing that starts with
    the header, none otherwise. *)
Definition listing_lines (stdout : string) : list string :=
  drop (if starts_with_header stdout then 1 else 0) (raw_lines stdout).

(** The lines as the specification words them: the header line is
    discarded wherever it stands. *)
Definition claimed_lines (stdout : string) : list string :=
  List.filter (fun l => negb (PyStr.contains header_text l)) (raw_lines stdout).

(** The header stands nowhere but on the first line, if at all. *)
Definition header_only_first (stdout : string) : Prop :=
  Forall (fun l => PyStr.contains header_text l = false)
         (tail (raw_lines stdout)).

(** The data lines: those lines stripped, the blank ones skipped. *)
Definition data_lines (stdout : string) : list string :=
  List.filter PyStr.truthy (map PyStr.strip (listing_lines stdout)).

(** The white-space delimited fields of a data line, the third taking the
    rest of the line. *)
Definition fields (line : string) : list string := PyStr.split_ws 2 line.

Definition has_two_fields (line : string) : bool :=
  match fields line with
  | _ :: _ :: _ => true
  | _ => false
  end.

(** The record of a data line; none for a line with fewer than two
    fields. *)
Definition line_record (line : string) : option device :=
  match fields line with
  | serial :: state :: rest => Some (mkDevice serial state (default "" (head rest)))
  | _ => None
  end.

Definition parse_listing (stdout : string) : list device :=
  omap line_record (data_lines stdout).

(** The data lines that are dropped, and the warning each one raises. *)
Definition dropped_lines (stdout : string) : list string :=
  List.filter (fun l => negb (has_two_fields l)) (data_lines stdout).

Definition parse_warning (line : string) : event :=
  EvStatus ("Warning: Could not fully parse device line: '" +:+ line +:+ "'")
           Warning.

(** A well-formed listing: every data line has a serial and a state. *)
Definition well_formed (stdout : string) : Prop :=
  Forall (fun l => has_two_fields l = true) (data_lines stdout).

(** The data lines and the records as the specification words them. *)
Definition claimed_data_lines (stdout : string) : list string :=
  List.filter PyStr.truthy (map PyStr.strip (claimed_lines stdout)).

Definition claimed_listing (stdout : string) : list device :=
  omap line_record (claimed_data_lines stdout).

(** A listing whose header comes second, after a line of the daemon. *)
Definition listing_after_banner : string :=
  "* daemon started successfully" +:+ LF +:+
  "List of devices attached" +:+ LF +:+
  "emulator-5554" +:+ TAB +:+ "device" +:+ TAB +:+
  "product:sdk model:sdk device:generic" +:+ LF.

(** *** The display name, in words *)

(** The secondary candidates in priority order: [prop_names_to_try]
    without the keys the dedicated probes read. *)
Definition candidates : list string :=
  filter (fun p => p ∉ ["ro.product.model"; "ro.build.version.release"])
         prop_names_to_try.

(** Reading the given keys in order: each key with the value read, [None]
    when the read failed or gave nothing. *)
Fixpoint fetch_candidates (serial : string) (names : list string)
  : M (list (string * option string)) :=
  match names with
  | [] => ret []
  | n :: ns =>
      r <- _run_adb_command (getprop_command serial n) 5 ;;
      rest <- fetch_candidates serial ns ;;
      ret ((n, prop_value r) :: rest)
  end.

(** The key's name denotes a marketing name. *)
Definition denotes_marketname (key : string) : bool :=
  PyStr.contains "marketname" (PyStr.lower key).

(** A candidate qualifies when its value is non-empty and differs from the
    model value already fetched (if any) or its key denotes a marketing
    name. *)
Definition qualifies (model : option string) (c : string * option string)
  : option string :=
  match c.2 with
  | Some v =>
      if PyStr.truthy v
         && (negb (bool_decide (model = Some v)) || denotes_marketname c.1)
      then Some v else None
  | None => None
  end.

Definition first_qualifying (model : option string)
    (fetched : list (string * option string)) : option string :=
  head (omap (qualifies model) fetched).

(** The display name as the specification words it. *)
Definition display_name_claimed (serial : string) (model : option string)
    (fetched : list (string * option string)) : string :=
  match first_qualifying model fetched with
  | Some v => v
  | None => default serial model
  end.

(** The two strings the final choice refuses as a name. *)
Definition reserved (s : string) : bool := bool_decide (s ∈ ["N/A"; "Error"]).

(** The display name as the program computes it. *)
Definition display_name_of (serial : string) (model : option string)
    (fetched : list (string * option string)) : string :=
  let fallback :=
    match model with
    | Some m => if reserved m then serial else m
    | None => serial
    end in
  match first_qualifying model fetched with
  | Some v => if reserved v then fallback else v
  | None => fallback
  end.

(** *** The battery level, in words *)

(** [s[n:]] *)
Fixpoint drop_chars (n : nat) (s : string) : string :=
  match n, s with
  | O, _ => s
  | S n', String _ s' => drop_chars n' s'
  | S _, EmptyString => EmptyString
  end.

(** The text before the first [sep] (all of it when there is none). *)
Fixpoint before_char (sep : ascii) (s : string) : string :=
  match s with
  | EmptyString => EmptyString
  | String c s' =>
      if Ascii.eqb c sep then EmptyString else String c (before_char sep s')
  end.

(** The first line of the dump that, stripped, begins with ["level:"]. *)
Definition level_line (dump : string) : option string :=
  List.find (PyStr.startswith "level:")
            (map PyStr.strip (PyStr.splitlines dump)).

(** The battery level as the specification words it: the whole suffix of
    that line, stripped, with a percent sign. *)
Definition battery_claimed (dump : string) : string :=
  match level_line dump with
  | Some line => PyStr.strip (drop_chars 6 line) +:+ "%"
  | None => "N/A"
  end.

(** The battery level as the program computes it: the suffix is cut at
    its first colon. *)
Definition battery_of_dump (dump : string) : string :=
  match level_line dump with
  | Some line => PyStr.strip (before_char ":" (drop_chars 6 line)) +:+ "%"
  | None => "N/A"
  end.

(** *** Package details, in words *)

(** The line prefixes the scan of a package dump reacts to outside the
    permission list. *)
Definition recognised_prefixes : list string :=
  ["versionName="; "versionCode="; "installerPackageName=";
   "firstInstallTime="; "lastUpdateTime="; "userId=";
   "requested permissions:"].

Definition unrecognised (line : string) : bool :=
  forallb (fun p => negb (PyStr.startswith p (PyStr.strip line)))
          recognised_prefixes.

(** The dump command failed: it raised (not found, timeout, anything
    else), exited with a non-zero code, or printed nothing. *)
Definition dump_failed (r : run_result) : bool :=
  match r with
  | Completed stdout _ returncode =>
      negb (returncode =? 0)%Z || PyStr.is_empty stdout
  | _ => true
  end.

(** ** More of [class AdbManager] *)

(** *** [_is_adb_available] and [__init__] *)

(** [subprocess.run(['adb', 'version'], check=True, timeout=5)]: with
    [check=True] a non-zero exit code raises [CalledProcessError], caught
    like a missing binary or a timeout; any other exception is printed to
    the console and also gives [False]. *)
Definition _is_adb_available : M bool :=
  emit (EvRun ["adb"; "version"] 5) ;;;
  r <- on_world (subprocess_run ["adb"; "version"] 5) ;;
  match r with
  | Completed _ _ returncode => ret (returncode =? 0)%Z
  | FileNotFoundError => ret false
  | TimeoutExpired => ret false
  | OtherException _ => ret false
  end.

Definition set_adb_available (b : bool) : M unit := fun st =>
  (tt, mkState b (logcat_process st) (stop_logcat_event st)
         (world st) (trace st)).

(** [__init__]: the manager as the constructor leaves it, in the world
    [w]. *)
Definition __init__ (w : World) : State :=
  snd ((_update_status "Checking for ADB command..." Info ;;;
        available <- _is_adb_available ;;
        (if negb available then
           _update_status
             "Error: 'adb' command not found. Please ensure Android SDK Platform-Tools are installed and 'adb' is in your system's PATH."
             Error ;;;
           set_adb_available false
         else
           set_adb_available true ;;;
           _update_status "'adb' command found." Info) ;;;
        set_logcat_process None ;;;
        set_stop_logcat_event false)
         (mkState false None false w [])).

(** *** [power_off_device] *)

Definition power_off_device (serial : string) : M bool :=
  st <- get ;;
  if negb (adb_available st) then ret false
  else if negb (PyStr.truthy serial) then
    _update_status "Error: No device selected to power off." Error ;;;
    ret false
  else
    _update_status ("Sending command: Powering off device " +:+ serial +:+ "...")
                   Info ;;;
    r <- _run_adb_command ["adb"; "-s"; serial; "shell"; "reboot"; "-p"] 10 ;;
    let '(stdout, stderr, returncode) := r in
    if (returncode =? 0)%Z && negb (PyStr.truthy (PyStr.strip stderr)) then
      _update_status ("Power off command sent successfully to " +:+ serial +:+ ".")
                     Info ;;;
      ret true
    else ret false.

(** *** [list_packages] *)

(** The body of the loop over the lines of the package listing. *)
Definition list_packages_line (line : string) (packages : list string)
  : list string :=
  let line := PyStr.strip line in
  if PyStr.startswith "package:" line then
    let package_name := PyStr.strip (drop_chars (String.length "package:") line) in
    if PyStr.truthy package_name then packages ++ [package_name] else packages
  else packages.

Definition list_packages_command (serial : string) (user_only : bool)
  : list string :=
  ["adb"; "-s"; serial; "shell"; "pm"; "list"; "packages"; "--user"; "0"]
  ++ (if user_only then ["-3"] else []).

Definition list_packages (serial : string) (user_only : bool)
  : M (list string) :=
  st <- get ;;
  if negb (adb_available st) then ret []
  else if negb (PyStr.truthy serial) then
    _update_status "Error: No device selected to list packages." Warning ;;;
    ret []
  else
    _update_status ("Listing packages for device " +:+ serial +:+ " (User 0, "
                    +:+ (if user_only then "User apps only" else "All apps")
                    +:+ ")...") Info ;;;
    r <- _run_adb_command (list_packages_command serial user_only) 60 ;;
    match ok_stdout r with
    | Some stdout =>
        let packages :=
          fold_left (fun packages line => list_packages_line line packages)
                    (PyStr.split_char "010" (PyStr.strip stdout)) [] in
        _update_status ("Found " +:+ PyStr.of_int (Z.of_nat (length packages))
                        +:+ " packages.") Info ;;;
        ret packages
    | None =>
        let '(stdout, _, returncode) := r in
        (* [stdout] is a string whenever [returncode] is 0 *)
        if (returncode =? 0)%Z
           && negb (PyStr.truthy (PyStr.strip (default "" stdout))) then
          _update_status "No packages found with the current filter." Info ;;;
          ret []
        else ret []
    end.

(** *** Words for the properties of the runner *)

Definition is_status (e : event) : bool :=
  match e with EvStatus _ _ => true | _ => false end.

(** The command reaches [subprocess.run]: the tool was found at start-up
    and the command names it. *)
Definition reaches_subprocess (st : State) (command : list string) : bool :=
  adb_available st && starts_with_adb command.

(** A result that needs no report: exit code 0 and nothing but white
    space on the error stream. *)
Definition clean_result (r : option string * string * Z) : bool :=
  let '(_, stderr, returncode) := r in
  (returncode =? 0)%Z && negb (PyStr.truthy (PyStr.strip stderr)).

(** The start-up probe succeeded: [adb version] ran and exited with
    code 0. *)
Definition version_probe_ok (r : run_result) : bool :=
  match r with
  | Completed _ _ returncode => (returncode =? 0)%Z
  | _ => false
  end.

(** The process ran, exited with code 0 and left nothing but white space
    on its error stream. *)
Definition exited_cleanly (r : run_result) : bool :=
  match r with
  | Completed _ stderr returncode =>
      (returncode =? 0)%Z && PyStr.is_empty (PyStr.strip stderr)
  | _ => false
  end.

(** The command [reboot_device] sends for a mode. *)
Definition reboot_command (serial mode : string) : list string :=
  ["adb"; "-s"; serial; "reboot"] ++ (if PyStr.truthy mode then [mode] else []).

(** The tool ran, exited with code 0 and printed "success" in any
    letter case. *)
Definition reported_success (r : run_result) : bool :=
  match r with
  | Completed stdout _ returncode =>
      (returncode =? 0)%Z && PyStr.contains "success" (PyStr.lower stdout)
  | _ => false
  end.

(** The tool ran, exited with code 0 and printed something other than
    white space. *)
Definition printed_something (r : run_result) : bool :=
  match r with
  | Completed stdout _ returncode =>
      (returncode =? 0)%Z && PyStr.truthy (PyStr.strip stdout)
  | _ => false
  end.

Definition uninstall_command (serial package_name user_id : string)
  : list string :=
  ["adb"; "-s"; serial; "uninstall"; "--user"; user_id; package_name].

Definition disable_command (serial package_name user_id : string)
  : list string :=
  ["adb"; "-s"; serial; "shell"; "pm"; "disable-user"; "--user"; user_id;
   package_name].

(** Every character of the text is white space. *)
Fixpoint all_space (s : string) : bool :=
  match s with
  | EmptyString => true
  | String c s' => PyStr.isspace c && all_space s'
  end.

(** No character of the text is white space. *)
Fixpoint no_space (s : string) : bool :=
  match s with
  | EmptyString => true
  | String c s' => negb (PyStr.isspace c) && no_space s'
  end.

(** The listing [pm list packages] prints for the given names: one
    [package:name] line each. *)
Fixpoint package_listing (names : list string) : string :=
  match names with
  | [] => ""
  | n :: ns => "package:" +:+ n +:+ LF +:+ package_listing ns
  end.

(** The same listing without its last line feed. *)
Fixpoint stripped_listing (names : list string) : string :=
  match names with
  | [] => ""
  | [n] => "package:" +:+ n
  | n :: ns => "package:" +:+ n +:+ LF +:+ stripped_listing ns
  end.

(** *** The commands of [get_device_info] *)

(** The commands [get_device_info] sends: the three dedicated probes,
    then one property read for each secondary candidate. *)
Definition device_info_commands (serial : string) : list (list string) :=
  [getprop_command serial "ro.product.model";
   getprop_command serial "ro.build.version.release";
   ["adb"; "-s"; serial; "shell"; "dumpsys"; "battery"]]
  ++ map (getprop_command serial) candidates.

(** With the tool available, the computation spawns exactly the given
    commands, in order and with the given time-out, and besides that only
    reports. *)
Definition sends {A} (m : M A) (commands : list (list string)) (timeout : Z)
  : Prop :=
  forall st, adb_available st = true ->
    exists w evs,
      snd (m st) = advance st w evs /\
      List.filter is_spawn evs = map (fun c => EvRun c timeout) commands /\
      Forall (fun e => is_status e = true) (List.filter (fun e => negb (is_spawn e)) evs).

(** ** [main_app.py]: the device panel *)

(** The texts of the labels [_do_update_device_info_gui] sets. *)
Record info_labels := mkLabels {
  serial_display_label : string;
  model_label : string;
  commercial_name_label : string;
  android_version_label : string;
  battery_level_label : string;
  selected_device_label : string
}.

(** [_do_update_device_info_gui]: [info] is the dictionary
    [get_device_info] returned, or [None]. *)
Definition _do_update_device_info_gui (info : option device_info)
  : info_labels :=
  let serial := match info with Some i => info_serial i | None => "N/A" end in
  let model := match info with Some i => info_model i | None => "N/A" end in
  let version := match info with Some i => info_version i | None => "N/A" end in
  let display_name :=
    match info with Some i => info_display_name i | None => "N/A" end in
  let battery_level :=
    match info with Some i => info_battery_level i | None => "N/A" end in
  let text_to_display :=
    if PyStr.truthy display_name
       && negb (bool_decide (display_name ∈ ["N/A"; "Error"])) then
      "Selected Device: " +:+ display_name +:+ " (" +:+ model +:+ ") ("
        +:+ serial +:+ ")"
    else if PyStr.truthy model
            && negb (bool_decide (model ∈ ["N/A"; "Error"])) then
      "Selected Device: " +:+ model +:+ " (" +:+ serial +:+ ")"
    else if PyStr.truthy serial
            && negb (bool_decide (serial ∈ ["N/A"; "Error"])) then
      "Selected Device: " +:+ serial
    else "Selected Device: None" in
  mkLabels ("Serial: " +:+ serial) ("Model: " +:+ model)
           ("Commercial Name: " +:+ display_name)
           ("Android Version: " +:+ version)
           ("Battery Level: " +:+ battery_level)
           text_to_display.

(** [_fetch_and_update_device_info_threaded]: the worker fetches the
    record and schedules [_do_update_device_info_gui] on it; the value is
    the texts that update sets. *)
Definition _fetch_and_update_device_info_threaded (serial : string)
  : M info_labels :=
  info <- get_device_info serial ;;
  ret (_do_update_device_info_gui info).

(** ** [main_app.py]: the device list *)

Definition upper_char (c : ascii) : ascii :=
  let n := N_of_ascii c in
  if ((97 <=? n) && (n <=? 122))%N then ascii_of_N (n - 32) else c.

(** [s.capitalize()] on ASCII text; the program applies it to
    "unauthorized" and "offline" only. *)
Definition capitalize (s : string) : string :=
  match s with
  | EmptyString => EmptyString
  | String c s' => String (upper_char c) (PyStr.lower s')
  end.

(** The text shown in the drop-down for a device. *)
Definition display_str (dev : device) : string :=
  if bool_decide (dev_state dev ∈ ["unauthorized"; "offline"])
  then dev_serial dev +:+ " [" +:+ capitalize (dev_state dev) +:+ "]"
  else dev_serial dev.

(** [_perform_list_devices_threaded]: the loop carries
    [device_display_values] and [self.available_devices_info]; the value
    is the pair handed on, the first to [_update_device_list_gui]. *)
Definition _perform_list_devices_threaded
  : M (list string * gmap string device) :=
  devices <- list_devices ;;
  ret (fold_left
         (fun acc dev =>
            (acc.1 ++ [display_str dev], <[dev_serial dev := dev]> acc.2))
         devices ([], ∅)).

(** What [on_device_selected] decides. *)
Inductive selection :=
| SelectDevice (serial : string)   (* current_device_serial = serial *)
| DeviceGone (serial : string)     (* warning, and the list is refreshed *)
| NoDevice.                        (* current_device_serial = None *)

(** [selected_item_text.split(' ')[0].split('(')[0].strip()] *)
Definition selected_serial (selected_item_text : string) : string :=
  PyStr.strip
    (default ""
       (head (PyStr.split_char "("
                (default "" (head (PyStr.split_char " " selected_item_text)))))).

(** [on_device_selected], on the text of the drop-down and the dictionary
    of the devices listed last. *)
Definition on_device_selected (selected_item_text : string)
    (available_devices_info : gmap string device) : selection :=
  let serial := selected_serial selected_item_text in
  if PyStr.truthy serial
     && negb (bool_decide (serial ∈ ["No"; "ADB"; "Selected"; "Searching..."]))
  then
    if bool_decide (is_Some (available_devices_info !! serial))
    then SelectDevice serial
    else DeviceGone serial
  else NoDevice.

(** The character does not occur in the text. *)
Fixpoint lacks (c : ascii) (s : string) : bool :=
  match s with
  | EmptyString => true
  | String d s' => negb (Ascii.eqb d c) && lacks c s'
  end.

(** A listing with an unauthorized device and a working one. *)
Definition listing_two_devices : string :=
  "List of devices attached" +:+ LF +:+
  "R58M12ABCDE    unauthorized usb:1-1 transport_id:1" +:+ LF +:+
  "emulator-5554  device product:sdk model:sdk device:generic" +:+ LF.

(** A package dump as found on a device: two version lines (the second
    belongs to the hidden system copy), and a list of requested
    permissions closed by the next heading. *)
Definition dump_example : string :=
  "Packages:" +:+ LF +:+
  "  Package [com.example.app] (1a2b3c):" +:+ LF +:+
  "    userId=10123" +:+ LF +:+
  "    versionCode=42 minSdk=21 targetSdk=33" +:+ LF +:+
  "    versionName=2.0" +:+ LF +:+
  "    requested permissions:" +:+ LF +:+
  "      android.permission.INTERNET" +:+ LF +:+
  "      android.permission.CAMERA" +:+ LF +:+
  "    install permissions:" +:+ LF +:+
  "      android.permission.INTERNET: granted=true" +:+ LF +:+
  "Hidden system packages:" +:+ LF +:+
  "    versionName=1.0" +:+ LF.

Definition dump_command (serial package_name : string) : list string :=
  ["adb"; "-s"; serial; "shell"; "dumpsys"; "package"; package_name].

(** What every step of the scan keeps. *)
Definition details_kept (package_name : string) (d : package_details) : Prop :=
  package_name_of d = package_name /\
  Forall (fun p => p <> "" /\ PyStr.strip p = p) (permissions d) /\
  lacks " " (version_code d) = true.

(** *** The commands of the batch *)

(** The commands an outcome stands for: the uninstall command alone when
    it succeeded, the uninstall command and then the disable command
    otherwise. *)
Definition outcome_commands (serial : string) (step : string * outcome)
  : list event :=
  match step.2 with
  | Success => [EvRun (uninstall_command serial step.1 "0") 60]
  | DisabledInstead | Failed =>
      [EvRun (uninstall_command serial step.1 "0") 60;
       EvRun (disable_command serial step.1 "0") 30]
  end.

(** The command and the time-out behind a call on the manager. *)
Definition call_command (m : adb_method) (serial package_name : string)
  : list string * Z :=
  match m with
  | UninstallPackage => (uninstall_command serial package_name "0", 60%Z)
  | DisablePackage => (disable_command serial package_name "0", 30%Z)
  end.

(** The scheduled actions that switch the controls or reload the
    application list. *)
Definition switches_widgets (e : event) : bool :=
  match e with
  | EvAfter (GuiEnableWidgets _) | EvAfter GuiRefreshButtonDisabled
  | EvAfter GuiUninstallButtonDisabled | EvAfter GuiListApps => true
  | _ => false
  end.

(** *** Words for the log stream and the installer *)

Definition logcat_command (serial : string) : list string :=
  ["adb"; "-s"; serial; "logcat"; "-v"; "time"].

(** What the worker hands to the callback for the lines read: each
    non-empty line without its trailing white space. *)
Definition forwarded (feed : list string) : list event :=
  map (fun line => EvLogLine (PyStr.rstrip_by PyStr.isspace line))
      (List.filter PyStr.truthy feed).

Definition install_command (serial apk_path : string) : list string :=
  ["adb"; "-s"; serial; "install"; "-r"; apk_path].

(** ** Properties *)

Lemma advance_advance st w evs w' evs' :
  advance (advance st w evs) w' evs' = advance st w' (evs ++ evs').
Proof. unfold advance; simpl. by rewrite app_assoc. Qed.

Lemma advance_nil st : advance st (world st) [] = st.
Proof. destruct st; unfold advance; simpl. by rewrite app_nil_r. Qed.

Lemma emit_advance e st w evs :
  emit e (advance st w evs) = (tt, advance st w (evs ++ [e])).
Proof. unfold emit, advance; simpl. by rewrite app_assoc. Qed.

Lemma truthy_nonempty s : PyStr.truthy s = true <-> s <> "".
Proof. destruct s; unfold PyStr.truthy; simpl; split; intros H; try done. Qed.

Lemma run_adb_command_eq command timeout st :
  adb_available st = true ->
  starts_with_adb command = true ->
  _run_adb_command command timeout st =
    (let (r, w) := subprocess_run command timeout (world st) in
     (result_triple r,
      advance st w (EvRun command timeout :: result_status timeout r))).
Proof.
  intros Hav Hadb.
  unfold _run_adb_command, bind, get, ret, _update_status, on_world, emit.
  rewrite Hav; simpl.
  destruct command as [|c0 rest]; [discriminate|].
  simpl in Hadb; rewrite Hadb; simpl.
  destruct (subprocess_run (c0 :: rest) timeout (world st)) as [r w].
  destruct r as [out err rc| | |msg]; simpl; unfold advance; simpl;
    rewrite ?Hav; try reflexivity.
  - destruct (rc =? 0)%Z; simpl.
    + destruct (PyStr.truthy (PyStr.strip err)); simpl;
        by rewrite <- ?app_assoc.
    + by rewrite <- ?app_assoc.
  - by rewrite <- ?app_assoc.
  - by rewrite <- ?app_assoc.
  - by rewrite <- ?app_assoc.
Qed.

(** C4 (as amended). A mode outside [valid_modes] makes [reboot_device]
    return [False] with the world untouched and no subprocess spawned, for
    every serial and whether or not the tool is available; with the tool
    available and a non-empty serial, the one thing reported is the
    invalid-mode error. *)
Theorem reboot_invalid_mode_rejected st serial mode :
  mode ∉ valid_modes ->
  let '(b, st') := reboot_device serial mode st in
  b = false /\
  world st' = world st /\
  exists new,
    trace st' = trace st ++ new /\
    filter (fun e => is_spawn e = true) new = [] /\
    (adb_available st = true -> serial <> "" ->
     new = [EvStatus ("Error: Invalid reboot mode '" +:+ mode +:+
              "'. Valid modes are: , recovery, bootloader, sideload, sideload-auto-reboot.")
              Error]).
Proof.
  intros Hmode.
  unfold reboot_device, bind, get, ret, _update_status, emit.
  destruct (adb_available st) eqn:Hav; simpl.
  - destruct (PyStr.truthy serial) eqn:Hs; simpl.
    + rewrite bool_decide_eq_false_2 by done. simpl.
      repeat split; eexists; repeat split; eauto.
    + repeat split. eexists; repeat split; eauto.
      intros _ Hne. apply truthy_nonempty in Hne. congruence.
  - repeat split. exists []. rewrite app_nil_r.
    repeat split; auto. discriminate.
Qed.

(** C2 (as amended). With the tool available, a non-empty serial and an
    existing APK path, when the install command exits with code 0:
    [install_apk] returns [True] exactly when the lower-cased output
    contains "success"; otherwise it returns [False], reporting
    "Installation reported failure" when the output contains "failure" and
    reporting nothing of its own when neither marker appears. *)
Theorem install_apk_exit_zero st serial apk_path stdout stderr w :
  adb_available st = true ->
  serial <> "" -> apk_path <> "" ->
  path_exists apk_path (world st) = true ->
  subprocess_run ["adb"; "-s"; serial; "install"; "-r"; apk_path] 300 (world st)
    = (Completed stdout stderr 0, w) ->
  let '(b, st') := install_apk serial apk_path st in
  let marked m := PyStr.contains m (PyStr.lower stdout) in
  b = marked "success" /\
  world st' = w /\
  trace st' =
    trace st ++
    [EvStatus ("Sending command: Installing " +:+ basename apk_path +:+ " on "
               +:+ serial +:+ "...") Info;
     EvRun ["adb"; "-s"; serial; "install"; "-r"; apk_path] 300] ++
    result_status 300 (Completed stdout stderr 0) ++
    (if marked "success" then
       [EvStatus ("Successfully installed " +:+ basename apk_path +:+ ".") Info]
     else if marked "failure" then
       [EvStatus ("Installation reported failure: " +:+ PyStr.strip stdout) Error]
     else []).
Proof.
  intros Hav Hs Hp Hex Hrun.
  apply truthy_nonempty in Hs, Hp.
  unfold install_apk, bind, get, ret, _update_status.
  rewrite Hav, Hs, Hp, Hex; simpl.
  rewrite run_adb_command_eq by (simpl; auto).
  simpl. rewrite Hrun. simpl.
  destruct (PyStr.contains "success" (PyStr.lower stdout)) eqn:Hsucc; simpl.
  - unfold advance, emit; simpl. repeat split; auto.
    rewrite <- !app_assoc. reflexivity.
  - destruct (PyStr.contains "failure" (PyStr.lower stdout)) eqn:Hfail;
      unfold advance, emit; simpl; repeat split; auto;
      rewrite <- ?app_assoc; simpl; rewrite ?app_nil_r; reflexivity.
Qed.




Lemma split_char_cons sep s :
  exists h t, PyStr.split_char sep s = h :: t.
Proof.
  induction s as [|c s IH]; simpl; [eauto|].
  destruct (Ascii.eqb c sep); [eauto|].
  destruct IH as (h & t & ->). eauto.
Qed.

Lemma split_char_head sep s :
  head (PyStr.split_char sep s) = Some (before_char sep s).
Proof.
  induction s as [|c s IH]; simpl; [done|].
  destruct (Ascii.eqb c sep); [done|].
  destruct (PyStr.split_char sep s) as [|h t]; simpl in *; congruence.
Qed.

Lemma startswith_drop p s :
  PyStr.startswith p s = true -> s = p +:+ drop_chars (String.length p) s.
Proof.
  revert s. induction p as [|a p IH]; intros s H; simpl in *; [done|].
  destruct s as [|b s]; [discriminate|].
  apply andb_true_iff in H as [Hab Hp].
  apply Ascii.eqb_eq in Hab as ->.
  change (String b s = String b (p +:+ drop_chars (String.length p) s)).
  f_equal. auto.
Qed.

(** [line.split(':')[1]] on a line that begins with ["level:"]. *)
Lemma level_field line :
  PyStr.startswith "level:" line = true ->
  PyStr.split_char ":" line !! 1%nat
  = Some (before_char ":" (drop_chars 6 line)).
Proof.
  intros H. apply startswith_drop in H.
  change (String.length "level:") with 6%nat in H.
  remember (drop_chars 6 line) as rest eqn:Hrest. clear Hrest.
  rewrite H. cbv [String.append]. simpl.
  pose proof (split_char_head ":" rest) as Hh.
  destruct (PyStr.split_char ":" rest) as [|h t]; simpl in *; congruence.
Qed.

Lemma battery_scan_found lines acc st :
  battery_scan lines acc st =
    (match List.find (PyStr.startswith "level:") (map PyStr.strip lines) with
     | Some line =>
         (PyStr.strip (before_char ":" (drop_chars 6 line)) +:+ "%", true)
     | None => acc
     end, st).
Proof.
  induction lines as [|line lines IH]; [done|].
  cbn [battery_scan map List.find].
  destruct (PyStr.startswith "level:" (PyStr.strip line)) eqn:Hl.
  - rewrite (level_field _ Hl). reflexivity.
  - apply IH.
Qed.

(** The battery probe of [get_device_info] hands the dump to that scan. *)
Lemma probe_battery_level serial st stdout stderr w :
  adb_available st = true ->
  subprocess_run ["adb"; "-s"; serial; "shell"; "dumpsys"; "battery"] 5
                 (world st) = (Completed stdout stderr 0, w) ->
  fst (fst (probe_battery serial st)) = battery_of_dump stdout.
Proof.
  intros Hav Hrun. unfold probe_battery, bind, ret.
  rewrite run_adb_command_eq by (simpl; auto).
  rewrite Hrun. cbn [result_triple ok_stdout].
  change (0 =? 0)%Z with true. cbv iota.
  destruct (PyStr.truthy stdout) eqn:Hout.
  - rewrite battery_scan_found. unfold battery_of_dump, level_line.
    cbn [fst]. by destruct (List.find _ _).
  - destruct stdout; [reflexivity|discriminate].
Qed.

(** C9 (as amended). The battery level comes from the first line of the
    dump that, stripped of white space, begins with "level:"; the text
    between that prefix and the next colon (the whole suffix when it has
    no colon) is stripped and followed by a percent sign, and later
    "level:" lines are ignored; with no such line the field keeps "N/A",
    and the scan raises and reports nothing in either case. *)
Theorem battery_level_first_line dump st :
  battery_scan (PyStr.splitlines dump) ("N/A", false) st =
    ((battery_of_dump dump, bool_decide (is_Some (level_line dump))), st).
Proof.
  rewrite battery_scan_found. unfold battery_of_dump, level_line.
  destruct (List.find _ _); reflexivity.
Qed.

Lemma details_line_unrecognised line d :
  unrecognised line = true ->
  details_line line (d, false) = (d, false).
Proof.
  unfold unrecognised, recognised_prefixes. cbn [forallb].
  intros H.
  repeat (apply andb_true_iff in H as [?%negb_true_iff H]).
  unfold details_line.
  repeat match goal with
         | E : PyStr.startswith _ _ = false |- _ => rewrite E; clear E
         end.
  reflexivity.
Qed.

Lemma parse_details_unrecognised package_name dump :
  Forall (fun l => unrecognised l = true) (PyStr.splitlines dump) ->
  parse_details package_name dump = default_details package_name.
Proof.
  unfold parse_details.
  generalize (default_details package_name) as d.
  induction (PyStr.splitlines dump) as [|l ls IH]; intros d Hall; [done|].
  inversion Hall as [|? ? Hl Hls]; subst.
  cbn [fold_left]. rewrite details_line_unrecognised by done. auto.
Qed.

(** C10 (as amended). With the tool available, a non-empty serial and a
    non-empty package name, [get_package_details] always returns a record;
    when the dump command failed the record is the initial one (the
    requested package name, "Unknown" in every other scalar field, no
    permissions), and so is the record of any dump none of whose lines
    begins with a recognised prefix. *)
Theorem package_details_never_null st serial package_name :
  adb_available st = true ->
  serial <> "" -> package_name <> "" ->
  let '(r, w) :=
    subprocess_run ["adb"; "-s"; serial; "shell"; "dumpsys"; "package";
                    package_name] 10 (world st) in
  let unknown :=
    mkDetails package_name "Unknown" "Unknown" "Unknown" "Unknown"
              "Unknown" "Unknown" [] in
  exists d,
    fst (get_package_details serial package_name st) = Some d /\
    (dump_failed r = true -> d = unknown) /\
    (forall stdout stderr,
       r = Completed stdout stderr 0 -> stdout <> "" ->
       d = parse_details package_name stdout) /\
    (forall dump,
       Forall (fun l => unrecognised l = true) (PyStr.splitlines dump) ->
       parse_details package_name dump = unknown).
Proof.
  intros Hav Hs Hp. apply truthy_nonempty in Hs, Hp.
  unfold get_package_details, bind, get, ret, _update_status.
  rewrite Hav, Hs, Hp; simpl.
  rewrite run_adb_command_eq by (simpl; auto). simpl.
  destruct (subprocess_run _ _ _) as [r w].
  destruct (ok_stdout (result_triple r)) as [out|] eqn:Hok; simpl;
    eexists; (split; [reflexivity|]); (split; [|split]).
  - intros Hf. destruct r as [o e rc| | |m]; simpl in *; try discriminate.
    destruct (rc =? 0)%Z; simpl in *; [|discriminate].
    destruct o; simpl in *; discriminate.
  - intros o e -> Ho. simpl in Hok.
    apply truthy_nonempty in Ho. rewrite Ho in Hok. congruence.
  - intros dump. apply parse_details_unrecognised.
  - reflexivity.
  - intros o e -> Ho. simpl in Hok.
    apply truthy_nonempty in Ho. rewrite Ho in Hok. discriminate.
  - intros dump. apply parse_details_unrecognised.
Qed.

Lemma prop_value_truthy r v : prop_value r = Some v -> PyStr.truthy v = true.
Proof.
  unfold prop_value. destruct (ok_stdout r); [|discriminate].
  destruct (PyStr.truthy (PyStr.strip_chars _ _)) eqn:E; [|discriminate].
  intros [= <-]. exact E.
Qed.

Lemma first_qualifying_truthy model fetched v :
  first_qualifying model fetched = Some v -> PyStr.truthy v = true.
Proof.
  unfold first_qualifying.
  induction fetched as [|[k o] fetched IH]; simpl; [discriminate|].
  unfold qualifies at 1; simpl.
  destruct o as [x|]; [|exact IH].
  destruct (PyStr.truthy x) eqn:Hx; simpl; [|exact IH].
  destruct (_ || _); simpl; [|exact IH].
  intros [= <-]. exact Hx.
Qed.

Lemma first_qualifying_cons model c rest :
  first_qualifying model (c :: rest) =
    match qualifies model c with
    | Some v => Some v
    | None => first_qualifying model rest
    end.
Proof. unfold first_qualifying. simpl. by destruct (qualifies model c). Qed.

Lemma qualifies_fetched model n value :
  PyStr.truthy value = true ->
  qualifies model (n, Some value) =
    if match model with
       | Some m => String.eqb value m
       | None => false
       end
    then if PyStr.contains "marketname" (PyStr.lower n)
         then Some value else None
    else Some value.
Proof.
  intros Ht. unfold qualifies, denotes_marketname. cbn [fst snd].
  rewrite Ht. cbn [andb].
  destruct model as [m|].
  - destruct (String.eqb value m) eqn:Hvm.
    + apply String.eqb_eq in Hvm as ->.
      by rewrite bool_decide_eq_true_2.
    + apply String.eqb_neq in Hvm.
      by rewrite bool_decide_eq_false_2 by congruence.
  - by rewrite bool_decide_eq_false_2.
Qed.

(** The selection loop reads every candidate and keeps the first that
    qualifies; the entry of the model in [fetched_values] is never
    overwritten. *)
Lemma candidate_loop serial names fv best st :
  let '(fetched, st') :=
    fetch_candidates serial
      (filter (fun p => p ∉ ["ro.product.model"; "ro.build.version.release"])
              names) st in
  exists fv',
    for_each names (candidate_step serial) (fv, best) st =
      ((fv', match best with
             | Some b => Some b
             | None => first_qualifying (fv !! "ro.product.model") fetched
             end), st') /\
    fv' !! "ro.product.model" = fv !! "ro.product.model".
Proof.
  revert fv best st.
  induction names as [|n names IH]; intros fv best st.
  - simpl. exists fv. by destruct best.
  - rewrite filter_cons.
    cbn [for_each]. unfold bind at 1. unfold candidate_step at 1.
    destruct (decide (n ∉ ["ro.product.model"; "ro.build.version.release"]))
      as [Hn|Hn].
    + rewrite bool_decide_eq_false_2 by done.
      cbn [fetch_candidates]. unfold bind.
      destruct (_run_adb_command (getprop_command serial n) 5 st) as [r st1].
      destruct (fetch_candidates serial _ st1) as [rest st2] eqn:Hf.
      unfold ret.
      assert (Hstep : forall fv1 best1, exists fv',
                 for_each names (candidate_step serial) (fv1, best1) st1 =
                   ((fv', match best1 with
                          | Some b => Some b
                          | None =>
                              first_qualifying (fv1 !! "ro.product.model") rest
                          end), st2) /\
                 fv' !! "ro.product.model" = fv1 !! "ro.product.model").
      { intros fv1 best1. specialize (IH fv1 best1 st1).
        rewrite Hf in IH. exact IH. }
      assert (Hne : n <> "ro.product.model")
        by (intros ->; apply Hn, elem_of_cons; by left).
      rewrite first_qualifying_cons.
      destruct (prop_value r) as [value|] eqn:Hv.
      * pose proof (prop_value_truthy _ _ Hv) as Ht.
        assert (Hlk : <[n:=value]> fv !! "ro.product.model"
                      = fv !! "ro.product.model")
          by (by rewrite lookup_insert_ne).
        rewrite (qualifies_fetched _ _ _ Ht).
        destruct best as [b|].
        -- destruct (Hstep (<[n:=value]> fv) (Some b)) as (fv' & Heq & Hfv').
           exists fv'. rewrite Heq. split; [done|congruence].
        -- rewrite Hlk.
           destruct (match fv !! "ro.product.model" with
                     | Some m => String.eqb value m
                     | None => false
                     end);
             [destruct (PyStr.contains "marketname" (PyStr.lower n))|].
           ++ destruct (Hstep (<[n:=value]> fv) (Some value))
                as (fv' & Heq & Hfv').
              exists fv'. rewrite Heq. split; [done|congruence].
           ++ destruct (Hstep (<[n:=value]> fv) None) as (fv' & Heq & Hfv').
              exists fv'. rewrite Heq, Hlk. split; [done|congruence].
           ++ destruct (Hstep (<[n:=value]> fv) (Some value))
                as (fv' & Heq & Hfv').
              exists fv'. rewrite Heq. split; [done|congruence].
      * destruct (Hstep fv best) as (fv' & Heq & Hfv').
        exists fv'. rewrite Heq. split; [|done].
        by destruct best.
    + rewrite bool_decide_eq_true_2 by (by apply dec_stable).
      unfold ret. apply IH.
Qed.

Lemma fetch_candidates_keys serial names st :
  map fst (fst (fetch_candidates serial names st)) = names.
Proof.
  revert st. induction names as [|n names IH]; intros st; [done|].
  cbn [fetch_candidates]. unfold bind, ret.
  destruct (_run_adb_command _ _ st) as [r st1].
  specialize (IH st1).
  destruct (fetch_candidates serial names st1) as [rest st2].
  simpl in *. by rewrite IH.
Qed.

Lemma finalize_display_name_eq serial model fetched :
  finalize_display_name (first_qualifying model fetched)
                        (default "N/A" model) serial
  = display_name_of serial model fetched.
Proof.
  unfold finalize_display_name, display_name_of, reserved.
  assert (Hfb : (if negb (bool_decide (default "N/A" model ∈ ["N/A"; "Error"]))
                 then default "N/A" model else serial)
                = match model with
                  | Some m => if bool_decide (m ∈ ["N/A"; "Error"])
                              then serial else m
                  | None => serial
                  end).
  { destruct model as [m|]; simpl; [by destruct (bool_decide _)|done]. }
  destruct (first_qualifying model fetched) as [b|] eqn:Hb; [|exact Hfb].
  apply first_qualifying_truthy in Hb. rewrite Hb. cbn [andb].
  destruct (decide (b ∈ ["N/A"; "Error"])) as [Hin|Hin].
  - rewrite (bool_decide_eq_true_2 (b ∈ ["N/A"; "Error"])) by done.
    rewrite (bool_decide_eq_true_2 (b ∈ ["N/A"; "Error"; ""]))
      by (clear -Hin; set_unfold; tauto).
    exact Hfb.
  - rewrite (bool_decide_eq_false_2 (b ∈ ["N/A"; "Error"])) by done.
    apply truthy_nonempty in Hb.
    rewrite (bool_decide_eq_false_2 (b ∈ ["N/A"; "Error"; ""]))
      by (clear -Hin Hb; set_unfold; tauto).
    reflexivity.
Qed.

(** C6 (as amended). The secondary candidates are read in the fixed
    priority order; the first whose value is non-empty and either differs
    from the model value already fetched (or no model value was fetched) or
    comes from a key whose name contains "marketname" is selected, and no
    later candidate can replace it. The selected value is the display name
    unless it is "N/A" or "Error"; in that case, and when no candidate
    qualifies, the display name is the fetched model, or the serial when
    the model probe failed or gave "N/A" or "Error". *)
Theorem display_name_first_match st serial :
  adb_available st = true ->
  serial <> "" ->
  let st0 :=
    snd (_update_status ("Fetching info for device " +:+ serial +:+ "...")
                        Info st) in
  let '(model, st1) := probe_model serial st0 in
  let '(version, st2) := probe_version serial st1 in
  let '(battery, st3) := probe_battery serial st2 in
  let '(fetched, st4) := fetch_candidates serial candidates st3 in
  map fst fetched = candidates /\
  forall info,
    fst (get_device_info serial st) = Some info ->
    info_display_name info = display_name_of serial model fetched.
Proof.
  intros Hav Hs. apply truthy_nonempty in Hs.
  unfold get_device_info.
  pose proof (candidate_loop serial prop_names_to_try) as Hloop.
  fold candidates in Hloop.
  pose proof (fetch_candidates_keys serial candidates) as Hkeys.
  remember (for_each prop_names_to_try (candidate_step serial)) as loop eqn:E.
  clear E.
  remember candidates as cands eqn:E. clear E.
  unfold bind, get, ret, _update_status.
  rewrite Hav, Hs; simpl.
  destruct (probe_model serial _) as [model st1].
  destruct (probe_version serial st1) as [version st2].
  destruct (probe_battery serial st2) as [battery st3].
  specialize (Hkeys st3).
  specialize (Hloop (match model with
                     | Some v => {[ "ro.product.model" := v ]}
                     | None => ∅
                     end) None st3).
  destruct (fetch_candidates serial cands st3) as [fetched st4].
  destruct Hloop as (fv' & Heq & _). rewrite Heq. simpl.
  split; [exact Hkeys|].
  assert (Hm : (match model with
                | Some v => ({[ "ro.product.model" := v ]} : gmap string string)
                | None => ∅
                end) !! "ro.product.model" = model).
  { destruct model; [apply lookup_singleton_eq|apply lookup_empty]. }
  rewrite Hm.
  intros info.
  destruct (negb (bool_decide (is_Some model)) && _); simpl; [discriminate|].
  intros [= <-]. simpl. apply finalize_display_name_eq.
Qed.

Lemma lstrip_by_head f s c s1 :
  PyStr.lstrip_by f s = String c s1 -> f c = false.
Proof.
  induction s as [|a s IH]; simpl; [discriminate|].
  destruct (f a) eqn:Ha; [exact IH|].
  intros [= <- _]. exact Ha.
Qed.

Lemma split_ws_first_nonempty n s tok rest :
  PyStr.split_ws n s = tok :: rest -> tok <> "".
Proof.
  destruct n as [|k]; simpl;
    destruct (PyStr.lstrip_by PyStr.isspace s) as [|c s1] eqn:Hl;
    try discriminate.
  - intros [= <- _]. discriminate.
  - apply lstrip_by_head in Hl. rewrite Hl.
    destruct (PyStr.take_token s1) as [tok' rest'].
    intros [= <- _]. discriminate.
Qed.

Lemma split_ws_length n s : length (PyStr.split_ws n s) <= S n.
Proof.
  revert s. induction n as [|k IH]; intros s; simpl;
    destruct (PyStr.lstrip_by PyStr.isspace s) as [|c s1]; simpl; try lia.
  destruct (if PyStr.isspace c then _ else _) as [tok rest].
  simpl. specialize (IH rest). lia.
Qed.

(** The loop over the lines appends the record of every data line that has
    one and warns about every other, in order. *)
Lemma list_devices_loop lines devices st :
  for_each lines list_devices_line devices st =
    (devices ++ omap line_record
                  (List.filter PyStr.truthy (map PyStr.strip lines)),
     advance st (world st)
       (map parse_warning
          (List.filter (fun l => negb (has_two_fields l))
             (List.filter PyStr.truthy (map PyStr.strip lines))))).
Proof.
  revert devices st.
  induction lines as [|line lines IH]; intros devices st.
  - simpl. by rewrite app_nil_r, advance_nil.
  - cbn [for_each map List.filter]. unfold bind at 1.
    unfold list_devices_line at 1.
    destruct (PyStr.truthy (PyStr.strip line)) eqn:Ht; cbn [negb].
    + cbn [List.filter omap list_omap].
      destruct (PyStr.split_ws 2 (PyStr.strip line))
        as [|serial [|state rest]] eqn:Hsp.
      * assert (Hh : has_two_fields (PyStr.strip line) = false)
          by (unfold has_two_fields, fields; by rewrite Hsp).
        assert (Hr : line_record (PyStr.strip line) = None)
          by (unfold line_record, fields; by rewrite Hsp).
        rewrite Hh, Hr. cbn [negb map].
        unfold bind, _update_status, ret, emit. cbn [fst snd]. rewrite IH.
        f_equal. unfold advance, parse_warning; simpl. by rewrite <- app_assoc.
      * assert (Hh : has_two_fields (PyStr.strip line) = false)
          by (unfold has_two_fields, fields; by rewrite Hsp).
        assert (Hr : line_record (PyStr.strip line) = None)
          by (unfold line_record, fields; by rewrite Hsp).
        rewrite Hh, Hr. cbn [negb map].
        unfold bind, _update_status, ret, emit. cbn [fst snd]. rewrite IH.
        f_equal. unfold advance, parse_warning; simpl. by rewrite <- app_assoc.
      * assert (Hh : has_two_fields (PyStr.strip line) = true)
          by (unfold has_two_fields, fields; by rewrite Hsp).
        assert (Hr : line_record (PyStr.strip line)
                     = Some (mkDevice serial state (default "" (head rest))))
          by (unfold line_record, fields; by rewrite Hsp).
        rewrite Hh, Hr. cbn [negb].
        unfold ret. rewrite IH. f_equal.
        rewrite <- app_assoc. f_equal. simpl. by destruct rest.
    + unfold ret. apply IH.
Qed.

Lemma line_record_serial line d :
  line_record line = Some d -> dev_serial d <> "".
Proof.
  unfold line_record, fields.
  destruct (PyStr.split_ws 2 line) as [|serial [|state rest]] eqn:Hsp;
    try discriminate.
  intros [= <-]. simpl. eapply split_ws_first_nonempty, Hsp.
Qed.

Lemma records_serial ls :
  Forall (fun d => dev_serial d <> "") (omap line_record ls).
Proof.
  induction ls as [|l ls IH]; simpl; [constructor|].
  destruct (line_record l) as [d|] eqn:Hd; [|exact IH].
  constructor; [eapply line_record_serial, Hd|exact IH].
Qed.

Lemma records_count ls :
  length (omap line_record ls)
  + length (List.filter (fun l => negb (has_two_fields l)) ls)
  = length ls.
Proof.
  induction ls as [|l ls IH]; [done|].
  cbn [omap list_omap List.filter].
  unfold line_record at 1, has_two_fields at 1.
  destruct (fields l) as [|serial [|state rest]]; simpl in *; lia.
Qed.

Lemma dropped_none ls :
  Forall (fun l => has_two_fields l = true) ls ->
  List.filter (fun l => negb (has_two_fields l)) ls = [].
Proof.
  induction 1 as [|l ls Hl _ IH]; simpl; [done|]. by rewrite Hl.
Qed.

(** The header removal of the program, from the listing's own lines. *)
Lemma drop_header_first_line stdout :
  drop_header (PyStr.split_char "010" (PyStr.strip stdout))
  = listing_lines stdout.
Proof.
  unfold listing_lines, starts_with_header, raw_lines, drop_header, header_text.
  destruct (PyStr.split_char "010" (PyStr.strip stdout)) as [|l0 rest]; [done|].
  cbn [head]. by destruct (PyStr.contains _ l0).
Qed.

(** When the header stands nowhere but on the first line, taking the
    first line off when it is the header and discarding the header
    wherever it stands come to the same. *)
Lemma listing_lines_claimed stdout :
  header_only_first stdout -> listing_lines stdout = claimed_lines stdout.
Proof.
  unfold header_only_first, listing_lines, claimed_lines, starts_with_header.
  destruct (raw_lines stdout) as [|l0 rest]; [done|].
  cbn [tail head List.filter]. intros Hrest.
  assert (Hf : List.filter (fun l => negb (PyStr.contains header_text l)) rest
               = rest).
  { induction Hrest as [|l ls Hl _ IH]; [done|].
    cbn [List.filter]. by rewrite Hl, IH. }
  rewrite Hf. by destruct (PyStr.contains header_text l0).
Qed.

(** C5 (as amended). When the listing command succeeds, [list_devices]
    returns the records of the listing's data lines in order: the text is
    stripped and split into lines, the first line is discarded when it
    holds the header text (a header on any other line is kept and parsed
    like a data line), blank lines are skipped, every other line is split
    into at most three fields, and a line with fewer than two fields is
    reported in a warning and dropped while the parse goes on. Every
    record has a non-empty serial, and a well-formed listing with N data
    lines gives exactly N records. When the header stands nowhere but on
    the first line, the records are those of the specification, which
    discards the header wherever it stands. *)
Theorem list_devices_parse st stdout stderr w :
  adb_available st = true ->
  subprocess_run ["adb"; "devices"; "-l"] 20 (world st)
    = (Completed stdout stderr 0, w) ->
  let '(devices, st') := list_devices st in
  devices = parse_listing stdout /\
  trace st' =
    trace st ++
    [EvStatus "Searching for devices..." Info;
     EvRun ["adb"; "devices"; "-l"] 20] ++
    result_status 20 (Completed stdout stderr 0) ++
    map parse_warning (dropped_lines stdout) ++
    (if PyStr.truthy stdout && PyStr.is_empty (PyStr.strip stdout)
     then [EvStatus "No devices found." Info] else []) /\
  Forall (fun l => length (fields l) <= 3) (data_lines stdout) /\
  Forall (fun d => dev_serial d <> "") devices /\
  length devices + length (dropped_lines stdout) = length (data_lines stdout) /\
  (well_formed stdout -> length devices = length (data_lines stdout)) /\
  (header_only_first stdout -> devices = claimed_listing stdout).
Proof.
  intros Hav Hrun.
  assert (Hrest :
    Forall (fun l => length (fields l) <= 3) (data_lines stdout) /\
    Forall (fun d => dev_serial d <> "") (parse_listing stdout) /\
    length (parse_listing stdout) + length (dropped_lines stdout)
      = length (data_lines stdout) /\
    (well_formed stdout ->
     length (parse_listing stdout) = length (data_lines stdout)) /\
    (header_only_first stdout -> parse_listing stdout = claimed_listing stdout)).
  { split; [|split; [|split; [|split]]].
    - apply Forall_forall. intros l _. apply split_ws_length.
    - apply records_serial.
    - apply records_count.
    - intros Hwf. pose proof (records_count (data_lines stdout)) as Hc.
      rewrite (dropped_none _ Hwf) in Hc. simpl in Hc.
      unfold parse_listing. lia.
    - intros Hh. unfold parse_listing, claimed_listing, data_lines,
        claimed_data_lines. by rewrite (listing_lines_claimed _ Hh). }
  unfold list_devices, bind, get, ret, _update_status.
  rewrite Hav. cbn [negb]. cbv beta iota. unfold emit. cbv beta iota.
  rewrite run_adb_command_eq by (simpl; auto).
  cbn [fst snd world]. rewrite Hrun.
  cbn [result_triple ok_stdout]. change (0 =? 0)%Z with true. cbv iota.
  destruct (PyStr.truthy stdout) eqn:Hout.
  - rewrite list_devices_loop. cbn [app].
    rewrite drop_header_first_line. fold (data_lines stdout).
    fold (dropped_lines stdout). fold (parse_listing stdout).
    cbn [andb].
    destruct (parse_listing stdout) as [|d ds] eqn:Hparse.
    + destruct (PyStr.truthy (PyStr.strip stdout)) eqn:Hstrip; cbn [negb].
      * assert (He : PyStr.is_empty (PyStr.strip stdout) = false)
          by (unfold PyStr.truthy in Hstrip; by destruct (PyStr.is_empty _)).
        rewrite He. split; [done|]. split; [|exact Hrest].
        unfold advance; simpl. rewrite app_nil_r, <- !app_assoc. reflexivity.
      * assert (He : PyStr.is_empty (PyStr.strip stdout) = true)
          by (unfold PyStr.truthy in Hstrip; by destruct (PyStr.is_empty _)).
        rewrite He. split; [done|]. split; [|exact Hrest].
        unfold advance, emit; simpl. rewrite <- !app_assoc. reflexivity.
    + split; [done|]. split; [|exact Hrest].
      assert (He : PyStr.is_empty (PyStr.strip stdout) = false).
      { destruct (PyStr.strip stdout) eqn:Hs; [|done].
        unfold parse_listing, data_lines, listing_lines, starts_with_header,
          raw_lines in Hparse.
        rewrite Hs in Hparse. vm_compute in Hparse. discriminate Hparse. }
      rewrite He.
      unfold advance; simpl. rewrite app_nil_r, <- !app_assoc. reflexivity.
  - assert (Hs : stdout = "") by (by destruct stdout).
    subst stdout. split; [reflexivity|]. split; [|exact Hrest].
    cbn [andb]. unfold advance; simpl.
    change (dropped_lines "") with (@nil string).
    simpl. rewrite <- !app_assoc. simpl. by rewrite ?app_nil_r.
Qed.

Lemma quiet_ret {A} (a : A) : quiet (ret a).
Proof.
  intros st. exists (world st), []. split; [|constructor].
  simpl. by rewrite advance_nil.
Qed.

Lemma quiet_get : quiet get.
Proof.
  intros st. exists (world st), []. split; [|constructor].
  simpl. by rewrite advance_nil.
Qed.

Lemma quiet_status message lvl : quiet (_update_status message lvl).
Proof.
  intros st. exists (world st), [EvStatus message lvl].
  split; [reflexivity|]. by repeat constructor.
Qed.

Lemma quiet_run command timeout : quiet (emit (EvRun command timeout)).
Proof.
  intros st. exists (world st), [EvRun command timeout].
  split; [reflexivity|]. by repeat constructor.
Qed.

Lemma quiet_on_world {A} (f : World -> A * World) : quiet (on_world f).
Proof.
  intros st. unfold on_world. destruct (f (world st)) as [a w].
  exists w, []. split; [|constructor].
  unfold advance; simpl. by rewrite app_nil_r.
Qed.

Lemma quiet_bind {A B} (m : M A) (k : A -> M B) :
  quiet m -> (forall a, quiet (k a)) -> quiet (bind m k).
Proof.
  intros Hm Hk st. unfold bind.
  destruct (Hm st) as (w1 & evs1 & H1 & F1).
  destruct (m st) as [a st1]. simpl in H1. subst st1.
  destruct (Hk a (advance st w1 evs1)) as (w2 & evs2 & H2 & F2).
  exists w2, (evs1 ++ evs2). rewrite H2, advance_advance.
  split; [done|]. by apply Forall_app.
Qed.

Ltac quiet_step :=
  first
    [ apply quiet_ret
    | apply quiet_get
    | apply quiet_status
    | apply quiet_run
    | apply quiet_on_world
    | apply quiet_bind; [|intros ?]
    | match goal with
      | |- quiet (if ?b then _ else _) => destruct b
      | |- quiet (match ?x with _ => _ end) => destruct x
      end ].

Lemma quiet_run_adb_command command timeout :
  quiet (_run_adb_command command timeout).
Proof. unfold _run_adb_command. repeat quiet_step. Qed.

Lemma quiet_uninstall_package serial package_name user_id :
  quiet (uninstall_package serial package_name user_id).
Proof.
  unfold uninstall_package.
  repeat first [apply quiet_run_adb_command | quiet_step].
Qed.

Lemma quiet_disable_package serial package_name user_id :
  quiet (disable_package serial package_name user_id).
Proof.
  unfold disable_package.
  repeat first [apply quiet_run_adb_command | quiet_step].
Qed.

Lemma manager_events_no_call evs :
  Forall (fun e => is_manager_event e = true) evs ->
  List.filter is_call evs = [] /\ omap gui_result evs = [].
Proof.
  induction 1 as [|e evs He _ [IH1 IH2]]; [done|].
  destruct e; try discriminate He; simpl; auto.
Qed.

(** A call on the manager: the manager's own events, then the call with
    what it returned. *)
Lemma adb_call_events m serial package_name st :
  exists b w evs,
    adb_call m serial package_name st =
      (b, advance st w (evs ++ [EvCall m serial package_name b])) /\
    Forall (fun e => is_manager_event e = true) evs.
Proof.
  unfold adb_call, bind, ret.
  set (call := match m with
               | UninstallPackage => uninstall_package serial package_name "0"
               | DisablePackage => disable_package serial package_name "0"
               end).
  assert (Hq : quiet call)
    by (destruct m; [apply quiet_uninstall_package|apply quiet_disable_package]).
  destruct (Hq st) as (w & evs & Hst & Hev).
  destruct (call st) as [b st1].
  simpl in Hst. subst st1.
  exists b, w, evs. rewrite emit_advance. done.
Qed.



Lemma imap_values {A B} (g : nat -> B) (l : list A) :
  map snd (imap (fun i x => (g i, x)) l) = l.
Proof.
  revert g. induction l as [|x l IH]; intros g; [done|].
  simpl. f_equal. apply (IH (g ∘ S)).
Qed.

Lemma enumerate_values {A} (l : list A) : map snd (enumerate l) = l.
Proof. apply (imap_values (fun i => i)). Qed.




(** What the function nested in [start_logcat] would do if it were
    called on an active stream: set the stop flag, terminate the child,
    wait one second for it, kill it if it has not exited, forget the
    handle and report. *)
Lemma stop_logcat_local_order st p :
  logcat_process st = Some p ->
  stop_logcat_local st =
    (let (exited, w) := wait_exits p 1 (world st) in
     (tt, mkState (adb_available st) None true w
            (trace st ++ [EvTerminate; EvWait 1]
             ++ (if exited then [] else [EvKill])
             ++ [EvStatus "Logcat stopped." Info]))).
Proof.
  intros Hp.
  unfold stop_logcat_local, bind, get, ret, set_stop_logcat_event,
    set_logcat_process, _update_status, emit, on_world.
  cbn [logcat_process adb_available stop_logcat_event world trace].
  rewrite Hp.
  cbn [logcat_process adb_available stop_logcat_event world trace].
  destruct (wait_exits p 1 (world st)) as [exited w].
  destruct exited; cbn [logcat_process adb_available stop_logcat_event world trace];
    rewrite <- ?app_assoc; reflexivity.
Qed.

(** How [connect_device] classifies the output of a command that exited
    with code 0, and what it does with any other exit code. *)
Lemma connect_device_exit_zero st address stdout stderr w :
  adb_available st = true ->
  address <> "" ->
  subprocess_run ["adb"; "connect"; address] 15 (world st)
    = (Completed stdout stderr 0, w) ->
  let has m := PyStr.contains m (PyStr.lower stdout) in
  fst (connect_device address st) =
    (has "connected to" || has "already connected")
    || negb (has " connection refused" || has " unable to connect"
             || has "failed to connect").
Proof.
  intros Hav Ha Hrun. apply truthy_nonempty in Ha.
  unfold connect_device, bind, get, ret, _update_status.
  rewrite Hav, Ha; simpl.
  rewrite run_adb_command_eq by (simpl; auto).
  simpl. rewrite Hrun. simpl.
  destruct (PyStr.contains "connected to" (PyStr.lower stdout));
    destruct (PyStr.contains "already connected" (PyStr.lower stdout));
    simpl; try reflexivity.
  destruct (PyStr.contains " connection refused" (PyStr.lower stdout));
    simpl; try reflexivity.
  destruct (PyStr.contains " unable to connect" (PyStr.lower stdout));
    destruct (PyStr.contains "failed to connect" (PyStr.lower stdout));
    reflexivity.
Qed.

Lemma connect_device_nonzero st address stdout stderr returncode w :
  adb_available st = true ->
  subprocess_run ["adb"; "connect"; address] 15 (world st)
    = (Completed stdout stderr returncode, w) ->
  returncode <> 0%Z ->
  fst (connect_device address st) = false.
Proof.
  intros Hav Hrun Hrc.
  unfold connect_device, bind, get, ret, _update_status.
  rewrite Hav; simpl.
  destruct (PyStr.truthy address); simpl; [|reflexivity].
  rewrite run_adb_command_eq by (simpl; auto).
  simpl. rewrite Hrun. simpl.
  destruct (returncode =? 0)%Z eqn:E; [|reflexivity].
  apply Z.eqb_eq in E. contradiction.
Qed.

(** When a property read delivers nothing: the process raised, exited
    with a non-zero code, printed nothing, or printed only white space and
    quote characters. *)
Lemma read_value_failed r :
  read_value r = None <->
  match r with
  | Completed stdout _ returncode =>
      returncode <> 0%Z \/ stdout = "" \/
      PyStr.strip_chars quote_chars (PyStr.strip stdout) = ""
  | _ => True
  end.
Proof.
  clear. unfold read_value, prop_value.
  destruct r as [out err rc| | |msg]; simpl; try tauto.
  destruct (rc =? 0)%Z eqn:Hrc.
  - apply Z.eqb_eq in Hrc. subst rc.
    destruct out as [|c out]; simpl; [tauto|].
    destruct (PyStr.strip_chars quote_chars (PyStr.strip (String c out)))
      as [|d v]; simpl.
    + tauto.
    + split; [discriminate|]. intros [H|[H|H]]; congruence.
  - apply Z.eqb_neq in Hrc. tauto.
Qed.

(** ** Further properties of [AdbManager] *)

(** Whatever the command, the time-out and the state, the runner hands
    back a text for [stdout] whenever the return code is 0, and the return
    code 1 whenever it has no text to hand back; so a caller that tests
    [returncode == 0] first never touches a missing [stdout]. *)
Theorem run_adb_command_stdout_present command timeout st :
  let '((stdout, stderr), returncode) :=
    fst (_run_adb_command command timeout st) in
  (returncode = 0%Z -> is_Some stdout) /\
  (stdout = None -> returncode = 1%Z).
Proof.
  unfold _run_adb_command, bind, get, ret, _update_status, on_world, emit.
  cbv beta iota.
  destruct (adb_available st); cbn [negb]; [|split; [discriminate|done]].
  destruct command as [|c0 rest]; [split; [discriminate|done]|].
  destruct (negb _); [split; [discriminate|done]|].
  cbn [world].
  destruct (subprocess_run (c0 :: rest) timeout (world st)) as [r w].
  destruct r as [out err rc| | |msg]; cbv beta iota;
    try (split; [discriminate|done]).
  destruct (negb (rc =? 0)%Z); [by split; [eauto|discriminate]|].
  destruct (PyStr.truthy (PyStr.strip err)); by split; [eauto|discriminate].
Qed.

(** The runner spawns at most one process, and only when the tool was
    found at start-up and the command names it; otherwise the world is
    left as it was. It reports exactly one message on every path but one:
    a command that exits with code 0 and leaves the error stream blank is
    reported by nobody. *)
Theorem run_adb_command_reports_once command timeout st :
  let '(r, st') := _run_adb_command command timeout st in
  exists statuses,
    trace st' =
      trace st
      ++ (if reaches_subprocess st command
          then [EvRun command timeout] else [])
      ++ statuses /\
    Forall (fun e => is_status e = true) statuses /\
    length statuses = (if clean_result r then 0 else 1)%nat /\
    (reaches_subprocess st command = false -> world st' = world st) /\
    adb_available st' = adb_available st.
Proof.
  unfold reaches_subprocess.
  destruct (adb_available st) eqn:Hav.
  - destruct (starts_with_adb command) eqn:Hadb.
    + rewrite run_adb_command_eq by done.
      destruct (subprocess_run command timeout (world st)) as [r w].
      exists (result_status timeout r).
      unfold advance. cbn [trace world adb_available andb app].
      split; [reflexivity|].
      split; [|split; [|split; [discriminate|done]]].
      * destruct r as [out err rc| | |msg]; simpl;
          [destruct (rc =? 0)%Z; simpl;
           [destruct (PyStr.truthy (PyStr.strip err))|]|..];
          by repeat constructor.
      * destruct r as [out err rc| | |msg]; simpl; try done.
        destruct (rc =? 0)%Z; simpl; [|done].
        by destruct (PyStr.truthy (PyStr.strip err)).
    + unfold _run_adb_command, bind, get, ret, _update_status, emit.
      cbv beta iota. rewrite Hav. cbn [negb].
      assert (Hc : match command with
                   | [] => true
                   | c0 :: _ => negb (String.eqb (PyStr.lower c0) "adb")
                   end = true).
      { destruct command; [done|]. simpl in Hadb. by rewrite Hadb. }
      rewrite Hc. cbv beta iota.
      eexists [_]. cbn [trace world adb_available andb app clean_result].
      repeat split; by repeat constructor.
  - unfold _run_adb_command, bind, get, ret, _update_status, emit.
    cbv beta iota. rewrite Hav. cbn [negb]. cbv beta iota.
    eexists [_]. cbn [trace world adb_available andb app clean_result].
    repeat split; by repeat constructor.
Qed.

(** The constructor runs [adb version] once, with a 5 second time-out, and
    marks the tool available exactly when that command ran and exited with
    code 0 (a non-zero exit, a missing binary, a time-out and any other
    exception all mark it unavailable); it reports the check and its
    verdict, and leaves no log stream. *)
Theorem init_probes_once w :
  let '(r, w') := subprocess_run ["adb"; "version"] 5 w in
  adb_available (__init__ w) = version_probe_ok r /\
  logcat_process (__init__ w) = None /\
  stop_logcat_event (__init__ w) = false /\
  world (__init__ w) = w' /\
  trace (__init__ w) =
    [EvStatus "Checking for ADB command..." Info;
     EvRun ["adb"; "version"] 5;
     if version_probe_ok r
     then EvStatus "'adb' command found." Info
     else EvStatus
            "Error: 'adb' command not found. Please ensure Android SDK Platform-Tools are installed and 'adb' is in your system's PATH."
            Error].
Proof.
  unfold __init__, _is_adb_available, bind, ret, _update_status, emit,
    on_world, set_adb_available, set_logcat_process, set_stop_logcat_event.
  cbn [world trace adb_available logcat_process stop_logcat_event app].
  destruct (subprocess_run ["adb"; "version"] 5 w) as [r w'].
  destruct r as [out err rc| | |msg]; cbn [version_probe_ok];
    [destruct (rc =? 0)%Z|..]; repeat split.
Qed.

(** With the tool marked unavailable every operation gives up at once:
    it returns its failure value and leaves the state as it was, so no
    process is spawned and, the runner and the log stream apart, nothing
    is reported either. *)
Theorem unavailable_tool_short_circuits st :
  adb_available st = false ->
  list_devices st = ([], st) /\
  (forall address, connect_device address st = (false, st)) /\
  (forall serial, get_device_info serial st = (None, st)) /\
  (forall serial mode, reboot_device serial mode st = (false, st)) /\
  (forall serial, power_off_device serial st = (false, st)) /\
  (forall serial apk_path, install_apk serial apk_path st = (false, st)) /\
  (forall serial user_only, list_packages serial user_only st = ([], st)) /\
  (forall serial package_name user_id,
     uninstall_package serial package_name user_id st = (false, st)) /\
  (forall serial package_name user_id,
     disable_package serial package_name user_id st = (false, st)) /\
  (forall serial package_name,
     get_package_details serial package_name st = (None, st)) /\
  (forall command timeout,
     _run_adb_command command timeout st =
       ((None, "ADB not available", 1%Z),
        advance st (world st)
          [EvStatus "ADB is not available. Cannot run command." Error])) /\
  (forall serial,
     start_logcat serial st =
       (inl tt,
        advance st (world st)
          [EvStatus "Cannot start Logcat: ADB unavailable or no device." Error])).
Proof.
  intros Hav.
  unfold list_devices, connect_device, get_device_info, reboot_device,
    power_off_device, install_apk, list_packages, uninstall_package,
    disable_package, get_package_details, _run_adb_command, start_logcat,
    bind, get, ret, _update_status.
  cbv beta iota. rewrite Hav. cbn [negb orb].
  repeat split.
Qed.

Lemma truthy_is_empty s : negb (PyStr.truthy s) = PyStr.is_empty s.
Proof. unfold PyStr.truthy. by destruct (PyStr.is_empty s). Qed.

(** With the tool available, a non-empty serial and a valid mode,
    [reboot_device] sends one command, [adb -s serial reboot] followed by
    the mode when it is not empty, with a 10 second time-out, and returns
    [True] exactly when it exited cleanly: an exit code 0 with any text on
    the error stream counts as a failure, and so does every exception. *)
Theorem reboot_device_sent st serial mode r w :
  adb_available st = true ->
  serial <> "" ->
  mode ∈ valid_modes ->
  subprocess_run (reboot_command serial mode) 10 (world st) = (r, w) ->
  let '(b, st') := reboot_device serial mode st in
  b = exited_cleanly r /\
  world st' = w /\
  exists new,
    trace st' = trace st ++ new /\
    List.filter is_spawn new = [EvRun (reboot_command serial mode) 10] /\
    (b = true ->
     last new = Some (EvStatus ("Reboot command sent successfully to "
                                +:+ serial +:+ ".") Info)).
Proof.
  intros Hav Hs Hmode Hrun. apply truthy_nonempty in Hs.
  unfold reboot_command in *.
  unfold reboot_device, bind, get, ret, _update_status.
  rewrite Hav, Hs; simpl. rewrite bool_decide_eq_true_2 by done. simpl.
  destruct (PyStr.truthy mode) eqn:Hm; simpl in *.
  all: rewrite run_adb_command_eq by (simpl; auto); simpl; rewrite Hrun; simpl.
  all: destruct r as [out err rc| | |msg]; simpl.
  all: unfold PyStr.truthy;
    try (destruct (rc =? 0)%Z; destruct (PyStr.is_empty (PyStr.strip err)));
    simpl.
  all: split; [done|]; split; [done|]; unfold advance; simpl;
    eexists; (split; [rewrite <- ?app_assoc; reflexivity|]);
    split; [reflexivity|intros; done].
Qed.

(** [power_off_device] behaves the same way with its one command,
    [adb -s serial shell reboot -p]. *)
Theorem power_off_device_sent st serial r w :
  adb_available st = true ->
  serial <> "" ->
  subprocess_run ["adb"; "-s"; serial; "shell"; "reboot"; "-p"] 10 (world st)
    = (r, w) ->
  let '(b, st') := power_off_device serial st in
  b = exited_cleanly r /\
  world st' = w /\
  exists new,
    trace st' = trace st ++ new /\
    List.filter is_spawn new
    = [EvRun ["adb"; "-s"; serial; "shell"; "reboot"; "-p"] 10] /\
    (b = true ->
     last new = Some (EvStatus ("Power off command sent successfully to "
                                +:+ serial +:+ ".") Info)).
Proof.
  intros Hav Hs Hrun. apply truthy_nonempty in Hs.
  unfold power_off_device, bind, get, ret, _update_status.
  rewrite Hav, Hs; simpl.
  rewrite run_adb_command_eq by (simpl; auto); simpl; rewrite Hrun; simpl.
  destruct r as [out err rc| | |msg]; simpl.
  all: unfold PyStr.truthy;
    try (destruct (rc =? 0)%Z; destruct (PyStr.is_empty (PyStr.strip err)));
    simpl.
  all: split; [done|]; split; [done|]; unfold advance; simpl;
    eexists; (split; [rewrite <- ?app_assoc; reflexivity|]);
    split; [reflexivity|intros; done].
Qed.


Lemma lstrip_all_space s :
  PyStr.lstrip_by PyStr.isspace s = "" <-> all_space s = true.
Proof.
  induction s as [|c s IH]; simpl; [done|].
  destruct (PyStr.isspace c); simpl; [exact IH|]. split; discriminate.
Qed.

Lemma rstrip_keeps_head f c s :
  f c = false -> PyStr.rstrip_by f (String c s) = String c (PyStr.rstrip_by f s).
Proof. intros Hc. simpl. by rewrite Hc. Qed.

Lemma strip_all_space s : PyStr.strip s = "" <-> all_space s = true.
Proof.
  unfold PyStr.strip, PyStr.strip_by. rewrite <- lstrip_all_space.
  destruct (PyStr.lstrip_by PyStr.isspace s) as [|c s1] eqn:Hl; [done|].
  apply lstrip_by_head in Hl. rewrite (rstrip_keeps_head _ _ _ Hl).
  split; discriminate.
Qed.

Lemma truthy_strip s : PyStr.truthy (PyStr.strip s) = negb (all_space s).
Proof.
  destruct (all_space s) eqn:Ha.
  - apply strip_all_space in Ha. by rewrite Ha.
  - destruct (PyStr.strip s) eqn:Hs; [|done].
    apply strip_all_space in Hs. congruence.
Qed.

Lemma lower_char_space c : PyStr.isspace (PyStr.lower_char c) = PyStr.isspace c.
Proof. by destruct c as [[] [] [] [] [] [] [] []]. Qed.

Lemma all_space_lower s : all_space (PyStr.lower s) = all_space s.
Proof.
  induction s as [|c s IH]; simpl; [done|].
  by rewrite lower_char_space, IH.
Qed.

Lemma startswith_not_all_space c p s :
  PyStr.isspace c = false ->
  PyStr.startswith (String c p) s = true -> all_space s = false.
Proof.
  intros Hc. destruct s as [|b s]; simpl; [discriminate|].
  intros [Hb _]%andb_prop. apply Ascii.eqb_eq in Hb as <-. by rewrite Hc.
Qed.

Lemma contains_not_all_space c p s :
  PyStr.isspace c = false ->
  PyStr.contains (String c p) s = true -> all_space s = false.
Proof.
  intros Hc. induction s as [|b s IH].
  - simpl. discriminate.
  - cbn [PyStr.contains]. intros [H|H]%orb_prop.
    + by apply (startswith_not_all_space c p).
    + simpl. rewrite (IH H). by destruct (PyStr.isspace b).
Qed.

(** With the tool available and non-empty arguments, [uninstall_package]
    sends one command, [adb -s serial uninstall --user id package], with a
    60 second time-out, and returns [True] exactly when the tool exited
    with code 0 and printed "success" in some letter case: exit code 0
    alone is not enough, and text on the error stream does not matter. *)
Theorem uninstall_package_needs_marker st serial package_name user_id r w :
  adb_available st = true ->
  serial <> "" -> package_name <> "" ->
  subprocess_run (uninstall_command serial package_name user_id) 60 (world st)
    = (r, w) ->
  let '(b, st') := uninstall_package serial package_name user_id st in
  b = reported_success r /\
  world st' = w /\
  exists new,
    trace st' = trace st ++ new /\
    List.filter is_spawn new
    = [EvRun (uninstall_command serial package_name user_id) 60].
Proof.
  intros Hav Hs Hp Hrun. apply truthy_nonempty in Hs, Hp.
  unfold uninstall_command in *.
  unfold uninstall_package, bind, get, ret, _update_status.
  rewrite Hav, Hs, Hp; simpl.
  rewrite run_adb_command_eq by (simpl; auto); simpl; rewrite Hrun; simpl.
  destruct r as [out err rc| | |msg]; simpl.
  all: try (destruct (rc =? 0)%Z;
            destruct (PyStr.contains "success" (PyStr.lower out));
            destruct (PyStr.contains "failure" (PyStr.lower out));
            destruct (PyStr.truthy (PyStr.strip err))); simpl.
  all: split; [done|]; split; [done|]; unfold advance; simpl;
    eexists; (split; [rewrite <- ?app_assoc; reflexivity|]); reflexivity.
Qed.

(** With the tool available and non-empty arguments, [disable_package]
    sends one command, [adb -s serial shell pm disable-user --user id
    package], with a 30 second time-out, and returns [True] exactly when
    the tool exited with code 0 and printed anything but white space: the
    confirmation text only chooses between the success message and the
    unexpected-output warning. *)
Theorem disable_package_needs_output st serial package_name user_id r w :
  adb_available st = true ->
  serial <> "" -> package_name <> "" ->
  subprocess_run (disable_command serial package_name user_id) 30 (world st)
    = (r, w) ->
  let '(b, st') := disable_package serial package_name user_id st in
  b = printed_something r /\
  world st' = w /\
  exists new,
    trace st' = trace st ++ new /\
    List.filter is_spawn new
    = [EvRun (disable_command serial package_name user_id) 30].
Proof.
  intros Hav Hs Hp Hrun. apply truthy_nonempty in Hs, Hp.
  unfold disable_command in *.
  unfold disable_package, bind, get, ret, _update_status.
  rewrite Hav, Hs, Hp; simpl.
  rewrite run_adb_command_eq by (simpl; auto); simpl; rewrite Hrun; simpl.
  destruct r as [out err rc| | |msg]; simpl.
  2-4: split; [done|]; split; [done|]; unfold advance; simpl;
    eexists; (split; [rewrite <- ?app_assoc; reflexivity|]); reflexivity.
  destruct (rc =? 0)%Z; simpl.
  - destruct (PyStr.contains _ (PyStr.lower out)) eqn:Hc; simpl.
    + assert (Ht : PyStr.truthy (PyStr.strip out) = true).
      { rewrite truthy_strip, <- all_space_lower.
        change ("package " +:+ package_name +:+ " new state: disabled")
          with (String "p" ("ackage " +:+ package_name
                            +:+ " new state: disabled")) in Hc.
        assert (Hp' : PyStr.isspace "p" = false) by reflexivity.
        by rewrite (contains_not_all_space _ _ _ Hp' Hc). }
      rewrite Ht.
      destruct (PyStr.truthy (PyStr.strip err)); simpl;
        (split; [done|]; split; [done|]; unfold advance; simpl;
         eexists; (split; [rewrite <- ?app_assoc; reflexivity|]); reflexivity).
    + destruct (PyStr.truthy (PyStr.strip out));
        destruct (PyStr.truthy (PyStr.strip err)); simpl;
        (split; [done|]; split; [done|]; unfold advance; simpl;
         eexists; (split; [rewrite <- ?app_assoc; reflexivity|]); reflexivity).
  - destruct (PyStr.truthy (PyStr.strip err)); simpl;
      (split; [done|]; split; [done|]; unfold advance; simpl;
       eexists; (split; [rewrite <- ?app_assoc; reflexivity|]); reflexivity).
Qed.

Lemma lower_char_idem c :
  PyStr.lower_char (PyStr.lower_char c) = PyStr.lower_char c.
Proof. by destruct c as [[] [] [] [] [] [] [] []]. Qed.

Lemma startswith_lower_fixed n t :
  PyStr.startswith n (PyStr.lower t) = true -> PyStr.lower n = n.
Proof.
  revert t. induction n as [|a n IH]; intros t; [done|].
  destruct t as [|b t]; simpl; [discriminate|].
  intros [Hab Hn]%andb_prop. apply Ascii.eqb_eq in Hab as ->.
  by rewrite lower_char_idem, (IH t Hn).
Qed.

(** Whatever is found in lower-cased text has no capital letter. *)
Lemma contains_lower_fixed n s :
  PyStr.contains n (PyStr.lower s) = true -> PyStr.lower n = n.
Proof.
  induction s as [|c s IH].
  - simpl. rewrite orb_false_r. apply (startswith_lower_fixed n "").
  - cbn [PyStr.lower PyStr.contains]. intros [H|H]%orb_prop; [|auto].
    apply (startswith_lower_fixed n (String c s)). exact H.
Qed.

Lemma lower_app a b : PyStr.lower (a +:+ b) = PyStr.lower a +:+ PyStr.lower b.
Proof.
  induction a as [|c a IH]; [done|].
  change (String (PyStr.lower_char c) (PyStr.lower (a +:+ b))
          = String (PyStr.lower_char c) (PyStr.lower a +:+ PyStr.lower b)).
  by rewrite IH.
Qed.

Lemma lower_prefix_fixed name rest :
  PyStr.lower name +:+ rest = name +:+ rest -> PyStr.lower name = name.
Proof.
  induction name as [|c name IH]; [done|].
  change (String (PyStr.lower_char c) (PyStr.lower name +:+ rest)
          = String c (name +:+ rest) -> PyStr.lower (String c name) = String c name).
  intros [= Hc Hn]. simpl. by rewrite Hc, (IH Hn).
Qed.

(** The confirmation [disable_package] searches the lower-cased output
    for is built from the package name as given; a name with a capital
    letter can therefore never be confirmed. *)
Lemma disable_marker_lower_only package_name out :
  PyStr.contains ("package " +:+ package_name +:+ " new state: disabled")
                 (PyStr.lower out) = true ->
  PyStr.lower package_name = package_name.
Proof.
  intros H%contains_lower_fixed.
  rewrite !lower_app in H.
  change (PyStr.lower "package ") with "package " in H.
  change (PyStr.lower " new state: disabled") with " new state: disabled" in H.
  apply (inj (String.app "package ")) in H.
  by apply lower_prefix_fixed in H.
Qed.

(** For a package name with a capital letter [disable_package] never
    reports "Successfully disabled": when the command exits with code 0
    and prints anything, the method returns [True] and its last message is
    the unexpected-output warning, even if the output is the tool's own
    confirmation. *)
Theorem disable_package_capital_letter st serial package_name user_id
    stdout stderr w :
  adb_available st = true ->
  serial <> "" -> package_name <> "" ->
  PyStr.lower package_name <> package_name ->
  subprocess_run (disable_command serial package_name user_id) 30 (world st)
    = (Completed stdout stderr 0, w) ->
  PyStr.strip stdout <> "" ->
  let '(b, st') := disable_package serial package_name user_id st in
  b = true /\
  trace st' =
    trace st ++
    [EvStatus ("Sending command: Disabling " +:+ package_name +:+ " for "
               +:+ serial +:+ " (User " +:+ user_id +:+ ")...") Info;
     EvRun (disable_command serial package_name user_id) 30] ++
    result_status 30 (Completed stdout stderr 0) ++
    [EvStatus ("Disable command sent for " +:+ package_name +:+
               ", but output was unexpected: " +:+ PyStr.strip stdout)
              Warning].
Proof.
  intros Hav Hs Hp Hcap Hrun Hout.
  apply truthy_nonempty in Hs, Hp, Hout.
  unfold disable_command in *.
  unfold disable_package, bind, get, ret, _update_status.
  rewrite Hav, Hs, Hp; simpl.
  rewrite run_adb_command_eq by (simpl; auto); simpl; rewrite Hrun; simpl.
  destruct (PyStr.contains _ (PyStr.lower stdout)) eqn:Hc.
  - apply disable_marker_lower_only in Hc. contradiction.
  - rewrite Hout. unfold advance, emit; simpl.
    split; [done|]. rewrite <- !app_assoc. reflexivity.
Qed.

Lemma rstrip_by_idem f s :
  PyStr.rstrip_by f (PyStr.rstrip_by f s) = PyStr.rstrip_by f s.
Proof.
  induction s as [|c s IH]; [done|]. cbn [PyStr.rstrip_by].
  destruct (f c && PyStr.is_empty (PyStr.rstrip_by f s)) eqn:E; [done|].
  cbn [PyStr.rstrip_by]. by rewrite IH, E.
Qed.

(** Stripping twice is stripping once. *)
Lemma strip_by_idem f s :
  PyStr.strip_by f (PyStr.strip_by f s) = PyStr.strip_by f s.
Proof.
  unfold PyStr.strip_by.
  destruct (PyStr.lstrip_by f s) as [|c s1] eqn:Hl; [done|].
  apply lstrip_by_head in Hl.
  rewrite (rstrip_keeps_head _ _ _ Hl). cbn [PyStr.lstrip_by]. rewrite Hl.
  rewrite (rstrip_keeps_head _ _ _ Hl). by rewrite rstrip_by_idem.
Qed.

Lemma no_space_strip s : no_space s = true -> PyStr.strip s = s.
Proof.
  unfold PyStr.strip, PyStr.strip_by.
  induction s as [|c s IH]; [done|]. cbn [no_space].
  intros [Hc Hs]%andb_prop. apply negb_true_iff in Hc.
  cbn [PyStr.lstrip_by]. rewrite Hc.
  rewrite (rstrip_keeps_head _ _ _ Hc). f_equal.
  specialize (IH Hs). destruct s as [|d s]; [done|].
  cbn [no_space] in Hs. apply andb_prop in Hs as [Hd _].
  apply negb_true_iff in Hd. cbn [PyStr.lstrip_by] in IH.
  by rewrite Hd in IH.
Qed.

Lemma no_space_app a b :
  no_space (a +:+ b) = no_space a && no_space b.
Proof.
  induction a as [|c a IH]; [done|].
  change (negb (PyStr.isspace c) && no_space (a +:+ b)
          = negb (PyStr.isspace c) && no_space a && no_space b).
  by rewrite IH, andb_assoc.
Qed.

(** Every name [list_packages] returns is non-empty and has no white
    space around it, whatever the tool printed and in every state. *)
Theorem list_packages_names_stripped st serial user_only :
  Forall (fun p => p <> "" /\ PyStr.strip p = p)
         (fst (list_packages serial user_only st)).
Proof.
  assert (Hloop : forall lines acc,
    Forall (fun p => p <> "" /\ PyStr.strip p = p) acc ->
    Forall (fun p => p <> "" /\ PyStr.strip p = p)
      (fold_left (fun packages line => list_packages_line line packages)
                 lines acc)).
  { clear. induction lines as [|l lines IH]; intros acc Hacc; [done|].
    cbn [fold_left]. apply IH. unfold list_packages_line.
    destruct (PyStr.startswith "package:" (PyStr.strip l)); [|done].
    destruct (PyStr.truthy _) eqn:Ht; [|done].
    apply Forall_app. split; [done|]. constructor; [|constructor].
    split; [by apply truthy_nonempty|apply strip_by_idem]. }
  unfold list_packages, bind, get, ret, _update_status.
  cbv beta iota.
  destruct (negb (adb_available st)); [constructor|].
  destruct (negb (PyStr.truthy serial)); [constructor|].
  cbn [emit].
  destruct (_run_adb_command _ _ _) as [r st1].
  destruct (ok_stdout r) as [stdout|].
  - cbn [fst]. apply Hloop. constructor.
  - destruct r as [[out err] rc].
    destruct ((rc =? 0)%Z && _); constructor.
Qed.

Lemma string_app_assoc (a b c : string) : (a +:+ b) +:+ c = a +:+ (b +:+ c).
Proof.
  induction a as [|x a IH]; [done|].
  change (String x ((a +:+ b) +:+ c) = String x (a +:+ (b +:+ c))).
  by rewrite IH.
Qed.

Lemma rstrip_app_nonempty f a b :
  PyStr.rstrip_by f b <> "" ->
  PyStr.rstrip_by f (a +:+ b) = a +:+ PyStr.rstrip_by f b.
Proof.
  intros Hb. induction a as [|c a IH]; [done|].
  change (PyStr.rstrip_by f (String c (a +:+ b))
          = String c (a +:+ PyStr.rstrip_by f b)).
  cbn [PyStr.rstrip_by]. rewrite IH.
  destruct (a +:+ PyStr.rstrip_by f b) as [|x y] eqn:E.
  - destruct a; [|discriminate E]. contradiction.
  - cbn [PyStr.is_empty]. by rewrite andb_false_r.
Qed.

Lemma rstrip_app_blank f a b :
  PyStr.rstrip_by f b = "" ->
  PyStr.rstrip_by f (a +:+ b) = PyStr.rstrip_by f a.
Proof.
  intros Hb. induction a as [|c a IH]; [done|].
  change (PyStr.rstrip_by f (String c (a +:+ b))
          = PyStr.rstrip_by f (String c a)).
  cbn [PyStr.rstrip_by]. by rewrite IH.
Qed.

Lemma no_space_rstrip s :
  no_space s = true -> PyStr.rstrip_by PyStr.isspace s = s.
Proof.
  induction s as [|c s IH]; [done|]. cbn [no_space].
  intros [Hc Hs]%andb_prop. apply negb_true_iff in Hc.
  by rewrite (rstrip_keeps_head _ _ _ Hc), (IH Hs).
Qed.

Lemma split_lf_app line rest :
  no_space line = true ->
  PyStr.split_char "010" (line +:+ String "010" rest)
  = line :: PyStr.split_char "010" rest.
Proof.
  induction line as [|c line IH]; [done|]. cbn [no_space].
  intros [Hc Hl]%andb_prop.
  change (PyStr.split_char "010" (String c (line +:+ String "010" rest))
          = String c line :: PyStr.split_char "010" rest).
  cbn [PyStr.split_char]. rewrite (IH Hl).
  destruct (Ascii.eqb c "010") eqn:E; [|done].
  apply Ascii.eqb_eq in E. subst c. discriminate Hc.
Qed.

Lemma split_lf_single line :
  no_space line = true -> PyStr.split_char "010" line = [line].
Proof.
  induction line as [|c line IH]; [done|]. cbn [no_space].
  intros [Hc Hl]%andb_prop. cbn [PyStr.split_char]. rewrite (IH Hl).
  destruct (Ascii.eqb c "010") eqn:E; [|done].
  apply Ascii.eqb_eq in E. subst c. discriminate Hc.
Qed.

Lemma package_line_no_space n :
  no_space n = true -> no_space ("package:" +:+ n) = true.
Proof. intros Hn. by rewrite no_space_app, Hn. Qed.

Lemma strip_package_listing names :
  Forall (fun n => n <> "" /\ no_space n = true) names ->
  PyStr.strip (package_listing names) = stripped_listing names.
Proof.
  intros Hall. unfold PyStr.strip, PyStr.strip_by.
  assert (Hl : PyStr.lstrip_by PyStr.isspace (package_listing names)
               = package_listing names) by (by destruct names).
  rewrite Hl. clear Hl.
  induction Hall as [|n ns [_ Hn] Hns IH]; [done|].
  cbn [package_listing stripped_listing].
  pose proof (package_line_no_space n Hn) as Hline.
  rewrite <- (string_app_assoc "package:" n).
  destruct ns as [|n' ns].
  - cbn [package_listing].
    rewrite rstrip_app_blank by done. by apply no_space_rstrip.
  - assert (Hne : stripped_listing (n' :: ns) <> "")
      by (destruct ns; discriminate).
    rewrite rstrip_app_nonempty.
    + rewrite (rstrip_app_nonempty _ LF) by (by rewrite IH).
      by rewrite IH, string_app_assoc.
    + rewrite (rstrip_app_nonempty _ LF) by (by rewrite IH).
      discriminate.
Qed.

Lemma split_stripped_listing n ns :
  Forall (fun n => n <> "" /\ no_space n = true) (n :: ns) ->
  PyStr.split_char "010" (stripped_listing (n :: ns))
  = map (String.append "package:") (n :: ns).
Proof.
  revert n. induction ns as [|n' ns IH]; intros n Hall.
  - inversion Hall as [|? ? [_ Hn] _]; subst.
    cbn [stripped_listing map]. by rewrite split_lf_single
      by (by apply package_line_no_space).
  - inversion Hall as [|? ? [_ Hn] Hns]; subst.
    change (stripped_listing (n :: n' :: ns))
      with ("package:" +:+ n +:+ LF +:+ stripped_listing (n' :: ns)).
    rewrite <- (string_app_assoc "package:" n).
    change (LF +:+ stripped_listing (n' :: ns))
      with (String "010" (stripped_listing (n' :: ns))).
    rewrite split_lf_app by (by apply package_line_no_space).
    by rewrite (IH n' Hns).
Qed.

Lemma list_packages_lines names acc :
  Forall (fun n => n <> "" /\ no_space n = true) names ->
  fold_left (fun packages line => list_packages_line line packages)
            (map (String.append "package:") names) acc
  = acc ++ names.
Proof.
  intros Hall. revert acc.
  induction Hall as [|n ns [Hne Hn] _ IH]; intros acc.
  - simpl. by rewrite app_nil_r.
  - cbn [map fold_left]. rewrite IH. unfold list_packages_line.
    rewrite (no_space_strip _ (package_line_no_space n Hn)).
    change (PyStr.startswith "package:" ("package:" +:+ n)) with true.
    change (drop_chars (String.length "package:") ("package:" +:+ n)) with n.
    cbv iota. rewrite (no_space_strip _ Hn).
    apply truthy_nonempty in Hne. rewrite Hne.
    by rewrite <- app_assoc.
Qed.

(** Round trip with the tool's format: when [pm list packages] exits with
    code 0 and prints one [package:name] line for each of the given names,
    none of them empty or holding white space, [list_packages] returns
    exactly those names, in that order. *)
Theorem list_packages_round_trip st serial user_only names stderr w :
  adb_available st = true ->
  serial <> "" ->
  Forall (fun n => n <> "" /\ no_space n = true) names ->
  subprocess_run (list_packages_command serial user_only) 60 (world st)
    = (Completed (package_listing names) stderr 0, w) ->
  fst (list_packages serial user_only st) = names.
Proof.
  intros Hav Hs Hall Hrun. apply truthy_nonempty in Hs.
  unfold list_packages, bind, get, ret, _update_status.
  cbv beta iota. rewrite Hav, Hs. cbn [negb emit].
  rewrite run_adb_command_eq by (by destruct user_only).
  cbn [world]. rewrite Hrun. cbn [result_triple ok_stdout].
  change (0 =? 0)%Z with true. cbv beta iota.
  destruct names as [|n ns].
  - reflexivity.
  - assert (Ht : PyStr.truthy (package_listing (n :: ns)) = true) by done.
    rewrite Ht. cbn [fst].
    rewrite (strip_package_listing _ Hall), (split_stripped_listing _ _ Hall).
    by rewrite (list_packages_lines _ [] Hall).
Qed.

Lemma sends_ret {A} (a : A) timeout : sends (ret a) [] timeout.
Proof.
  intros st _. exists (world st), []. unfold ret. simpl.
  by rewrite advance_nil.
Qed.

Lemma sends_status message lvl timeout :
  sends (_update_status message lvl) [] timeout.
Proof.
  intros st _. exists (world st), [EvStatus message lvl].
  unfold _update_status, emit, advance. simpl.
  split; [done|]. split; [done|]. by repeat constructor.
Qed.

Lemma sends_bind {A B} (m : M A) (k : A -> M B) c1 c2 timeout :
  sends m c1 timeout ->
  (forall a, sends (k a) c2 timeout) ->
  sends (bind m k) (c1 ++ c2) timeout.
Proof.
  intros Hm Hk st Hav. unfold bind.
  destruct (Hm st Hav) as (w1 & evs1 & H1 & S1 & F1).
  destruct (m st) as [a st1]. simpl in H1. subst st1.
  destruct (Hk a (advance st w1 evs1) Hav) as (w2 & evs2 & H2 & S2 & F2).
  exists w2, (evs1 ++ evs2).
  rewrite H2, advance_advance. split; [done|].
  rewrite !List.filter_app, S1, S2, map_app. split; [done|].
  by apply Forall_app.
Qed.

Lemma sends_run command timeout :
  starts_with_adb command = true ->
  sends (_run_adb_command command timeout) [command] timeout.
Proof.
  intros Hadb st Hav. rewrite run_adb_command_eq by done.
  destruct (subprocess_run command timeout (world st)) as [r w].
  exists w, (EvRun command timeout :: result_status timeout r).
  split; [done|].
  assert (Hs : Forall (fun e => is_status e = true) (result_status timeout r)).
  { destruct r as [out err rc| | |msg]; simpl;
      [destruct (rc =? 0)%Z; simpl;
       [destruct (PyStr.truthy (PyStr.strip err))|]|..];
      by repeat constructor. }
  assert (Hf : forall l, Forall (fun e => is_status e = true) l ->
                 List.filter is_spawn l = [] /\
                 List.filter (fun e => negb (is_spawn e)) l = l).
  { induction 1 as [|e l He _ [IH1 IH2]]; [done|].
    destruct e; try discriminate He. simpl. by rewrite IH1, IH2. }
  destruct (Hf _ Hs) as [H1 H2].
  cbn [List.filter is_spawn negb map]. by rewrite H1, H2.
Qed.

Lemma sends_battery_scan lines acc timeout :
  sends (battery_scan lines acc) [] timeout.
Proof.
  induction lines as [|line lines IH]; cbn [battery_scan].
  - apply sends_ret.
  - destruct (PyStr.startswith "level:" (PyStr.strip line)); [|exact IH].
    destruct (PyStr.split_char ":" (PyStr.strip line) !! 1%nat).
    + apply sends_ret.
    + apply (sends_bind _ _ [] []); [apply sends_status|intros _; exact IH].
Qed.

Lemma sends_candidate_loop serial names acc :
  sends (for_each names (candidate_step serial) acc)
        (map (getprop_command serial)
           (filter (fun p => p ∉ ["ro.product.model";
                                  "ro.build.version.release"]) names)) 5.
Proof.
  revert acc. induction names as [|n names IH]; intros acc.
  - apply sends_ret.
  - rewrite filter_cons. cbn [for_each].
    destruct acc as [fv best]. unfold candidate_step at 1.
    destruct (decide (n ∉ ["ro.product.model"; "ro.build.version.release"]))
      as [Hn|Hn].
    + rewrite bool_decide_eq_false_2 by done.
      change (map (getprop_command serial) (n :: ?l))
        with ([getprop_command serial n] ++ map (getprop_command serial) l).
      intros st Hav. unfold bind at 1 2.
      destruct (sends_run (getprop_command serial n) 5 eq_refl st Hav)
        as (w1 & evs1 & H1 & S1 & F1).
      destruct (_run_adb_command (getprop_command serial n) 5 st) as [r st1].
      simpl in H1. subst st1.
      assert (Hnext : forall acc', exists w evs,
                snd (for_each names (candidate_step serial) acc'
                       (advance st w1 evs1)) = advance st w evs /\
                List.filter is_spawn evs
                = map (fun c => EvRun c 5)
                    ([getprop_command serial n] ++
                     map (getprop_command serial)
                       (filter (fun p => p ∉ ["ro.product.model";
                                  "ro.build.version.release"]) names)) /\
                Forall (fun e => is_status e = true)
                  (List.filter (fun e => negb (is_spawn e)) evs)).
      { intros acc'.
        destruct (IH acc' (advance st w1 evs1) Hav) as (w2 & evs2 & H2 & S2 & F2).
        exists w2, (evs1 ++ evs2). rewrite H2, advance_advance. split; [done|].
        rewrite !List.filter_app, S1, S2, map_app. split; [done|].
        by apply Forall_app. }
      destruct (prop_value r) as [value|]; [|unfold ret; apply Hnext].
      destruct best as [b|]; [unfold ret; apply Hnext|].
      destruct (match <[n:=value]> fv !! "ro.product.model" with
                | Some m => String.eqb value m
                | None => false
                end);
        [destruct (PyStr.contains "marketname" (PyStr.lower n))|];
        unfold ret; apply Hnext.
    + rewrite bool_decide_eq_true_2 by (by apply dec_stable).
      intros st Hav. unfold bind, ret. apply IH, Hav.
Qed.

Lemma sends_probe_battery serial :
  sends (probe_battery serial)
        [["adb"; "-s"; serial; "shell"; "dumpsys"; "battery"]] 5.
Proof.
  unfold probe_battery.
  apply (sends_bind _ _ [_] []); [by apply sends_run|].
  intros r. destruct (ok_stdout r);
    [apply sends_battery_scan|apply sends_ret].
Qed.

(** With the tool available and a non-empty serial, [get_device_info]
    always sends the same 15 commands, each with a 5 second time-out and
    in the same order: the model, the version, the battery dump, then the
    12 secondary properties. No reply ends the sequence early: neither a
    failed model probe nor a display name found at the first candidate. *)
Theorem get_device_info_commands st serial :
  adb_available st = true ->
  serial <> "" ->
  let '(info, st') := get_device_info serial st in
  exists new,
    trace st' = trace st ++ new /\
    List.filter is_spawn new
    = map (fun c => EvRun c 5) (device_info_commands serial) /\
    length (List.filter is_spawn new) = 15%nat /\
    Forall (fun e => is_status e = true)
           (List.filter (fun e => negb (is_spawn e)) new).
Proof.
  intros Hav Hs. apply truthy_nonempty in Hs.
  assert (Hsends : sends (get_device_info serial)
                         (device_info_commands serial) 5).
  { clear st Hav. intros st Hav.
    unfold get_device_info. unfold bind at 1. unfold get.
    rewrite Hav, Hs. cbn [negb]. revert st Hav.
    change (sends
      (_update_status ("Fetching info for device " +:+ serial +:+ "...") Info ;;;
       model_value <- probe_model serial ;;
       version_value <- probe_version serial ;;
       battery <- probe_battery serial ;;
       found <- for_each prop_names_to_try (candidate_step serial)
                  (match model_value with
                   | Some v => {[ "ro.product.model" := v ]}
                   | None => ∅
                   end, None) ;;
       (if negb (bool_decide (is_Some model_value))
           && negb (bool_decide (is_Some version_value)) then
          _update_status
            ("Failed to fetch essential model/version info for device "
             +:+ serial +:+ ".") Error ;;;
          ret None
        else
          _update_status ("Info fetch complete for " +:+ serial +:+ ".") Info ;;;
          ret (Some (mkInfo serial (default "N/A" model_value)
                       (default "N/A" version_value)
                       (finalize_display_name (snd found)
                          (default "N/A" model_value) serial)
                       (fst battery)))))
      (device_info_commands serial) 5).
    apply (sends_bind _ _ [] _); [apply sends_status|intros _].
    unfold device_info_commands.
    apply (sends_bind _ _ [_] _).
    { unfold probe_model.
      apply (sends_bind _ _ [_] []); [by apply sends_run|].
      intros r; apply sends_ret. }
    intros model_value.
    apply (sends_bind _ _ [_] _).
    { unfold probe_version.
      apply (sends_bind _ _ [_] []); [by apply sends_run|].
      intros r; apply sends_ret. }
    intros version_value.
    apply (sends_bind _ _ [_] _); [apply sends_probe_battery|].
    intros battery.
    rewrite <- (app_nil_r (map (getprop_command serial) candidates)).
    apply sends_bind; [apply sends_candidate_loop|].
    intros found.
    destruct (_ && _);
      (apply (sends_bind _ _ [] []); [apply sends_status|intros _]);
      apply sends_ret. }
  destruct (Hsends st Hav) as (w & evs & Hst & Hsp & Hrest).
  destruct (get_device_info serial st) as [info st']. simpl in Hst. subst st'.
  exists evs. split; [done|]. split; [exact Hsp|]. split; [|exact Hrest].
  by rewrite Hsp.
Qed.

Lemma finalize_display_name_valid best model serial :
  model <> "" -> serial <> "" ->
  finalize_display_name best model serial <> "" /\
  (reserved (finalize_display_name best model serial) = true ->
   reserved model = true /\ reserved serial = true).
Proof.
  intros Hm Hs.
  assert (Hfb : (if negb (reserved model) then model else serial) <> "" /\
                (reserved (if negb (reserved model) then model else serial)
                 = true -> reserved model = true /\ reserved serial = true)).
  { destruct (reserved model) eqn:E; cbn [negb]; [by split|].
    split; [done|]. by rewrite E. }
  unfold finalize_display_name. fold (reserved model).
  destruct best as [b|]; [|exact Hfb].
  destruct (PyStr.truthy b) eqn:Hb; cbn [andb]; [|exact Hfb].
  destruct (decide (b ∈ ["N/A"; "Error"; ""])) as [Hin|Hin].
  - rewrite bool_decide_eq_true_2 by done. exact Hfb.
  - rewrite bool_decide_eq_false_2 by done. cbn [negb].
    split; [by apply truthy_nonempty|].
    unfold reserved at 1. intros Hr%bool_decide_eq_true.
    exfalso. apply Hin. clear -Hr. set_unfold. tauto.
Qed.

Lemma get_device_info_record st serial info :
  fst (get_device_info serial st) = Some info ->
  exists best,
    info_serial info = serial /\
    info_model info <> "" /\
    info_display_name info
    = finalize_display_name best (info_model info) serial.
Proof.
  unfold get_device_info.
  remember (for_each prop_names_to_try (candidate_step serial)) as loop eqn:E.
  clear E.
  unfold bind, get, ret, _update_status.
  destruct (negb (adb_available st)); [discriminate|].
  destruct (negb (PyStr.truthy serial)); [discriminate|].
  unfold emit. cbv beta iota.
  destruct (probe_model serial _) as [model st1] eqn:Hpm.
  destruct (probe_version serial st1) as [version st2].
  destruct (probe_battery serial st2) as [battery st3].
  destruct (loop _ st3) as [found st4].
  destruct (_ && _); cbn [fst]; [discriminate|].
  intros [= <-]. exists (snd found). cbn [info_serial info_model info_display_name].
  split; [done|]. split; [|done].
  unfold probe_model, bind, ret in Hpm.
  destruct (_run_adb_command _ _ _) as [r st'].
  injection Hpm as Hm _. subst model.
  destruct (prop_value r) as [v|] eqn:Hv; [|discriminate].
  apply prop_value_truthy in Hv. by apply truthy_nonempty.
Qed.

(** The panel after a fetch, for a non-empty serial: when the fetch
    returned nothing the headline reads "Selected Device: None". When it
    returned a record the headline is always the three-part form
    "name (model) (serial)", unless the name is "N/A" or "Error", which
    happens only when the serial itself is one of the two; the two shorter
    forms of the headline never appear. The name is never empty. *)
Theorem device_panel_headline st serial :
  serial <> "" ->
  let labels := fst (_fetch_and_update_device_info_threaded serial st) in
  match fst (get_device_info serial st) with
  | None => selected_device_label labels = "Selected Device: None"
  | Some info =>
      info_display_name info <> "" /\
      (reserved (info_display_name info) = true -> reserved serial = true) /\
      selected_device_label labels
      = if reserved (info_display_name info) then "Selected Device: None"
        else "Selected Device: " +:+ info_display_name info +:+ " ("
             +:+ info_model info +:+ ") (" +:+ serial +:+ ")"
  end.
Proof.
  intros Hs. unfold _fetch_and_update_device_info_threaded, bind, ret.
  destruct (get_device_info serial st) as [info st'] eqn:Hg. cbn [fst].
  destruct info as [info|]; [|reflexivity].
  assert (Hi : fst (get_device_info serial st) = Some info) by (by rewrite Hg).
  destruct (get_device_info_record _ _ _ Hi) as (best & Hser & Hm & Hd).
  destruct (finalize_display_name_valid best (info_model info) serial Hm Hs)
    as [Hne Hres].
  rewrite <- Hd in Hne, Hres.
  split; [exact Hne|]. split; [intros H; by apply Hres|].
  unfold _do_update_device_info_gui. cbn [selected_device_label].
  apply truthy_nonempty in Hne. rewrite Hne. cbn [andb].
  fold (reserved (info_display_name info)).
  fold (reserved (info_model info)). fold (reserved (info_serial info)).
  rewrite Hser.
  destruct (reserved (info_display_name info)) eqn:Hr; cbn [negb]; [|done].
  destruct (Hres eq_refl) as [-> ->]. cbn [negb]. by rewrite !andb_false_r.
Qed.

Lemma take_token_no_space s :
  no_space (fst (PyStr.take_token s)) = true.
Proof.
  induction s as [|c s IH]; [done|]. cbn [PyStr.take_token].
  destruct (PyStr.isspace c) eqn:Hc; [done|].
  destruct (PyStr.take_token s) as [tok rest]. cbn [fst no_space] in *.
  by rewrite Hc, IH.
Qed.

Lemma split_ws_token k s tok rest :
  PyStr.split_ws (S k) s = tok :: rest ->
  no_space tok = true /\ exists r, rest = PyStr.split_ws k r.
Proof.
  cbn [PyStr.split_ws].
  destruct (PyStr.lstrip_by PyStr.isspace s) as [|c s1]; [discriminate|].
  pose proof (take_token_no_space (String c s1)) as Ht.
  destruct (PyStr.take_token (String c s1)) as [tok' rest'].
  intros [= <- <-]. split; [exact Ht|by exists rest'].
Qed.

Lemma line_record_fields line d :
  line_record line = Some d ->
  dev_serial d <> "" /\ no_space (dev_serial d) = true /\
  no_space (dev_state d) = true.
Proof.
  intros Hd. split; [by eapply line_record_serial|].
  unfold line_record, fields in Hd.
  destruct (PyStr.split_ws 2 line) as [|serial [|state rest]] eqn:Hsp;
    try discriminate.
  injection Hd as <-. cbn [dev_serial dev_state].
  apply split_ws_token in Hsp as [Hserial [r Hr]].
  split; [exact Hserial|].
  symmetry in Hr. by apply split_ws_token in Hr as [Hstate _].
Qed.

Lemma list_devices_records st :
  Forall (fun d => exists line, line_record line = Some d)
         (fst (list_devices st)).
Proof.
  assert (Hrec : forall ls,
            Forall (fun d => exists line, line_record line = Some d)
                   (omap line_record ls)).
  { intros ls. apply Forall_forall. intros d Hd.
    apply list_elem_of_omap in Hd as (line & _ & Hline). by exists line. }
  unfold list_devices, bind, get, ret, _update_status.
  destruct (negb (adb_available st)); [constructor|].
  unfold emit. cbv beta iota.
  destruct (_run_adb_command _ _ _) as [r st1].
  destruct (ok_stdout r) as [stdout|]; [|constructor].
  rewrite list_devices_loop. cbn [app].
  destruct (omap line_record _) as [|d ds] eqn:E.
  - destruct (negb _); constructor.
  - cbn [fst]. rewrite <- E. apply Hrec.
Qed.

Lemma split_char_lacks c s :
  lacks c s = true -> PyStr.split_char c s = [s].
Proof.
  induction s as [|d s IH]; [done|]. cbn [lacks].
  intros [Hd Hs]%andb_prop. apply negb_true_iff in Hd.
  cbn [PyStr.split_char]. by rewrite Hd, (IH Hs).
Qed.

Lemma split_char_lacks_app c s rest :
  lacks c s = true ->
  PyStr.split_char c (s +:+ String c rest) = s :: PyStr.split_char c rest.
Proof.
  induction s as [|d s IH]; cbn [lacks].
  - intros _. change ("" +:+ String c rest) with (String c rest).
    cbn [PyStr.split_char]. by rewrite Ascii.eqb_refl.
  - intros [Hd Hs]%andb_prop. apply negb_true_iff in Hd.
    change (String d s +:+ String c rest)
      with (String d (s +:+ String c rest)).
    cbn [PyStr.split_char]. by rewrite Hd, (IH Hs).
Qed.

Lemma no_space_lacks_blank s : no_space s = true -> lacks " " s = true.
Proof.
  induction s as [|d s IH]; [done|]. cbn [no_space lacks].
  intros [Hd Hs]%andb_prop. rewrite (IH Hs), andb_true_r.
  destruct (Ascii.eqb d " ") eqn:E; [|done].
  apply Ascii.eqb_eq in E. subst d. discriminate Hd.
Qed.

Lemma selected_serial_display dev :
  no_space (dev_serial dev) = true ->
  lacks "(" (dev_serial dev) = true ->
  selected_serial (display_str dev) = dev_serial dev.
Proof.
  intros Hns Hp. pose proof (no_space_lacks_blank _ Hns) as Hb.
  assert (Hhead : default "" (head (PyStr.split_char " " (display_str dev)))
                  = dev_serial dev).
  { unfold display_str. destruct (bool_decide _).
    - change (dev_serial dev +:+ " [" +:+ capitalize (dev_state dev) +:+ "]")
        with (dev_serial dev +:+
              String " " ("[" +:+ capitalize (dev_state dev) +:+ "]")).
      by rewrite split_char_lacks_app.
    - by rewrite split_char_lacks. }
  unfold selected_serial. rewrite Hhead, split_char_lacks by done.
  cbn [head default]. by apply no_space_strip.
Qed.

Lemma devices_dictionary devices values infos :
  let result :=
    fold_left
      (fun acc dev =>
         (acc.1 ++ [display_str dev],
          <[dev_serial dev := dev]> acc.2 : gmap string device))
      devices (values, infos) in
  result.1 = values ++ map display_str devices /\
  forall serial,
    is_Some (result.2 !! serial) <->
    is_Some (infos !! serial) \/ serial ∈ map dev_serial devices.
Proof.
  revert values infos.
  induction devices as [|d devices IH]; intros values infos; cbn [fold_left map].
  - cbn zeta. rewrite app_nil_r. split; [done|].
    intros serial. rewrite elem_of_nil. clear. tauto.
  - destruct (IH (values ++ [display_str d]) (<[dev_serial d := d]> infos))
      as [Hv Hi].
    cbn zeta in *. cbn [fst snd] in *. split.
    + by rewrite Hv, <- app_assoc.
    + intros serial. rewrite Hi, elem_of_cons.
      destruct (decide (serial = dev_serial d)) as [->|Hne].
      * rewrite lookup_insert_eq. clear. split; [intros _|]; eauto.
      * rewrite lookup_insert_ne by done. clear -Hne. intuition congruence.
Qed.

(** Selecting a listed device finds it again. For every record
    [list_devices] returns, whatever the tool printed, the text shown in
    the drop-down (the serial, followed by the state in brackets for an
    unauthorized or offline device) is read back by [on_device_selected] as
    that record's serial, and the serial is found in the dictionary of
    listed devices; this needs the serial to hold no opening parenthesis
    and not to be one of the four placeholder words. *)
Theorem device_selection_round_trip st dev :
  dev ∈ fst (list_devices st) ->
  lacks "(" (dev_serial dev) = true ->
  dev_serial dev ∉ ["No"; "ADB"; "Selected"; "Searching..."] ->
  let '(device_display_values, available_devices_info) :=
    fst (_perform_list_devices_threaded st) in
  device_display_values = map display_str (fst (list_devices st)) /\
  on_device_selected (display_str dev) available_devices_info
  = SelectDevice (dev_serial dev).
Proof.
  intros Hdev Hparen Hplace.
  pose proof (list_devices_records st) as Hrec.
  rewrite Forall_forall in Hrec. destruct (Hrec dev Hdev) as [line Hline].
  apply line_record_fields in Hline as (Hne & Hns & _).
  unfold _perform_list_devices_threaded, bind, ret.
  destruct (list_devices st) as [devices st1]. cbn [fst] in *.
  destruct (devices_dictionary devices [] ∅) as [Hv Hi].
  cbn zeta in Hv, Hi.
  destruct (fold_left _ devices ([], ∅)) as [values infos].
  cbn [fst snd] in *. split; [exact Hv|].
  unfold on_device_selected.
  rewrite (selected_serial_display dev Hns Hparen).
  apply truthy_nonempty in Hne. rewrite Hne.
  rewrite (bool_decide_eq_false_2 _ Hplace). cbn [andb negb].
  rewrite bool_decide_eq_true_2; [done|].
  apply Hi. right. by apply (list_elem_of_fmap_2 dev_serial).
Qed.

Lemma get_package_details_parsed st serial package_name dump stderr w :
  adb_available st = true ->
  serial <> "" -> package_name <> "" ->
  subprocess_run (dump_command serial package_name) 10 (world st)
    = (Completed dump stderr 0, w) ->
  dump <> "" ->
  fst (get_package_details serial package_name st)
  = Some (parse_details package_name dump).
Proof.
  intros Hav Hs Hp Hrun Hd. apply truthy_nonempty in Hs, Hp, Hd.
  unfold dump_command in Hrun.
  unfold get_package_details, bind, get, ret, _update_status.
  rewrite Hav, Hs, Hp; simpl.
  rewrite run_adb_command_eq by (simpl; auto). simpl.
  rewrite Hrun. simpl. by rewrite Hd.
Qed.

Lemma before_space_lacks s : lacks " " (before_space s) = true.
Proof.
  unfold before_space.
  assert (H : exists h t, PyStr.split_once " " s = h :: t /\
                          lacks " " h = true).
  { induction s as [|c s IH]; [by exists "", []|].
    cbn [PyStr.split_once].
    destruct (Ascii.eqb c " ") eqn:E; [by exists "", [s]|].
    destruct IH as (h & t & -> & Hh).
    exists (String c h), t. split; [done|].
    cbn [lacks]. by rewrite E, Hh. }
  destruct H as (h & t & -> & Hh). exact Hh.
Qed.

Lemma details_line_kept package_name line d reading :
  details_kept package_name d ->
  details_kept package_name (fst (details_line line (d, reading))).
Proof.
  intros (Hn & Hp & Hv). unfold details_line.
  repeat match goal with
         | |- context [if PyStr.startswith ?p ?l then _ else _] =>
             destruct (PyStr.startswith p l);
               [first [by split|
                       split; [done|split; [done|apply before_space_lacks]]]|]
         end.
  destruct reading; [|by split].
  destruct (PyStr.startswith "install permissions:" _
            || PyStr.startswith "runtime permissions:" _
            || PyStr.is_empty (PyStr.strip line)) eqn:E; [by split|].
  apply orb_false_iff in E as [_ E].
  split; [done|]. split; [|done]. cbn [permissions].
  apply Forall_app. split; [done|]. constructor; [|constructor].
  split; [|apply strip_by_idem].
  by destruct (PyStr.strip line).
Qed.

Lemma parse_details_kept package_name dump :
  details_kept package_name (parse_details package_name dump).
Proof.
  unfold parse_details.
  assert (H0 : details_kept package_name (default_details package_name))
    by (by repeat split).
  revert H0. generalize (default_details package_name) as d.
  generalize false as reading.
  induction (PyStr.splitlines dump) as [|l ls IH]; intros reading d Hd; [done|].
  cbn [fold_left].
  pose proof (details_line_kept package_name l d reading Hd) as Hk.
  destruct (details_line l (d, reading)) as [d' reading'].
  by apply IH.
Qed.

Lemma details_line_no_heading line d :
  PyStr.startswith "requested permissions:" (PyStr.strip line) = false ->
  snd (details_line line (d, false)) = false /\
  permissions (fst (details_line line (d, false))) = permissions d.
Proof.
  intros H. unfold details_line. rewrite H.
  repeat match goal with
         | |- context [if PyStr.startswith ?p ?l then _ else _] =>
             destruct (PyStr.startswith p l); [by split|]
         end.
  by split.
Qed.

Lemma parse_details_no_heading package_name dump :
  Forall (fun l => PyStr.startswith "requested permissions:" (PyStr.strip l)
                   = false) (PyStr.splitlines dump) ->
  permissions (parse_details package_name dump) = [].
Proof.
  unfold parse_details.
  assert (H0 : permissions (default_details package_name) = []) by done.
  revert H0. generalize (default_details package_name) as d.
  induction (PyStr.splitlines dump) as [|l ls IH]; intros d Hd Hall; [done|].
  inversion Hall as [|? ? Hl Hls]; subst.
  cbn [fold_left].
  destruct (details_line_no_heading l d Hl) as [Hr Hp].
  destruct (details_line l (d, false)) as [d' reading'].
  cbn [fst snd] in *. subst reading'. apply IH; [congruence|done].
Qed.

(** With the tool available and non-empty arguments, the record
    [get_package_details] returns always carries the requested package
    name; every entry of its permission list is a non-empty line without
    white space around it; its version code holds no space (the text is
    cut at the first one); and the permission list is empty unless the
    dump has a "requested permissions:" line. *)
Theorem package_details_fields st serial package_name :
  adb_available st = true ->
  serial <> "" -> package_name <> "" ->
  let '(r, w) :=
    subprocess_run (dump_command serial package_name) 10 (world st) in
  exists d,
    fst (get_package_details serial package_name st) = Some d /\
    package_name_of d = package_name /\
    Forall (fun p => p <> "" /\ PyStr.strip p = p) (permissions d) /\
    lacks " " (version_code d) = true /\
    (forall dump stderr,
       r = Completed dump stderr 0 ->
       Forall (fun l => PyStr.startswith "requested permissions:"
                          (PyStr.strip l) = false) (PyStr.splitlines dump) ->
       permissions d = []).
Proof.
  intros Hav Hs Hp.
  destruct (subprocess_run _ _ _) as [r w] eqn:Hrun.
  assert (Hcase :
    (exists dump stderr, r = Completed dump stderr 0 /\ dump <> "" /\
       fst (get_package_details serial package_name st)
       = Some (parse_details package_name dump)) \/
    ((forall dump stderr, r = Completed dump stderr 0 -> dump = "") /\
     fst (get_package_details serial package_name st)
     = Some (default_details package_name))).
  { destruct r as [out err rc| | |msg].
    1: destruct (decide (rc = 0%Z)) as [->|Hrc];
       [destruct (decide (out = "")) as [->|Hout]|].
    1: right; split; [by intros ? ? [= <- _]|].
    2: left; exists out, err; split; [done|]; split; [done|];
       by eapply get_package_details_parsed.
    2: right; split; [intros ? ? [= _ _ H]; by destruct Hrc|].
    3-5: right; split; [discriminate|].
    all: apply truthy_nonempty in Hs, Hp; unfold dump_command in Hrun;
      unfold get_package_details, bind, get, ret, _update_status;
      rewrite Hav, Hs, Hp; simpl;
      rewrite run_adb_command_eq by (simpl; auto); simpl;
      rewrite Hrun; simpl; try reflexivity.
    apply Z.eqb_neq in Hrc. by rewrite Hrc. }
  destruct Hcase as [(dump & stderr & -> & Hne & Hd)|[Hempty Hd]].
  - exists (parse_details package_name dump).
    destruct (parse_details_kept package_name dump) as (Hn & Hperm & Hv).
    split; [exact Hd|]. split; [exact Hn|]. split; [exact Hperm|].
    split; [exact Hv|].
    intros dump' stderr' [= <- _]. apply parse_details_no_heading.
  - exists (default_details package_name).
    split; [exact Hd|]. by repeat split.
Qed.

Lemma after_eq_prefix p rest :
  lacks "=" p = true -> after_eq (p +:+ String "=" rest) = rest.
Proof.
  intros Hp. unfold after_eq.
  assert (H : PyStr.split_once "=" (p +:+ String "=" rest) = [p; rest]).
  { induction p as [|c p IH]; [done|]. cbn [lacks] in Hp.
    apply andb_prop in Hp as [Hc Hp]. apply negb_true_iff in Hc.
    change (String c p +:+ String "=" rest)
      with (String c (p +:+ String "=" rest)).
    cbn [PyStr.split_once]. by rewrite Hc, (IH Hp). }
  by rewrite H.
Qed.

Lemma after_eq_version_name line :
  PyStr.startswith "versionName=" line = true ->
  after_eq line = drop_chars 12 line.
Proof.
  intros H%startswith_drop.
  change (String.length "versionName=") with 12%nat in H.
  rewrite H at 1.
  change ("versionName=" +:+ drop_chars 12 line)
    with ("versionName" +:+ String "=" (drop_chars 12 line)).
  by apply after_eq_prefix.
Qed.

Lemma details_line_other_version line d reading :
  PyStr.startswith "versionName=" (PyStr.strip line) = false ->
  version_name (fst (details_line line (d, reading))) = version_name d.
Proof.
  intros H. unfold details_line. rewrite H.
  repeat match goal with
         | |- context [if PyStr.startswith ?p ?l then _ else _] =>
             destruct (PyStr.startswith p l); [done|]
         end.
  destruct reading; [|done]. by destruct (_ || _).
Qed.

Lemma details_fold_other_version lines d reading :
  Forall (fun l => PyStr.startswith "versionName=" (PyStr.strip l) = false)
         lines ->
  version_name
    (fst (fold_left (fun acc line => details_line line acc) lines (d, reading)))
  = version_name d.
Proof.
  intros Hall. revert d reading.
  induction Hall as [|l ls Hl _ IH]; intros d reading; [done|].
  cbn [fold_left].
  pose proof (details_line_other_version l d reading Hl) as Hv.
  destruct (details_line l (d, reading)) as [d' reading'].
  cbn [fst] in Hv. by rewrite IH.
Qed.

(** When the dump has several "versionName=" lines, the last one wins:
    the version name of the record is what follows "versionName=" on the
    last line that, stripped, begins with it. The dump of an updated
    system application also lists the hidden system copy further down,
    so the record then holds the version of that copy. *)
Theorem package_details_last_version_wins st serial package_name dump stderr w
    before line after :
  adb_available st = true ->
  serial <> "" -> package_name <> "" ->
  subprocess_run (dump_command serial package_name) 10 (world st)
    = (Completed dump stderr 0, w) ->
  PyStr.splitlines dump = before ++ line :: after ->
  PyStr.startswith "versionName=" (PyStr.strip line) = true ->
  Forall (fun l => PyStr.startswith "versionName=" (PyStr.strip l) = false)
         after ->
  version_name <$> fst (get_package_details serial package_name st)
  = Some (drop_chars 12 (PyStr.strip line)).
Proof.
  intros Hav Hs Hp Hrun Hlines Hline Hafter.
  assert (Hd : dump <> "") by (intros ->; by destruct before).
  rewrite (get_package_details_parsed _ _ _ _ _ _ Hav Hs Hp Hrun Hd).
  cbn [fmap option_fmap option_map]. f_equal.
  unfold parse_details. rewrite Hlines, fold_left_app. cbn [fold_left].
  destruct (fold_left _ before _) as [d reading].
  destruct (details_line line (d, reading)) as [d1 reading1] eqn:E.
  rewrite details_fold_other_version by done.
  unfold details_line in E. rewrite Hline in E. injection E as <- _.
  cbn [version_name]. by apply after_eq_version_name.
Qed.

Lemma sends_get {A} (k : State -> M A) commands timeout :
  (forall st0, adb_available st0 = true -> sends (k st0) commands timeout) ->
  sends (bind get k) commands timeout.
Proof. intros H st Hav. unfold bind, get. exact (H st Hav st Hav). Qed.

Ltac sends_step :=
  first
    [ apply sends_ret
    | apply sends_status
    | match goal with
      | |- sends (bind (_update_status _ _) _) ?c _ =>
          apply (sends_bind _ _ [] c); [apply sends_status|intros ?]
      | |- sends (bind (_run_adb_command ?cmd _) _) _ _ =>
          apply (sends_bind _ _ [cmd] []); [by apply sends_run|intros ?]
      | |- sends (bind (if ?b then _ else _) _) _ _ => destruct b
      | |- sends (bind (ret _) _) ?c _ =>
          apply (sends_bind _ _ [] c); [apply sends_ret|intros ?]
      | |- sends (if ?b then _ else _) _ _ => destruct b
      | |- sends (let '(_, _) := ?x in _) _ _ => destruct x
      | |- sends (match ?x with _ => _ end) _ _ => destruct x
      end ].

Lemma uninstall_package_sends serial package_name user_id :
  serial <> "" -> package_name <> "" ->
  sends (uninstall_package serial package_name user_id)
        [uninstall_command serial package_name user_id] 60.
Proof.
  intros Hs Hp. apply truthy_nonempty in Hs, Hp.
  unfold uninstall_package, uninstall_command.
  apply sends_get. intros st0 Hav. rewrite Hav, Hs, Hp. cbn [negb orb].
  repeat sends_step.
Qed.

Lemma disable_package_sends serial package_name user_id :
  serial <> "" -> package_name <> "" ->
  sends (disable_package serial package_name user_id)
        [disable_command serial package_name user_id] 30.
Proof.
  intros Hs Hp. apply truthy_nonempty in Hs, Hp.
  unfold disable_package, disable_command.
  apply sends_get. intros st0 Hav. rewrite Hav, Hs, Hp. cbn [negb orb].
  repeat sends_step.
Qed.

Lemma advance_inj st w evs w' evs' :
  advance st w evs = advance st w' evs' -> evs = evs'.
Proof.
  unfold advance. intros [= _ H]. by apply app_inv_head in H.
Qed.

(** A call of the batch on the manager spawns its one command. *)
Lemma adb_call_commands m serial package_name st :
  adb_available st = true ->
  serial <> "" -> package_name <> "" ->
  exists b w evs,
    adb_call m serial package_name st =
      (b, advance st w (evs ++ [EvCall m serial package_name b])) /\
    Forall (fun e => is_manager_event e = true) evs /\
    List.filter is_spawn evs
    = [EvRun (call_command m serial package_name).1
             (call_command m serial package_name).2].
Proof.
  intros Hav Hs Hp.
  destruct (adb_call_events m serial package_name st)
    as (b & w & evs & Hcall & Hman).
  exists b, w, evs. split; [exact Hcall|]. split; [exact Hman|].
  assert (Hsends : exists w' evs',
            snd (match m with
                 | UninstallPackage => uninstall_package serial package_name "0"
                 | DisablePackage => disable_package serial package_name "0"
                 end st) = advance st w' evs' /\
            List.filter is_spawn evs'
            = [EvRun (call_command m serial package_name).1
                     (call_command m serial package_name).2]).
  { destruct m; cbn [call_command fst snd].
    - destruct (uninstall_package_sends serial package_name "0" Hs Hp st Hav)
        as (w' & evs' & H1 & H2 & _). by exists w', evs'.
    - destruct (disable_package_sends serial package_name "0" Hs Hp st Hav)
        as (w' & evs' & H1 & H2 & _). by exists w', evs'. }
  destruct Hsends as (w' & evs' & Hsnd & Hspawn).
  unfold adb_call, bind, ret in Hcall.
  destruct (match m with
            | UninstallPackage => uninstall_package serial package_name "0"
            | DisablePackage => disable_package serial package_name "0"
            end st) as [b' st1].
  cbn [snd] in Hsnd. subst st1. rewrite emit_advance in Hcall.
  apply (f_equal snd) in Hcall. cbn [snd] in Hcall.
  apply advance_inj in Hcall as Hadv.
  apply app_inj_tail in Hadv as [-> _]. exact Hspawn.
Qed.

Lemma manager_events_quiet evs :
  Forall (fun e => is_manager_event e = true) evs ->
  Forall (fun e => switches_widgets e = false) evs.
Proof. intros H. eapply Forall_impl; [exact H|]. intros e He. by destruct e. Qed.

Lemma uninstall_step_commands serial total i package_name results st :
  adb_available st = true ->
  serial <> "" -> package_name <> "" ->
  exists o w evs,
    uninstall_step serial total (i, package_name) results st =
      (<[package_name := outcome_tag o]> results, advance st w evs) /\
    List.filter is_spawn evs = outcome_commands serial (package_name, o) /\
    List.filter is_call evs = outcome_calls serial (package_name, o) /\
    Forall (fun e => switches_widgets e = false) evs.
Proof.
  intros Hav Hs Hp.
  unfold uninstall_step, bind, after, ret.
  set (e1 := EvAfter (GuiUpdateStatus _ Info)).
  change (emit e1 st) with (tt, advance st (world st) [e1]).
  cbv beta iota.
  destruct (adb_call_commands UninstallPackage serial package_name
              (advance st (world st) [e1]) Hav Hs Hp)
    as (u & w1 & evs1 & Hu & F1 & S1).
  rewrite Hu, advance_advance.
  pose proof (manager_events_quiet _ F1) as Q1.
  apply manager_events_no_call in F1 as [C1 _].
  destruct u.
  - exists Success, w1. eexists. rewrite emit_advance. split; [reflexivity|].
    rewrite !List.filter_app, C1, S1.
    split; [done|]. split; [done|].
    repeat (apply Forall_app; split); by repeat constructor.
  - rewrite emit_advance.
    match goal with
    | |- context [adb_call DisablePackage serial package_name ?s] =>
        destruct (adb_call_commands DisablePackage serial package_name s
                    Hav Hs Hp) as (d & w2 & evs2 & Hd & F2 & S2)
    end.
    rewrite Hd, advance_advance.
    pose proof (manager_events_quiet _ F2) as Q2.
    apply manager_events_no_call in F2 as [C2 _].
    destruct d; [exists DisabledInstead, w2|exists Failed, w2];
      eexists; rewrite emit_advance; (split; [reflexivity|]);
      rewrite !List.filter_app, C1, S1, C2, S2;
      (split; [done|]); (split; [done|]);
      repeat (apply Forall_app; split); by repeat constructor.
Qed.

Lemma uninstall_loop_commands serial total items results st :
  adb_available st = true ->
  serial <> "" ->
  Forall (fun item => item.2 <> "") items ->
  exists steps w evs,
    for_each items (uninstall_step serial total) results st =
      (record_outcomes steps results, advance st w evs) /\
    map fst steps = map snd items /\
    List.filter is_spawn evs = flat_map (outcome_commands serial) steps /\
    List.filter is_call evs = flat_map (outcome_calls serial) steps /\
    Forall (fun e => switches_widgets e = false) evs.
Proof.
  intros Hav Hs Hall. revert results st Hav.
  induction Hall as [|[i p] items Hp _ IH]; intros results st Hav.
  - exists [], (world st), []. simpl. by rewrite advance_nil.
  - cbn [for_each]. unfold bind.
    destruct (uninstall_step_commands serial total i p results st Hav Hs Hp)
      as (o & w1 & evs1 & Hstep & S1 & C1 & Q1).
    rewrite Hstep.
    destruct (IH (<[p := outcome_tag o]> results) (advance st w1 evs1) Hav)
      as (steps & w2 & evs2 & Hloop & Hk & S2 & C2 & Q2).
    exists ((p, o) :: steps), w2, (evs1 ++ evs2).
    rewrite Hloop, advance_advance.
    split; [reflexivity|]. split; [by rewrite map_cons, Hk|].
    rewrite !List.filter_app, S1, C1, S2, C2.
    split; [done|]. split; [done|]. by apply Forall_app.
Qed.

(** The batch and the tool. With the tool available, a non-empty serial
    and non-empty package names, the batch spawns, target after target,
    [adb -s serial uninstall --user 0 package] (60 seconds) and, only when
    that did not succeed, [adb -s serial shell pm disable-user --user 0
    package] (30 seconds): between one and two commands for each target
    and nothing else. It switches the controls off once, before the first
    command, and back on once, after the last, whatever the outcomes, and
    then reloads the application list. *)
Theorem batch_commands st serial packages :
  adb_available st = true ->
  serial <> "" ->
  Forall (fun p => p <> "") packages ->
  let '(results, st') := _perform_uninstall_threaded serial packages st in
  exists (steps : list (string * outcome)) (middle : list event),
    map fst steps = packages /\
    results = record_outcomes steps ∅ /\
    trace st' =
      trace st ++
      [EvAfter (GuiEnableWidgets false); EvAfter GuiRefreshButtonDisabled;
       EvAfter GuiUninstallButtonDisabled] ++
      middle ++
      [EvAfter (GuiUpdateStatus "Uninstallation process complete." Info);
       EvAfter (GuiEnableWidgets true); EvAfter GuiListApps] /\
    List.filter is_spawn middle = flat_map (outcome_commands serial) steps /\
    List.filter is_call middle = flat_map (outcome_calls serial) steps /\
    Forall (fun e => switches_widgets e = false) middle /\
    length packages <= length (List.filter is_spawn middle)
      <= 2 * length packages.
Proof.
  intros Hav Hs Hall.
  unfold _perform_uninstall_threaded, bind, after, ret.
  change (emit (EvAfter (GuiEnableWidgets false)) st)
    with (tt, advance st (world st) [EvAfter (GuiEnableWidgets false)]).
  cbv beta iota.
  repeat (rewrite emit_advance; cbv beta iota).
  assert (Hitems : Forall (fun item : nat * string => item.2 <> "")
                          (enumerate packages)).
  { apply Forall_forall. intros item Hin.
    rewrite Forall_forall in Hall. apply Hall.
    rewrite <- (enumerate_values packages).
    by apply (list_elem_of_fmap_2 snd). }
  match goal with
  | |- context [for_each ?items ?body ?r ?s] =>
      destruct (uninstall_loop_commands serial (length packages) items r s
                  Hav Hs Hitems)
        as (steps & w & evs & Hloop & Hk & Hsp & Hc & Hq)
  end.
  rewrite enumerate_values in Hk.
  rewrite Hloop, advance_advance.
  repeat (rewrite emit_advance; cbv beta iota).
  exists steps, evs.
  split; [exact Hk|]. split; [reflexivity|].
  split; [cbn [trace advance]; by rewrite <- !app_assoc|].
  split; [exact Hsp|]. split; [exact Hc|]. split; [exact Hq|].
  rewrite Hsp, <- Hk, length_map. clear.
  induction steps as [|[p o] steps IH]; [simpl; lia|].
  cbn [flat_map]. rewrite length_app. destruct o; simpl in *; lia.
Qed.

Lemma logcat_read_forwards feed st :
  stop_logcat_event st = false ->
  logcat_read feed st = (tt, advance st (world st) (forwarded feed)).
Proof.
  revert st. induction feed as [|line feed IH]; intros st Hstop.
  - cbn [logcat_read]. unfold bind, get, ret. rewrite Hstop.
    unfold forwarded. simpl. by rewrite advance_nil.
  - cbn [logcat_read]. unfold bind at 1. unfold get. rewrite Hstop.
    unfold bind at 1. unfold forwarded. cbn [List.filter].
    destruct (PyStr.truthy line).
    + change (emit ?e st) with (tt, advance st (world st) [e]).
      cbv beta iota. rewrite IH by done. by rewrite advance_advance.
    + unfold ret. cbv beta iota. by rewrite IH.
Qed.

(** The worker of the log stream, once the child is spawned and as long
    as nobody set the stop flag: every non-empty line the child prints is
    handed to the callback, in order and without its trailing white
    space, and nothing else is reported; when the child ends, the clean-up
    raises [AttributeError], so the handle of the child stays set and
    "Logcat stopped." is never reported. *)
Theorem logcat_worker_forwards st serial feed p w :
  stop_logcat_event st = false ->
  popen (logcat_command serial) (world st) = (inl p, w) ->
  _logcat_worker serial feed st
  = (inr (AttributeError "stop_logcat"),
     mkState (adb_available st) (Some p) false w
       (trace st ++ EvPopen (logcat_command serial) :: forwarded feed)).
Proof.
  intros Hstop Hpopen. unfold logcat_command in *.
  unfold _logcat_worker, bind, on_world, emit, set_logcat_process.
  cbn [world]. rewrite Hpopen. cbv beta iota.
  rewrite logcat_read_forwards by done.
  unfold self_stop_logcat. cbn [has_attribute]. unfold ret, advance.
  cbn [trace world adb_available logcat_process stop_logcat_event].
  rewrite Hstop, <- app_assoc. reflexivity.
Qed.

(** [install_apk] never claims success on its own: it returns [True]
    only when the tool is available, both arguments are non-empty, the
    file exists, and the install command ran, exited with code 0 and
    printed "success" in some letter case. *)
Theorem install_apk_true_only st serial apk_path :
  fst (install_apk serial apk_path st) = true ->
  adb_available st = true /\ serial <> "" /\ apk_path <> "" /\
  path_exists apk_path (world st) = true /\
  reported_success
    (fst (subprocess_run (install_command serial apk_path) 300 (world st)))
  = true.
Proof.
  unfold install_apk, install_command, bind, get, ret, _update_status.
  destruct (adb_available st) eqn:Hav; cbn [negb]; [|discriminate].
  destruct (PyStr.truthy serial) eqn:Hs; cbn [negb orb]; [|discriminate].
  destruct (PyStr.truthy apk_path) eqn:Hp; cbn [negb]; [|discriminate].
  destruct (path_exists apk_path (world st)) eqn:Hex; cbn [negb];
    [|discriminate].
  unfold emit at 1. cbv beta iota.
  rewrite run_adb_command_eq by done. cbn [world].
  destruct (subprocess_run _ _ _) as [r w]. cbn [fst].
  intros H. apply truthy_nonempty in Hs, Hp.
  split; [done|]. split; [done|]. split; [done|]. split; [done|].
  destruct r as [out err rc| | |msg]; cbn [result_triple reported_success] in *.
  - simpl in H.
    destruct ((rc =? 0)%Z && PyStr.contains "success" (PyStr.lower out));
      [done|].
    destruct ((rc =? 0)%Z && PyStr.contains "failure" (PyStr.lower out));
      simpl in H; discriminate H.
  - discriminate H.
  - discriminate H.
  - discriminate H.
Qed.

End Manager.

(** ** The program on concrete inputs *)

(** The text operations on small inputs. *)
Example lower_ex : PyStr.lower "Success: OK" = "success: ok".
Proof. reflexivity. Qed.

Example split_ws_ex :
  PyStr.split_ws 2 "a b  c d  " = ["a"; "b"; "c d  "].
Proof. reflexivity. Qed.

Example splitlines_ex :
  PyStr.splitlines (String "a" (String "013" (String "010" (String "010" "b"))))
  = ["a"; ""; "b"].
Proof. reflexivity. Qed.

Example split_char_ex : PyStr.split_char ":" "level: 87" = ["level"; " 87"].
Proof. reflexivity. Qed.

Example of_int_ex : PyStr.of_int (-12) = "-12" /\ PyStr.of_int 0 = "0".
Proof. split; reflexivity. Qed.

(** C4, the claim as stated fails: with an empty serial the mode is never
    looked at, and what is reported is that no device is selected. *)
Lemma reboot_empty_serial_other_error :
  ("invalid-mode" ∉ valid_modes) /\
  reboot_device script_run plain_repr "" "invalid-mode" (idle [])
  = (false,
     mkState true None false []
       [EvStatus "Error: No device selected to reboot." Error]).
Proof.
  split; [|reflexivity].
  unfold valid_modes. rewrite !elem_of_cons, elem_of_nil. intuition discriminate.
Qed.

(** [reboot_invalid_mode_rejected] on the mode "invalid-mode". *)
Lemma reboot_invalid_mode_rejected_witness :
  ("invalid-mode" ∉ valid_modes) /\
  fst (reboot_device script_run plain_repr "emulator-5554" "invalid-mode"
         (idle [])) = false.
Proof.
  assert (Hmode : "invalid-mode" ∉ valid_modes).
  { unfold valid_modes. rewrite !elem_of_cons, elem_of_nil.
    intuition discriminate. }
  split; [exact Hmode|].
  pose proof (reboot_invalid_mode_rejected script_run plain_repr
                (idle []) "emulator-5554" "invalid-mode" Hmode) as H.
  destruct (reboot_device _ _ _ _ _) as [b st'].
  destruct H as [Hb _]. exact Hb.
Defined.

(** C2, the claim as stated fails: exit code 0 and neither marker in the
    output, and [install_apk] returns [False]. *)
Lemma install_apk_no_marker_fails :
  PyStr.contains "success" (PyStr.lower "Performing Streamed Install") = false /\
  PyStr.contains "failure" (PyStr.lower "Performing Streamed Install") = false /\
  install_apk script_run script_exists posix_basename plain_repr
    "emulator-5554" "/tmp/app.apk"
    (idle [Completed "Performing Streamed Install" "" 0])
  = (false,
     mkState true None false []
       [EvStatus "Sending command: Installing app.apk on emulator-5554..." Info;
        EvRun ["adb"; "-s"; "emulator-5554"; "install"; "-r"; "/tmp/app.apk"]
              300]).
Proof. repeat split. Qed.

(** [install_apk_exit_zero] on an install that prints "Success". *)
Lemma install_apk_exit_zero_witness :
  adb_available (idle [Completed "Success" "" 0]) = true /\
  "emulator-5554" <> "" /\ "/tmp/app.apk" <> "" /\
  script_exists "/tmp/app.apk" (world (idle [Completed "Success" "" 0])) = true /\
  script_run ["adb"; "-s"; "emulator-5554"; "install"; "-r"; "/tmp/app.apk"] 300
    (world (idle [Completed "Success" "" 0])) = (Completed "Success" "" 0, []) /\
  fst (install_apk script_run script_exists posix_basename plain_repr
         "emulator-5554" "/tmp/app.apk" (idle [Completed "Success" "" 0]))
  = true.
Proof.
  assert (H1 : "emulator-5554" <> "") by discriminate.
  assert (H2 : "/tmp/app.apk" <> "") by discriminate.
  split; [reflexivity|]. split; [exact H1|]. split; [exact H2|].
  split; [reflexivity|]. split; [reflexivity|].
  pose proof (install_apk_exit_zero script_run script_exists posix_basename
                plain_repr (idle [Completed "Success" "" 0])
                "emulator-5554" "/tmp/app.apk" "Success" "" []
                eq_refl H1 H2 eq_refl eq_refl) as H.
  destruct (install_apk _ _ _ _ _ _ _) as [b st'].
  destruct H as [Hb _]. exact Hb.
Defined.

(** C8 at the failing input: the command exits with code 0 and prints
    "unable to connect to 10.0.0.1:5555"; the marker the method searches
    for starts with a space, the output does not contain it, and the
    method returns [True] with the unexpected-output warning. *)
Theorem connect_unable_to_connect_reported_success :
  PyStr.contains "unable to connect"
    (PyStr.lower "unable to connect to 10.0.0.1:5555") = true /\
  connect_device script_run plain_repr "10.0.0.1:5555"
    (idle [Completed "unable to connect to 10.0.0.1:5555" "" 0])
  = (true,
     mkState true None false []
       [EvStatus "Attempting to connect to 10.0.0.1:5555..." Info;
        EvRun ["adb"; "connect"; "10.0.0.1:5555"] 15;
        EvStatus "Connect command successful for 10.0.0.1:5555, but output was unexpected: unable to connect to 10.0.0.1:5555"
                 Warning]).
Proof. split; reflexivity. Qed.

(** C3 at the failing input: the class has no attribute [stop_logcat].
    The first [start_logcat] starts the worker; the worker spawns the child
    and, reading done, raises [AttributeError] in its [finally], so the
    handle stays set; a second [start_logcat] then raises the same error
    before anything is terminated or spawned. *)
Theorem start_logcat_while_streaming_raises :
  has_attribute "stop_logcat" = false /\
  start_logcat script_wait "emulator-5554" (idle [])
  = (inl tt,
     mkState true None false []
       [EvThreadStart; EvStatus "Logcat started for emulator-5554." Info]) /\
  _logcat_worker script_popen script_wait "emulator-5554" ["line 1"]
    (idle [])
  = (inr (AttributeError "stop_logcat"),
     mkState true (Some 1%nat) false []
       [EvPopen ["adb"; "-s"; "emulator-5554"; "logcat"; "-v"; "time"];
        EvLogLine "line 1"]) /\
  start_logcat script_wait "emulator-5554"
    (mkState true (Some 1%nat) false ([] : Script) [])
  = (inr (AttributeError "stop_logcat"),
     mkState true (Some 1%nat) false [] []).
Proof. repeat split. Qed.

(** C5, the claim as stated fails: the header follows a line of the
    daemon. The specification discards the header and counts two data
    lines, both well formed; the program looks for the header on the first
    line only and returns three records, the header among them. *)
Lemma list_devices_header_after_banner :
  fst (list_devices script_run plain_repr
         (idle [Completed listing_after_banner "" 0]))
  = [mkDevice "*" "daemon" "started successfully";
     mkDevice "List" "of" "devices attached";
     mkDevice "emulator-5554" "device" "product:sdk model:sdk device:generic"] /\
  claimed_listing listing_after_banner
  = [mkDevice "*" "daemon" "started successfully";
     mkDevice "emulator-5554" "device" "product:sdk model:sdk device:generic"] /\
  forallb has_two_fields (claimed_data_lines listing_after_banner) = true /\
  length (claimed_data_lines listing_after_banner) = 2%nat /\
  length (fst (list_devices script_run plain_repr
                 (idle [Completed listing_after_banner "" 0]))) = 3%nat.
Proof. repeat split; vm_compute; reflexivity. Qed.

(** [list_devices_parse] on the listing example of the specification. *)
Lemma list_devices_parse_witness :
  adb_available (idle [Completed listing_example "" 0]) = true /\
  script_run ["adb"; "devices"; "-l"] 20
    (world (idle [Completed listing_example "" 0]))
  = (Completed listing_example "" 0, []) /\
  well_formed listing_example /\
  fst (list_devices script_run plain_repr (idle [Completed listing_example "" 0]))
  = [mkDevice "emulator-5554" "device" "product:sdk model:sdk device:generic"].
Proof.
  split; [reflexivity|]. split; [reflexivity|].
  split.
  { unfold well_formed.
    assert (E : data_lines listing_example
                = ["emulator-5554" +:+ TAB +:+ "device" +:+ TAB +:+
                   "product:sdk model:sdk device:generic"])
      by (vm_compute; reflexivity).
    rewrite E. constructor; [vm_compute; reflexivity|constructor]. }
  pose proof (list_devices_parse script_run plain_repr
                (idle [Completed listing_example "" 0])
                listing_example "" [] eq_refl eq_refl) as H.
  destruct (list_devices _ _ _) as [devices st'].
  destruct H as [Hd _]. cbn [fst]. rewrite Hd. vm_compute. reflexivity.
Defined.

(** C6, the claim as stated fails: the first marketing-name property reads
    "Error". It qualifies and is selected, so the claim makes it the
    display name; the program refuses it and shows the model. *)
Lemma display_name_reserved_value_refused :
  fst (get_device_info script_run plain_repr "emulator-5554"
         (idle (phone_script "Error")))
  = Some (mkInfo "emulator-5554" "SM-G960F" "N/A" "SM-G960F" "87%") /\
  first_qualifying (Some "SM-G960F")
    (fst (fetch_candidates script_run plain_repr "emulator-5554" candidates
            (idle [Completed ("Error" +:+ LF) "" 0])))
  = Some "Error" /\
  display_name_claimed "emulator-5554" (Some "SM-G960F")
    (fst (fetch_candidates script_run plain_repr "emulator-5554" candidates
            (idle [Completed ("Error" +:+ LF) "" 0])))
  = "Error".
Proof. repeat split; vm_compute; reflexivity. Qed.

(** [display_name_first_match] on the specification's example: model
    "SM-G960F", marketing name "Galaxy S9". *)
Lemma display_name_first_match_witness :
  adb_available (idle (phone_script "Galaxy S9")) = true /\
  "emulator-5554" <> "" /\
  (forall info,
     fst (get_device_info script_run plain_repr "emulator-5554"
            (idle (phone_script "Galaxy S9"))) = Some info ->
     info_display_name info = "Galaxy S9").
Proof.
  assert (Hs : "emulator-5554" <> "") by discriminate.
  split; [reflexivity|]. split; [exact Hs|].
  pose proof (display_name_first_match script_run plain_repr
                (idle (phone_script "Galaxy S9")) "emulator-5554"
                eq_refl Hs) as H.
  vm_compute in H. destruct H as [_ H].
  intros info Hinfo. vm_compute in Hinfo. exact (H info Hinfo).
Defined.


(** C9, the claim as stated fails: the suffix of the level line holds a
    colon; the claim keeps all of it, the program cuts it there. *)
Lemma battery_suffix_cut_at_colon :
  battery_scan (PyStr.splitlines "level: 8:7") ("N/A", false) (idle [])
  = (("8%", true), idle []) /\
  battery_claimed "level: 8:7" = "8:7%".
Proof. split; reflexivity. Qed.

(** The battery examples of the specification. *)
Example battery_level_87 :
  battery_of_dump ("Current Battery Service state:" +:+ LF +:+ "  level: 87"
                   +:+ LF +:+ "  level: 3" +:+ LF) = "87%" /\
  battery_of_dump ("Current Battery Service state:" +:+ LF) = "N/A".
Proof. split; reflexivity. Qed.

(** [package_details_never_null] on a dump command that times out. *)
Lemma package_details_never_null_witness :
  adb_available (idle [TimeoutExpired]) = true /\
  "emulator-5554" <> "" /\ "com.example.app" <> "" /\
  fst (get_package_details script_run plain_repr "emulator-5554"
         "com.example.app" (idle [TimeoutExpired]))
  = Some (mkDetails "com.example.app" "Unknown" "Unknown" "Unknown" "Unknown"
                    "Unknown" "Unknown" []).
Proof.
  assert (Hs : "emulator-5554" <> "") by discriminate.
  assert (Hp : "com.example.app" <> "") by discriminate.
  split; [reflexivity|]. split; [exact Hs|]. split; [exact Hp|].
  pose proof (package_details_never_null script_run plain_repr
                (idle [TimeoutExpired]) "emulator-5554" "com.example.app"
                eq_refl Hs Hp) as H.
  cbn [script_run idle world] in H. destruct H as (d & Hd & Hfail & _).
  rewrite Hd. f_equal. apply Hfail. reflexivity.
Defined.

(** The batch example of the specification: A is uninstalled, B is
    disabled after its uninstall failed, C fails both ways. *)
Example batch_three_targets :
  fst (_perform_uninstall_threaded script_run plain_repr "emulator-5554"
         ["A"; "B"; "C"] (idle batch_script))
  = {[ "A" := "success"; "B" := "disabled"; "C" := "failed" ]} /\
  List.filter is_call
    (trace (snd (_perform_uninstall_threaded script_run plain_repr
                   "emulator-5554" ["A"; "B"; "C"] (idle batch_script))))
  = [EvCall UninstallPackage "emulator-5554" "A" true;
     EvCall UninstallPackage "emulator-5554" "B" false;
     EvCall DisablePackage "emulator-5554" "B" true;
     EvCall UninstallPackage "emulator-5554" "C" false;
     EvCall DisablePackage "emulator-5554" "C" false].
Proof. split; vm_compute; reflexivity. Qed.

(** C10, the claim as stated fails: after a failed dump the scalar field
    [package_name] of the record holds the requested name, not
    "Unknown". *)
Lemma package_details_name_kept :
  dump_failed TimeoutExpired = true /\
  package_name_of <$>
    fst (get_package_details script_run plain_repr "emulator-5554"
           "com.example.app" (idle [TimeoutExpired]))
  = Some "com.example.app" /\
  "com.example.app" <> "Unknown".
Proof. repeat split. discriminate. Qed.

(** ** The further properties on concrete inputs *)

(** [unavailable_tool_short_circuits] on a host without the binary. *)
Lemma unavailable_tool_short_circuits_witness :
  adb_available (__init__ script_run [FileNotFoundError]) = false /\
  get_device_info script_run plain_repr "emulator-5554"
    (__init__ script_run [FileNotFoundError])
  = (None, __init__ script_run [FileNotFoundError]).
Proof.
  split; [reflexivity|].
  pose proof (unavailable_tool_short_circuits script_run script_exists
                posix_basename plain_repr script_wait
                (__init__ script_run [FileNotFoundError]) eq_refl) as H.
  destruct H as (_ & _ & H & _). exact (H "emulator-5554").
Defined.

(** [reboot_device_sent] on a reboot to recovery that exits cleanly. *)
Lemma reboot_device_sent_witness :
  adb_available (idle [Completed "" "" 0]) = true /\
  "emulator-5554" <> "" /\
  "recovery" ∈ valid_modes /\
  script_run (reboot_command "emulator-5554" "recovery") 10
    (world (idle [Completed "" "" 0])) = (Completed "" "" 0, []) /\
  fst (reboot_device script_run plain_repr "emulator-5554" "recovery"
         (idle [Completed "" "" 0])) = true.
Proof.
  assert (Hs : "emulator-5554" <> "") by discriminate.
  assert (Hm : "recovery" ∈ valid_modes)
    by (apply elem_of_cons; right; apply elem_of_cons; by left).
  split; [reflexivity|]. split; [exact Hs|]. split; [exact Hm|].
  split; [reflexivity|].
  pose proof (reboot_device_sent script_run plain_repr
                (idle [Completed "" "" 0]) "emulator-5554" "recovery"
                (Completed "" "" 0) [] eq_refl Hs Hm eq_refl) as H.
  destruct (reboot_device _ _ _ _ _) as [b st'].
  destruct H as [Hb _]. exact Hb.
Defined.

(** [power_off_device_sent] on a command that exits with code 0 and a
    message on the error stream: the method returns [False]. *)
Lemma power_off_device_sent_witness :
  adb_available (idle [Completed "" "error: closed" 0]) = true /\
  "emulator-5554" <> "" /\
  script_run ["adb"; "-s"; "emulator-5554"; "shell"; "reboot"; "-p"] 10
    (world (idle [Completed "" "error: closed" 0]))
  = (Completed "" "error: closed" 0, []) /\
  fst (power_off_device script_run plain_repr "emulator-5554"
         (idle [Completed "" "error: closed" 0])) = false.
Proof.
  assert (Hs : "emulator-5554" <> "") by discriminate.
  split; [reflexivity|]. split; [exact Hs|]. split; [reflexivity|].
  pose proof (power_off_device_sent script_run plain_repr
                (idle [Completed "" "error: closed" 0]) "emulator-5554"
                (Completed "" "error: closed" 0) [] eq_refl Hs eq_refl) as H.
  destruct (power_off_device _ _ _ _) as [b st'].
  destruct H as [Hb _]. exact Hb.
Defined.

(** [uninstall_package_needs_marker] on a command that exits with code 0
    and prints nothing: the method returns [False]. *)
Lemma uninstall_package_needs_marker_witness :
  adb_available (idle [Completed "" "" 0]) = true /\
  "emulator-5554" <> "" /\ "com.example.app" <> "" /\
  script_run (uninstall_command "emulator-5554" "com.example.app" "0") 60
    (world (idle [Completed "" "" 0])) = (Completed "" "" 0, []) /\
  fst (uninstall_package script_run plain_repr "emulator-5554"
         "com.example.app" "0" (idle [Completed "" "" 0])) = false.
Proof.
  assert (Hs : "emulator-5554" <> "") by discriminate.
  assert (Hp : "com.example.app" <> "") by discriminate.
  split; [reflexivity|]. split; [exact Hs|]. split; [exact Hp|].
  split; [reflexivity|].
  pose proof (uninstall_package_needs_marker script_run plain_repr
                (idle [Completed "" "" 0]) "emulator-5554" "com.example.app"
                "0" (Completed "" "" 0) [] eq_refl Hs Hp eq_refl) as H.
  destruct (uninstall_package _ _ _ _ _ _) as [b st'].
  destruct H as [Hb _]. exact Hb.
Defined.

(** [disable_package_needs_output] on a command that exits with code 0
    and prints an error text: the method returns [True]. *)
Lemma disable_package_needs_output_witness :
  adb_available (idle [Completed "Error: no such package" "" 0]) = true /\
  "emulator-5554" <> "" /\ "com.example.app" <> "" /\
  script_run (disable_command "emulator-5554" "com.example.app" "0") 30
    (world (idle [Completed "Error: no such package" "" 0]))
  = (Completed "Error: no such package" "" 0, []) /\
  fst (disable_package script_run plain_repr "emulator-5554"
         "com.example.app" "0"
         (idle [Completed "Error: no such package" "" 0])) = true.
Proof.
  assert (Hs : "emulator-5554" <> "") by discriminate.
  assert (Hp : "com.example.app" <> "") by discriminate.
  split; [reflexivity|]. split; [exact Hs|]. split; [exact Hp|].
  split; [reflexivity|].
  pose proof (disable_package_needs_output script_run plain_repr
                (idle [Completed "Error: no such package" "" 0])
                "emulator-5554" "com.example.app" "0"
                (Completed "Error: no such package" "" 0) []
                eq_refl Hs Hp eq_refl) as H.
  destruct (disable_package _ _ _ _ _ _) as [b st'].
  destruct H as [Hb _]. exact Hb.
Defined.

(** [disable_package_capital_letter] on the tool's own confirmation for
    a package whose name has a capital letter. *)
Lemma disable_package_capital_letter_witness :
  adb_available
    (idle [Completed "Package com.Slack new state: disabled-user" "" 0])
  = true /\
  "emulator-5554" <> "" /\ "com.Slack" <> "" /\
  PyStr.lower "com.Slack" <> "com.Slack" /\
  script_run (disable_command "emulator-5554" "com.Slack" "0") 30
    (world (idle [Completed "Package com.Slack new state: disabled-user" "" 0]))
  = (Completed "Package com.Slack new state: disabled-user" "" 0, []) /\
  PyStr.strip "Package com.Slack new state: disabled-user" <> "" /\
  fst (disable_package script_run plain_repr "emulator-5554" "com.Slack" "0"
         (idle [Completed "Package com.Slack new state: disabled-user" "" 0]))
  = true.
Proof.
  assert (Hs : "emulator-5554" <> "") by discriminate.
  assert (Hp : "com.Slack" <> "") by discriminate.
  assert (Hc : PyStr.lower "com.Slack" <> "com.Slack")
    by (vm_compute; discriminate).
  assert (Ho : PyStr.strip "Package com.Slack new state: disabled-user" <> "")
    by (vm_compute; discriminate).
  split; [reflexivity|]. split; [exact Hs|]. split; [exact Hp|].
  split; [exact Hc|]. split; [reflexivity|]. split; [exact Ho|].
  pose proof (disable_package_capital_letter script_run plain_repr
                (idle [Completed "Package com.Slack new state: disabled-user"
                         "" 0])
                "emulator-5554" "com.Slack" "0"
                "Package com.Slack new state: disabled-user" "" []
                eq_refl Hs Hp Hc eq_refl Ho) as H.
  destruct (disable_package _ _ _ _ _ _) as [b st'].
  destruct H as [Hb _]. exact Hb.
Defined.

(** [list_packages_round_trip] on a listing of two packages. *)
Lemma list_packages_round_trip_witness :
  adb_available
    (idle [Completed (package_listing ["com.example.app"; "org.mozilla.firefox"])
             "" 0]) = true /\
  "emulator-5554" <> "" /\
  Forall (fun n => n <> "" /\ no_space n = true)
         ["com.example.app"; "org.mozilla.firefox"] /\
  fst (list_packages script_run plain_repr "emulator-5554" true
         (idle [Completed
                  (package_listing ["com.example.app"; "org.mozilla.firefox"])
                  "" 0]))
  = ["com.example.app"; "org.mozilla.firefox"].
Proof.
  assert (Hs : "emulator-5554" <> "") by discriminate.
  assert (Hn : Forall (fun n => n <> "" /\ no_space n = true)
                      ["com.example.app"; "org.mozilla.firefox"]).
  { constructor; [split; [discriminate|reflexivity]|].
    constructor; [split; [discriminate|reflexivity]|constructor]. }
  split; [reflexivity|]. split; [exact Hs|]. split; [exact Hn|].
  exact (list_packages_round_trip script_run plain_repr
           (idle [Completed
                    (package_listing ["com.example.app"; "org.mozilla.firefox"])
                    "" 0])
           "emulator-5554" true ["com.example.app"; "org.mozilla.firefox"]
           "" [] eq_refl Hs Hn eq_refl).
Defined.

(** [get_device_info_commands] on the phone of the examples. *)
Lemma get_device_info_commands_witness :
  adb_available (idle (phone_script "Galaxy S9")) = true /\
  "emulator-5554" <> "" /\
  exists new,
    trace (snd (get_device_info script_run plain_repr "emulator-5554"
                  (idle (phone_script "Galaxy S9"))))
    = trace (idle (phone_script "Galaxy S9")) ++ new /\
    length (List.filter is_spawn new) = 15%nat.
Proof.
  assert (Hs : "emulator-5554" <> "") by discriminate.
  split; [reflexivity|]. split; [exact Hs|].
  pose proof (get_device_info_commands script_run plain_repr
                (idle (phone_script "Galaxy S9")) "emulator-5554"
                eq_refl Hs) as H.
  destruct (get_device_info _ _ _ _) as [info st'].
  destruct H as (new & Ht & _ & Hl & _).
  exists new. split; [exact Ht|exact Hl].
Defined.

(** [device_panel_headline] on the phone of the examples. *)
Lemma device_panel_headline_witness :
  "emulator-5554" <> "" /\
  selected_device_label
    (fst (_fetch_and_update_device_info_threaded script_run plain_repr
            "emulator-5554" (idle (phone_script "Galaxy S9"))))
  = "Selected Device: Galaxy S9 (SM-G960F) (emulator-5554)".
Proof.
  assert (Hs : "emulator-5554" <> "") by discriminate.
  split; [exact Hs|].
  pose proof (device_panel_headline script_run plain_repr
                (idle (phone_script "Galaxy S9")) "emulator-5554" Hs) as H.
  cbv zeta in H.
  assert (E : fst (get_device_info script_run plain_repr "emulator-5554"
                     (idle (phone_script "Galaxy S9")))
              = Some (mkInfo "emulator-5554" "SM-G960F" "N/A" "Galaxy S9"
                             "87%")) by (vm_compute; reflexivity).
  rewrite E in H. destruct H as (_ & _ & H). rewrite H. reflexivity.
Defined.

(** [device_selection_round_trip] on the unauthorized device of a
    listing of two. *)
Lemma device_selection_round_trip_witness :
  mkDevice "R58M12ABCDE" "unauthorized" "usb:1-1 transport_id:1"
    ∈ fst (list_devices script_run plain_repr
             (idle [Completed listing_two_devices "" 0])) /\
  lacks "(" "R58M12ABCDE" = true /\
  ("R58M12ABCDE" ∉ ["No"; "ADB"; "Selected"; "Searching..."]) /\
  display_str (mkDevice "R58M12ABCDE" "unauthorized" "usb:1-1 transport_id:1")
  = "R58M12ABCDE [Unauthorized]" /\
  on_device_selected "R58M12ABCDE [Unauthorized]"
    (snd (fst (_perform_list_devices_threaded script_run plain_repr
                 (idle [Completed listing_two_devices "" 0]))))
  = SelectDevice "R58M12ABCDE".
Proof.
  assert (E : fst (list_devices script_run plain_repr
                     (idle [Completed listing_two_devices "" 0]))
              = [mkDevice "R58M12ABCDE" "unauthorized" "usb:1-1 transport_id:1";
                 mkDevice "emulator-5554" "device"
                          "product:sdk model:sdk device:generic"])
    by (vm_compute; reflexivity).
  assert (Hin : mkDevice "R58M12ABCDE" "unauthorized" "usb:1-1 transport_id:1"
                  ∈ fst (list_devices script_run plain_repr
                           (idle [Completed listing_two_devices "" 0])))
    by (rewrite E; apply elem_of_cons; by left).
  assert (Hp : "R58M12ABCDE" ∉ ["No"; "ADB"; "Selected"; "Searching..."]).
  { rewrite !elem_of_cons, elem_of_nil.
    intros [H|[H|[H|[H|[]]]]]; discriminate H. }
  split; [exact Hin|]. split; [reflexivity|]. split; [exact Hp|].
  split; [vm_compute; reflexivity|].
  pose proof (device_selection_round_trip script_run plain_repr
                (idle [Completed listing_two_devices "" 0])
                (mkDevice "R58M12ABCDE" "unauthorized" "usb:1-1 transport_id:1")
                Hin eq_refl Hp) as H.
  destruct (fst (_perform_list_devices_threaded _ _ _)) as [values infos].
  destruct H as [_ H]. exact H.
Defined.

(** [package_details_fields] on the dump of the examples. *)
Lemma package_details_fields_witness :
  adb_available (idle [Completed dump_example "" 0]) = true /\
  "emulator-5554" <> "" /\ "com.example.app" <> "" /\
  exists d,
    fst (get_package_details script_run plain_repr "emulator-5554"
           "com.example.app" (idle [Completed dump_example "" 0])) = Some d /\
    package_name_of d = "com.example.app" /\
    Forall (fun p => p <> "" /\ PyStr.strip p = p) (permissions d) /\
    lacks " " (version_code d) = true.
Proof.
  assert (Hs : "emulator-5554" <> "") by discriminate.
  assert (Hp : "com.example.app" <> "") by discriminate.
  split; [reflexivity|]. split; [exact Hs|]. split; [exact Hp|].
  pose proof (package_details_fields script_run plain_repr
                (idle [Completed dump_example "" 0]) "emulator-5554"
                "com.example.app" eq_refl Hs Hp) as H.
  cbn [script_run idle world] in H.
  destruct H as (d & Hd & Hn & Hperm & Hv & _).
  exists d. split; [exact Hd|]. split; [exact Hn|]. split; [exact Hperm|].
  exact Hv.
Defined.

(** [package_details_last_version_wins] on the dump of the examples:
    the record holds the version of the hidden system copy. *)
Lemma package_details_last_version_wins_witness :
  adb_available (idle [Completed dump_example "" 0]) = true /\
  "emulator-5554" <> "" /\ "com.example.app" <> "" /\
  PyStr.splitlines dump_example
  = take 11 (PyStr.splitlines dump_example) ++ ["    versionName=1.0"] /\
  (version_name <$>
     fst (get_package_details script_run plain_repr "emulator-5554"
            "com.example.app" (idle [Completed dump_example "" 0])))
  = Some "1.0".
Proof.
  assert (Hs : "emulator-5554" <> "") by discriminate.
  assert (Hp : "com.example.app" <> "") by discriminate.
  assert (Hl : PyStr.splitlines dump_example
               = take 11 (PyStr.splitlines dump_example)
                 ++ ["    versionName=1.0"]) by (vm_compute; reflexivity).
  split; [reflexivity|]. split; [exact Hs|]. split; [exact Hp|].
  split; [exact Hl|].
  exact (package_details_last_version_wins script_run plain_repr
           (idle [Completed dump_example "" 0]) "emulator-5554"
           "com.example.app" dump_example "" []
           (take 11 (PyStr.splitlines dump_example)) "    versionName=1.0" []
           eq_refl Hs Hp eq_refl Hl eq_refl (Forall_nil_2 _)).
Defined.

(** [batch_commands] on the batch of the examples: three targets, five
    commands. *)
Lemma batch_commands_witness :
  adb_available (idle batch_script) = true /\
  "emulator-5554" <> "" /\
  Forall (fun p => p <> "") ["A"; "B"; "C"] /\
  exists (steps : list (string * outcome)) (middle : list event),
    map fst steps = ["A"; "B"; "C"] /\
    fst (_perform_uninstall_threaded script_run plain_repr "emulator-5554"
           ["A"; "B"; "C"] (idle batch_script))
    = record_outcomes steps ∅ /\
    List.filter is_spawn middle
    = flat_map (outcome_commands "emulator-5554") steps.
Proof.
  assert (Hs : "emulator-5554" <> "") by discriminate.
  assert (Hp : Forall (fun p : string => p <> "") ["A"; "B"; "C"])
    by (repeat constructor; discriminate).
  split; [reflexivity|]. split; [exact Hs|]. split; [exact Hp|].
  pose proof (batch_commands script_run plain_repr (idle batch_script)
                "emulator-5554" ["A"; "B"; "C"] eq_refl Hs Hp) as H.
  destruct (_perform_uninstall_threaded _ _ _ _ _) as [results st'].
  destruct H as (steps & middle & Hk & Hr & _ & Hsp & _).
  exists steps, middle. split; [exact Hk|]. split; [exact Hr|exact Hsp].
Defined.

(** [logcat_worker_forwards] on a child that prints two lines and an
    empty read in between. *)
Lemma logcat_worker_forwards_witness :
  stop_logcat_event (idle []) = false /\
  script_popen (logcat_command "emulator-5554") (world (idle []))
  = (inl 1%nat, []) /\
  _logcat_worker script_popen script_wait "emulator-5554"
    ["line 1 " +:+ LF; ""; "line 2"] (idle [])
  = (inr (AttributeError "stop_logcat"),
     mkState true (Some 1%nat) false []
       [EvPopen ["adb"; "-s"; "emulator-5554"; "logcat"; "-v"; "time"];
        EvLogLine "line 1"; EvLogLine "line 2"]).
Proof.
  split; [reflexivity|]. split; [reflexivity|].
  exact (logcat_worker_forwards script_popen script_wait (idle [])
           "emulator-5554" ["line 1 " +:+ LF; ""; "line 2"] 1%nat []
           eq_refl eq_refl).
Defined.

(** [install_apk_true_only] on an installation that succeeded. *)
Lemma install_apk_true_only_witness :
  fst (install_apk script_run script_exists posix_basename plain_repr
         "emulator-5554" "/tmp/app.apk" (idle [Completed "Success" "" 0]))
  = true /\
  reported_success
    (fst (script_run (install_command "emulator-5554" "/tmp/app.apk") 300
            (world (idle [Completed "Success" "" 0])))) = true.
Proof.
  assert (Hb : fst (install_apk script_run script_exists posix_basename
                      plain_repr "emulator-5554" "/tmp/app.apk"
                      (idle [Completed "Success" "" 0])) = true)
    by (vm_compute; reflexivity).
  split; [exact Hb|].
  pose proof (install_apk_true_only script_run script_exists posix_basename
                plain_repr (idle [Completed "Success" "" 0])
                "emulator-5554" "/tmp/app.apk" Hb) as H.
  destruct H as (_ & _ & _ & _ & H). exact H.
Defined.
